(** * Host-side Bluetooth LE control layer (os/net/bluetooth/bluetooth.c)

    A shallow embedding of the advertising-data encoder, the device-name
    accessors, the identity-address manager, the enable pipeline and the
    LE scan controller, together with the properties the specification
    states about them.

    Integers of the C code are [Z]; a [uint8_t] that is stored wraps with
    [u8].  Fixed-size arrays are lists whose length is the array size, so
    that [ARRAY_SIZE(a)] and [sizeof(a)] are [length a].  The global
    [g_btdev], the file-static variables and the state of the external
    collaborators form one [world], threaded by a small monad. *)

From stdpp Require Import base list strings.
From Stdlib Require Import ZArith Lia.

Open Scope Z_scope.

(** ** Constants *)

(** Modelled from the spec: the errno numbers live in the platform's
    errno.h, which is not part of the source file; the specification only
    names the error classes.  The values are the usual POSIX ones. *)
Module Errno.
Definition ENOENT : Z := 2.
Definition EAGAIN : Z := 11.
Definition ENOMEM : Z := 12.
Definition EBUSY : Z := 16.
Definition ENODEV : Z := 19.
Definition EINVAL : Z := 22.
Definition ENOBUFS : Z := 105.
Definition EALREADY : Z := 114.
End Errno.
Import Errno.

(** Modelled from the spec: assigned numbers of the Bluetooth headers
    (AD types, address types, scan parameters), absent from the source
    file. *)
Definition BT_DATA_NAME_SHORTENED : Z := 8.
Definition BT_DATA_NAME_COMPLETE : Z := 9.
Definition BT_ADDR_LE_PUBLIC : Z := 0.
Definition BT_ADDR_LE_RANDOM : Z := 1.
Definition BT_LE_SCAN_PASSIVE : Z := 0.
Definition BT_LE_SCAN_ACTIVE : Z := 1.
Definition BT_LE_SCAN_DISABLE : Z := 0.
Definition BT_LE_SCAN_ENABLE : Z := 1.
Definition BT_LE_SCAN_FILTER_DUP_DISABLE : Z := 0.
Definition BT_LE_SCAN_FILTER_DUP_ENABLE : Z := 1.
Definition BT_ID_DEFAULT : Z := 0.

(** The HCI opcodes used by this file. *)
Inductive hci_opcode : Type :=
| BT_HCI_OP_LE_SET_ADV_ENABLE
| BT_HCI_OP_LE_SET_ADV_DATA
| BT_HCI_OP_LE_SET_SCAN_RSP_DATA
| BT_HCI_OP_LE_SET_SCAN_ENABLE
| BT_HCI_OP_LE_SET_SCAN_PARAMS.

(** The bits of [g_btdev.flags] this file touches. *)
Inductive bt_dev_flag : Type :=
| BT_DEV_ENABLE
| BT_DEV_READY
| BT_DEV_USER_ID_ADDR
| BT_DEV_ADVERTISING
| BT_DEV_ADVERTISING_NAME
| BT_DEV_SCANNING
| BT_DEV_EXPLICIT_SCAN
| BT_DEV_ACTIVE_SCAN
| BT_DEV_SCAN_FILTER_DUP.

(** Modelled from the spec: the bit numbers come from an enum of
    bt_hcicore.h that is not in the source file; any injective numbering
    serves. *)
Definition flag_bit (f : bt_dev_flag) : Z :=
  match f with
  | BT_DEV_ENABLE => 0
  | BT_DEV_READY => 1
  | BT_DEV_USER_ID_ADDR => 2
  | BT_DEV_ADVERTISING => 3
  | BT_DEV_ADVERTISING_NAME => 4
  | BT_DEV_SCANNING => 5
  | BT_DEV_EXPLICIT_SCAN => 6
  | BT_DEV_ACTIVE_SCAN => 7
  | BT_DEV_SCAN_FILTER_DUP => 8
  end.

#[export] Instance bt_dev_flag_eq_dec : EqDecision bt_dev_flag.
Proof. solve_decision. Defined.

(** ** Bytes, strings and addresses *)

Definition u8 (x : Z) : Z := x mod 256.

Definition b2z (b : bool) : Z := if b then 1 else 0.

(** [memcmp]: zero exactly when the two byte sequences agree; the sign of
    a non-zero result follows the first differing byte. *)
Fixpoint memcmp (a b : list Z) : Z :=
  match a, b with
  | [], [] => 0
  | [], _ :: _ => -1
  | _ :: _, [] => 1
  | x :: a', y :: b' => if x =? y then memcmp a' b' else x - y
  end.

(** The characters of the C string stored at the start of [s]: everything
    before the first NUL. *)
Fixpoint c_str (s : list Z) : list Z :=
  match s with
  | [] => []
  | c :: s' => if c =? 0 then [] else c :: c_str s'
  end.

Definition strlen (s : list Z) : Z := Z.of_nat (length (c_str s)).

Definition strcmp (a b : list Z) : Z := memcmp (c_str a) (c_str b).

(** [strncpy(dst, src, n)] leaves in [dst] the characters of [src] (at most
    [n] of them) padded with NUL up to [n] bytes. *)
Definition strncpy (src : list Z) (n : nat) : list Z := resize n 0 (c_str src).

Record bt_addr_le_t : Type := mk_addr {
  addr_type : Z;
  addr_val : list Z
}.

Definition BT_ADDR_LE_ANY : bt_addr_le_t :=
  {| addr_type := 0; addr_val := [0; 0; 0; 0; 0; 0] |}.

(** Modelled from the spec: [bt_addr_le_cmp] is an inline helper of the
    headers (a [memcmp] of the two structures); "compare equal" in the
    specification. *)
Definition bt_addr_le_cmp (a b : bt_addr_le_t) : Z :=
  memcmp (addr_type a :: addr_val a) (addr_type b :: addr_val b).

(** Modelled from the spec: the static-address macros of the headers; a
    static random address has its two most significant bits set. *)
Definition BT_ADDR_IS_STATIC (a : bt_addr_le_t) : bool :=
  Z.land (addr_val a !!! 5%nat) 192 =? 192.

Definition BT_ADDR_SET_STATIC (a : bt_addr_le_t) : bt_addr_le_t :=
  {| addr_type := addr_type a;
     addr_val := <[5%nat := Z.lor (addr_val a !!! 5%nat) 192]> (addr_val a) |}.

(** ** Advertising records and the command payload *)

(** [struct bt_data]: an AD type, the payload length and the payload. *)
Record bt_data : Type := BT_DATA {
  data_type : Z;
  data_len : Z;
  data_bytes : list Z
}.

(** [struct bt_ad]: an array of records with its element count. *)
Definition bt_ad : Type := list bt_data.

(** [struct bt_hci_cp_le_set_adv_data_s]: a length byte and 31 data bytes. *)
Record set_adv_data : Type := mk_set_data {
  sd_len : Z;
  sd_data : list Z
}.

Definition SET_DATA_SIZE : Z := 32.

(** The payload right after its [memset] to zero. *)
Definition set_data_zero : set_adv_data :=
  {| sd_len := 0; sd_data := replicate 31 0 |}.

(** Result of filling the payload: filled, rejected as too big, or a write
    outside the 31-byte array (undefined behaviour in C). *)
Inductive enc_result : Type :=
| EncOk (sd : set_adv_data)
| EncTooBig
| EncFault.

(** [data[i] = v] on a [uint8_t] array, defined only inside the array. *)
Definition buf_store (i v : Z) (d : list Z) : option (list Z) :=
  if (0 <=? i) && (i <? Z.of_nat (length d))
  then Some (<[Z.to_nat i := u8 v]> d)
  else None.

(** [memcpy(&data[i], src, n)], defined only when [n] is not negative (it
    is converted to [size_t]), the destination range lies inside the array
    and the source holds [n] bytes. *)
Definition buf_memcpy (i : Z) (src : list Z) (n : Z) (d : list Z) : option (list Z) :=
  if (0 <=? n) && (0 <=? i) && (i + n <=? Z.of_nat (length d))
     && (n <=? Z.of_nat (length src))
  then Some (take (Z.to_nat i) d ++ take (Z.to_nat n) src
             ++ drop (Z.to_nat (i + n)) d)
  else None.

(** The three writes at the end of the inner loop body of [set_ad]. *)
Definition ad_write (len type : Z) (src : list Z) (sd : set_adv_data) : enc_result :=
  match buf_store (sd_len sd) (len + 1) (sd_data sd) with
  | None => EncFault
  | Some b1 =>
    let l1 := u8 (sd_len sd + 1) in
    match buf_store l1 type b1 with
    | None => EncFault
    | Some b2 =>
      let l2 := u8 (l1 + 1) in
      match buf_memcpy l2 src len b2 with
      | None => EncFault
      | Some b3 => EncOk {| sd_len := u8 (l2 + len); sd_data := b3 |}
      end
    end
  end.

(** One iteration of the inner loop of [set_ad]. *)
Definition ad_append (d : bt_data) (sd : set_adv_data) : enc_result :=
  let len := data_len d in
  let type := data_type d in
  if sd_len sd + len + 2 >? 31 then
    let len := 31 - (sd_len sd + 2) in
    if negb (type =? BT_DATA_NAME_COMPLETE) || (len =? 0) then EncTooBig
    else ad_write len BT_DATA_NAME_SHORTENED (data_bytes d) sd
  else ad_write len type (data_bytes d) sd.

(** The inner loop: [for (i = 0; i < ad[c].len; i++)]. *)
Fixpoint ad_fill (ds : list bt_data) (sd : set_adv_data) : enc_result :=
  match ds with
  | [] => EncOk sd
  | d :: ds' =>
    match ad_append d sd with
    | EncOk sd' => ad_fill ds' sd'
    | r => r
    end
  end.

(** The outer loop: [for (c = 0; c < ad_len; c++)]. *)
Fixpoint ad_fill_all (ad : list bt_ad) (sd : set_adv_data) : enc_result :=
  match ad with
  | [] => EncOk sd
  | a :: ad' =>
    match ad_fill a sd with
    | EncOk sd' => ad_fill_all ad' sd'
    | r => r
    end
  end.

(** ** The device state and the world around it *)

(** The fields of [struct bt_dev_s] this file reads or writes.  [btdev] is
    the driver pointer: [true] when a driver is bound. *)
Record bt_dev_s : Type := mk_dev {
  flags : Z;
  name : list Z;
  id_addr : list bt_addr_le_t;
  id_count : Z;
  adv_id : Z;
  adv_enable : Z;
  btdev : bool
}.

(** Parameters of the commands this file builds, field by field. *)
Inductive hci_payload : Type :=
| CpAdvEnable (enable : Z)
| CpAdvData (sd : set_adv_data)
| CpScanEnable (enable filter_dup : Z)
| CpScanParams (scan_type interval window filter_policy addr_type : Z).

(** Calls made to the collaborators, with what they answered. *)
Inductive call : Type :=
| CmdCreate (op : hci_opcode) (len : Z) (ok : bool)
| CmdSendSync (op : hci_opcode) (cp : hci_payload) (status : Z)
| CmdSend (op : hci_opcode) (cp : hci_payload)
| BufRelease
| DrvOpen (status : Z)
| HciInitialize (status : Z)
| L2capInit (status : Z)
| Rand (status : Z) (bytes : list Z)
| WorkQueue (status : Z)
| ReadyCb (cb : nat) (err : Z).

Section State.
Variable T : Type.

(** [g_btdev], the file-static variables [scan_dev_found_cb], [ready_cb]
    and [g_hip_work] ([true] while the work item is queued), the state [T]
    of the collaborators and the calls made to them, newest first. *)
Record world : Type := mk_world {
  g_btdev : bt_dev_s;
  scan_dev_found_cb : option nat;
  ready_cb : option nat;
  g_hip_work : bool;
  ext : T;
  trace : list call
}.

Definition with_dev (d : bt_dev_s) (w : world) : world :=
  {| g_btdev := d; scan_dev_found_cb := scan_dev_found_cb w;
     ready_cb := ready_cb w; g_hip_work := g_hip_work w;
     ext := ext w; trace := trace w |}.

Definition with_ext (t : T) (c : call) (w : world) : world :=
  {| g_btdev := g_btdev w; scan_dev_found_cb := scan_dev_found_cb w;
     ready_cb := ready_cb w; g_hip_work := g_hip_work w;
     ext := t; trace := c :: trace w |}.

Definition with_scan_cb (cb : option nat) (w : world) : world :=
  {| g_btdev := g_btdev w; scan_dev_found_cb := cb;
     ready_cb := ready_cb w; g_hip_work := g_hip_work w;
     ext := ext w; trace := trace w |}.

Definition with_ready_cb (cb : option nat) (w : world) : world :=
  {| g_btdev := g_btdev w; scan_dev_found_cb := scan_dev_found_cb w;
     ready_cb := cb; g_hip_work := g_hip_work w;
     ext := ext w; trace := trace w |}.

Definition with_hip_work (q : bool) (w : world) : world :=
  {| g_btdev := g_btdev w; scan_dev_found_cb := scan_dev_found_cb w;
     ready_cb := ready_cb w; g_hip_work := q;
     ext := ext w; trace := trace w |}.

(** *** The monad

    A computation takes the world and either returns a value with the new
    world, runs into undefined behaviour ([Fault]), or is still retrying
    when its fuel is spent ([OutOfFuel]). *)
Inductive outcome (A : Type) : Type :=
| Done (a : A) (w : world)
| Fault
| OutOfFuel.

Definition M (A : Type) : Type := world → outcome A.

Definition ret {A} (a : A) : M A := λ w, Done A a w.

Definition bind {A B} (m : M A) (k : A → M B) : M B :=
  λ w, match m w with
       | Done _ a w' => k a w'
       | Fault _ => Fault B
       | OutOfFuel _ => OutOfFuel B
       end.

End State.

Arguments mk_world {T}.
Arguments g_btdev {T} w.
Arguments scan_dev_found_cb {T} w.
Arguments ready_cb {T} w.
Arguments g_hip_work {T} w.
Arguments ext {T} w.
Arguments trace {T} w.
Arguments with_dev {T} d w.
Arguments with_ext {T} t c w.
Arguments with_scan_cb {T} cb w.
Arguments with_ready_cb {T} cb w.
Arguments with_hip_work {T} q w.
Arguments Done {T A} a w.
Arguments Fault {T A}.
Arguments OutOfFuel {T A}.
Arguments ret {T A} a w.
Arguments bind {T A B} m k w.

Notation "x <- m ;; k" := (bind m (λ x, k))
  (at level 100, m at next level, right associativity).
Notation "'exec' m ;; k" := (bind m (λ _, k))
  (at level 100, m at next level, right associativity).

Definition with_flags (f : Z) (d : bt_dev_s) : bt_dev_s :=
  {| flags := f; name := name d; id_addr := id_addr d;
     id_count := id_count d; adv_id := adv_id d;
     adv_enable := adv_enable d; btdev := btdev d |}.

Definition with_name (n : list Z) (d : bt_dev_s) : bt_dev_s :=
  {| flags := flags d; name := n; id_addr := id_addr d;
     id_count := id_count d; adv_id := adv_id d;
     adv_enable := adv_enable d; btdev := btdev d |}.

Definition with_id_addr (l : list bt_addr_le_t) (d : bt_dev_s) : bt_dev_s :=
  {| flags := flags d; name := name d; id_addr := l;
     id_count := id_count d; adv_id := adv_id d;
     adv_enable := adv_enable d; btdev := btdev d |}.

Definition with_id_count (c : Z) (d : bt_dev_s) : bt_dev_s :=
  {| flags := flags d; name := name d; id_addr := id_addr d;
     id_count := c; adv_id := adv_id d;
     adv_enable := adv_enable d; btdev := btdev d |}.

Definition with_adv_enable (e : Z) (d : bt_dev_s) : bt_dev_s :=
  {| flags := flags d; name := name d; id_addr := id_addr d;
     id_count := id_count d; adv_id := adv_id d;
     adv_enable := e; btdev := btdev d |}.

(** The collaborators of this file: the HCI transport, the driver, the
    link-layer initialisation, the random source and the work queue.  Each
    acts on its own state [T] and answers with a status.  The configured
    default device name is a build-time constant. *)
Class Collaborators (T : Type) : Type := {
  hci_cmd_create : hci_opcode → Z → T → bool * T;
  hci_cmd_send_sync : hci_opcode → hci_payload → T → Z * T;
  hci_cmd_send : hci_opcode → hci_payload → T → T;
  buf_release : T → T;
  drv_open : T → Z * T;
  hci_init : T → Z * T;
  l2cap_init : T → Z * T;
  rand_bytes : Z → T → (Z * list Z) * T;
  hp_work_queue : T → Z * T;
  CONFIG_BT_DEVICE_NAME : list Z
}.

Section Host.
Context {T : Type} `{!Collaborators T}.

Local Abbreviation world := (world T).
Local Abbreviation M := (M T).

Definition get_dev : M bt_dev_s := λ w, Done (g_btdev w) w.
Definition modify_dev (f : bt_dev_s → bt_dev_s) : M unit :=
  λ w, Done () (with_dev (f (g_btdev w)) w).

(** The atomic bit operations on [g_btdev.flags]. *)
Definition bt_atomic_testbit (f : bt_dev_flag) : M bool :=
  λ w, Done (Z.testbit (flags (g_btdev w)) (flag_bit f)) w.
Definition bt_atomic_setbit (f : bt_dev_flag) : M unit :=
  modify_dev (λ d, with_flags (Z.setbit (flags d) (flag_bit f)) d).
Definition bt_atomic_clrbit (f : bt_dev_flag) : M unit :=
  modify_dev (λ d, with_flags (Z.clearbit (flags d) (flag_bit f)) d).
Definition bt_atomic_testsetbit (f : bt_dev_flag) : M bool :=
  old <- bt_atomic_testbit f ;; exec bt_atomic_setbit f ;; ret old.

(** The collaborators, as calls that are recorded in the trace. *)
Definition bt_hci_cmd_create (op : hci_opcode) (len : Z) : M bool :=
  λ w, let '(ok, t) := hci_cmd_create op len (ext w) in
       Done ok (with_ext t (CmdCreate op len ok) w).
Definition bt_hci_cmd_send_sync (op : hci_opcode) (cp : hci_payload) : M Z :=
  λ w, let '(st, t) := hci_cmd_send_sync op cp (ext w) in
       Done st (with_ext t (CmdSendSync op cp st) w).
Definition bt_hci_cmd_send (op : hci_opcode) (cp : hci_payload) : M unit :=
  λ w, Done () (with_ext (hci_cmd_send op cp (ext w)) (CmdSend op cp) w).
Definition bt_buf_release : M unit :=
  λ w, Done () (with_ext (buf_release (ext w)) BufRelease w).
Definition bt_rand (len : Z) : M (Z * list Z) :=
  λ w, let '(r, t) := rand_bytes len (ext w) in
       Done r (with_ext t (Rand r.1 r.2) w).

Definition fault {A} : M A := λ _, Fault.
Definition out_of_fuel {A} : M A := λ _, OutOfFuel.

(** ** Advertising *)

Definition set_advertise_enable (enable : bool) : M Z :=
  buf <- bt_hci_cmd_create BT_HCI_OP_LE_SET_ADV_ENABLE 1 ;;
  if negb buf then ret (- ENOBUFS) else
  d <- get_dev ;;
  err <- bt_hci_cmd_send_sync BT_HCI_OP_LE_SET_ADV_ENABLE
          (CpAdvEnable (adv_enable d)) ;;
  if negb (err =? 0) then ret err else
  exec modify_dev (with_adv_enable (b2z enable)) ;;
  exec (if enable then bt_atomic_setbit BT_DEV_ADVERTISING
        else bt_atomic_clrbit BT_DEV_ADVERTISING) ;;
  ret 0.

Definition set_ad (hci_op : hci_opcode) (ad : list bt_ad) : M Z :=
  buf <- bt_hci_cmd_create hci_op SET_DATA_SIZE ;;
  if negb buf then ret (- ENOBUFS) else
  match ad_fill_all ad set_data_zero with
  | EncOk set_data => bt_hci_cmd_send_sync hci_op (CpAdvData set_data)
  | EncTooBig => exec bt_buf_release ;; ret (- EINVAL)
  | EncFault => fault
  end.

(** ** The device name *)

Definition bt_set_name (new_name : list Z) : M Z :=
  let len := strlen new_name in
  d <- get_dev ;;
  if len >=? Z.of_nat (length (name d)) then ret (- ENOMEM) else
  if strcmp (name d) new_name =? 0 then ret 0 else
  exec modify_dev (with_name (strncpy new_name (length (name d)))) ;;
  adv_name <- bt_atomic_testbit BT_DEV_ADVERTISING_NAME ;;
  if adv_name then
    let data := [BT_DATA BT_DATA_NAME_COMPLETE (u8 (strlen new_name)) new_name] in
    exec set_ad BT_HCI_OP_LE_SET_SCAN_RSP_DATA [data] ;;
    adv <- bt_atomic_testbit BT_DEV_ADVERTISING ;;
    if adv then
      exec set_advertise_enable false ;;
      exec set_advertise_enable true ;;
      ret 0
    else ret 0
  else ret 0.

Definition bt_get_name (w : world) : list Z := name (g_btdev w).

(** ** Identity addresses *)

(** The loop of [id_find] over the first [id_count] slots. *)
Fixpoint id_find_from (addr : bt_addr_le_t) (l : list bt_addr_le_t) (id : Z) : Z :=
  match l with
  | [] => - ENOENT
  | a :: l' =>
    if bt_addr_le_cmp addr a =? 0 then id else id_find_from addr l' (id + 1)
  end.

Definition id_find (addr : bt_addr_le_t) : M Z :=
  d <- get_dev ;;
  ret (id_find_from addr (take (Z.to_nat (id_count d)) (id_addr d)) 0).

(** [g_btdev.id_addr[id]]; a read outside the array is undefined in C and
    gives the wildcard here. *)
Definition id_addr_at (d : bt_dev_s) (id : Z) : bt_addr_le_t :=
  default BT_ADDR_LE_ANY (id_addr d !! Z.to_nat id).

(** [bt_addr_le_copy(&g_btdev.id_addr[id], a)]. *)
Definition set_id_addr (id : Z) (a : bt_addr_le_t) : M unit :=
  modify_dev (λ d, with_id_addr (<[Z.to_nat id := a]> (id_addr d)) d).

(** The address buffer is an out-parameter: the result carries the status
    and what the buffer holds afterwards (type [RANDOM] and the six bytes
    the random source left there). *)
Definition create_random_addr : M (Z * bt_addr_le_t) :=
  r <- bt_rand 6 ;;
  ret (r.1, {| addr_type := BT_ADDR_LE_RANDOM; addr_val := resize 6 0 r.2 |}).

Definition bt_addr_le_create_static : M (Z * bt_addr_le_t) :=
  r <- create_random_addr ;;
  if negb (r.1 =? 0) then ret r else ret (0, BT_ADDR_SET_STATIC r.2).

(** The [do ... while (id_find(&new_addr) >= 0)] loop of [id_create]; the
    status of [bt_addr_le_create_static] is not looked at. *)
Fixpoint id_new_addr (fuel : nat) : M bt_addr_le_t :=
  match fuel with
  | O => out_of_fuel
  | S fuel' =>
    r <- bt_addr_le_create_static ;;
    found <- id_find r.2 ;;
    if found >=? 0 then id_new_addr fuel' else ret r.2
  end.

(** [addr && bt_addr_le_cmp(addr, BT_ADDR_LE_ANY)]. *)
Definition addr_given (addr : option bt_addr_le_t) : bool :=
  match addr with
  | Some a => negb (bt_addr_le_cmp a BT_ADDR_LE_ANY =? 0)
  | None => false
  end.

(** [addr] is [None] for a NULL pointer; the result is what [*addr] holds
    on return.  [irk] is not used by the compiled code. *)
Definition id_create (fuel : nat) (id : Z) (addr : option bt_addr_le_t)
    (irk : option (list Z)) : M (option bt_addr_le_t) :=
  match addr with
  | Some a =>
    if negb (bt_addr_le_cmp a BT_ADDR_LE_ANY =? 0) then
      exec set_id_addr id a ;; ret addr
    else
      new_addr <- id_new_addr fuel ;;
      exec set_id_addr id new_addr ;;
      d <- get_dev ;;
      ret (Some (id_addr_at d id))
  | None =>
    new_addr <- id_new_addr fuel ;;
    exec set_id_addr id new_addr ;;
    ret None
  end.

Definition bt_id_create (fuel : nat) (addr : option bt_addr_le_t)
    (irk : option (list Z)) : M (Z * option bt_addr_le_t) :=
  let allocate : M (Z * option bt_addr_le_t) :=
    d <- get_dev ;;
    if id_count d =? Z.of_nat (length (id_addr d)) then ret (- ENOMEM, addr) else
    let new_id := id_count d in
    exec modify_dev (with_id_count (u8 (id_count d + 1))) ;;
    ready <- bt_atomic_testbit BT_DEV_READY ;;
    exec (if (new_id =? BT_ID_DEFAULT) && negb ready
          then bt_atomic_setbit BT_DEV_USER_ID_ADDR else ret ()) ;;
    out <- id_create fuel new_id addr irk ;;
    ret (new_id, out) in
  match addr with
  | Some a =>
    if negb (bt_addr_le_cmp a BT_ADDR_LE_ANY =? 0) then
      if negb (addr_type a =? BT_ADDR_LE_RANDOM) || negb (BT_ADDR_IS_STATIC a)
      then ret (- EINVAL, addr)
      else
        found <- id_find a ;;
        if found >=? 0 then ret (- EALREADY, addr) else allocate
    else allocate
  | None => allocate
  end.

Definition bt_set_id_addr (fuel : nat) (addr : bt_addr_le_t) : M Z :=
  ready <- bt_atomic_testbit BT_DEV_READY ;;
  if ready then ret (- EBUSY) else
  r <- bt_id_create fuel (Some addr) None ;;
  ret r.1.

(** A stub in this file. *)
Definition bt_unpair (id : Z) (addr : option bt_addr_le_t) : M Z := ret 0.

Definition bt_id_reset (fuel : nat) (id : Z) (addr : option bt_addr_le_t)
    (irk : option (list Z)) : M (Z * option bt_addr_le_t) :=
  let reset : M (Z * option bt_addr_le_t) :=
    d <- get_dev ;;
    if (id =? BT_ID_DEFAULT) || (id >=? id_count d) then ret (- EINVAL, addr) else
    adv <- bt_atomic_testbit BT_DEV_ADVERTISING ;;
    if (id =? adv_id d) && adv then ret (- EBUSY, addr) else
    err <- (if negb (bt_addr_le_cmp (id_addr_at d id) BT_ADDR_LE_ANY =? 0)
            then bt_unpair id None else ret 0) ;;
    if negb (err =? 0) then ret (err, addr) else
    out <- id_create fuel id addr irk ;;
    ret (id, out) in
  match addr with
  | Some a =>
    if negb (bt_addr_le_cmp a BT_ADDR_LE_ANY =? 0) then
      if negb (addr_type a =? BT_ADDR_LE_RANDOM) || negb (BT_ADDR_IS_STATIC a)
      then ret (- EINVAL, addr)
      else
        found <- id_find a ;;
        if found >=? 0 then ret (- EALREADY, addr) else reset
    else reset
  | None => reset
  end.

Definition bt_id_delete (id : Z) : M Z :=
  d <- get_dev ;;
  if (id =? BT_ID_DEFAULT) || (id >=? id_count d) then ret (- EINVAL) else
  if bt_addr_le_cmp (id_addr_at d id) BT_ADDR_LE_ANY =? 0 then ret (- EALREADY) else
  adv <- bt_atomic_testbit BT_DEV_ADVERTISING ;;
  if (id =? adv_id d) && adv then ret (- EBUSY) else
  err <- bt_unpair id None ;;
  if negb (err =? 0) then ret err else
  exec set_id_addr id BT_ADDR_LE_ANY ;;
  exec (if id =? id_count d - 1
        then modify_dev (with_id_count (u8 (id_count d - 1))) else ret ()) ;;
  ret 0.

(** ** The enable pipeline *)

Definition bt_drv_open : M Z :=
  λ w, let '(st, t) := drv_open (ext w) in
       Done st (with_ext t (DrvOpen st) w).
Definition hci_initialize : M Z :=
  λ w, let '(st, t) := hci_init (ext w) in
       Done st (with_ext t (HciInitialize st) w).
Definition bt_l2cap_init : M Z :=
  λ w, let '(st, t) := l2cap_init (ext w) in
       Done st (with_ext t (L2capInit st) w).
Definition work_queue : M Z :=
  λ w, let '(st, t) := hp_work_queue (ext w) in
       Done st (with_ext t (WorkQueue st) w).
(** Calling the application's callback. *)
Definition invoke_ready_cb (cb : nat) (err : Z) : M unit :=
  λ w, Done () (with_ext (ext w) (ReadyCb cb err) w).

(** Only prints. *)
Definition bt_dev_show_info : M unit := ret ().

Definition bt_finalize_init : M unit :=
  exec bt_atomic_setbit BT_DEV_READY ;;
  bt_dev_show_info.

Definition bt_conn_init : M Z :=
  err <- bt_l2cap_init ;;
  if err <? 0 then ret err else ret err.

Definition bt_init : M Z :=
  r <- hci_initialize ;;
  if r <? 0 then ret r else
  r <- bt_conn_init ;;
  if r <? 0 then ret r else
  exec bt_finalize_init ;;
  ret r.

Definition init_work : M unit :=
  err <- bt_init ;;
  λ w, match ready_cb w with
       | Some cb => invoke_ready_cb cb err w
       | None => ret () w
       end.

(** The work item counts as queued once [work_queue] has accepted it. *)
Definition k_work_submit : M unit :=
  λ w, if negb (g_hip_work w) then
         (err <- work_queue ;;
          λ w', Done () (with_hip_work (negb (err <? 0)) w')) w
       else ret () w.

Definition bt_enable (cb : option nat) : M Z :=
  d <- get_dev ;;
  if negb (btdev d) then ret (- ENODEV) else
  already <- bt_atomic_testsetbit BT_DEV_ENABLE ;;
  if already then ret (- EALREADY) else
  exec bt_set_name CONFIG_BT_DEVICE_NAME ;;
  exec (λ w, Done () (with_ready_cb cb w)) ;;
  err <- bt_drv_open ;;
  if negb (err =? 0) then ret err else
  match cb with
  | None => bt_init
  | Some _ => exec k_work_submit ;; ret 0
  end.

(** ** The LE scan controller *)

Record bt_le_scan_param : Type := mk_scan_param {
  scan_type : Z;
  filter_dup : Z;
  interval : Z;
  window : Z
}.

Definition valid_le_scan_param (param : bt_le_scan_param) : bool :=
  if negb (scan_type param =? BT_LE_SCAN_PASSIVE)
     && negb (scan_type param =? BT_LE_SCAN_ACTIVE) then false else
  if negb (filter_dup param =? BT_LE_SCAN_FILTER_DUP_DISABLE)
     && negb (filter_dup param =? BT_LE_SCAN_FILTER_DUP_ENABLE) then false else
  if (interval param <? 4) || (interval param >? 16384) then false else
  if (window param <? 4) || (window param >? 16384) then false else
  if window param >? interval param then false else
  true.

(** The command parameters are two bytes here and seven in
    [start_le_scan] (the sizes of the parameter structures). *)
Definition set_le_scan_enable (enable : Z) : M Z :=
  buf <- bt_hci_cmd_create BT_HCI_OP_LE_SET_SCAN_ENABLE 2 ;;
  if negb buf then ret (- ENOBUFS) else
  fd <- (if enable =? BT_LE_SCAN_ENABLE
         then b <- bt_atomic_testbit BT_DEV_SCAN_FILTER_DUP ;; ret (b2z b)
         else ret BT_LE_SCAN_FILTER_DUP_DISABLE) ;;
  err <- bt_hci_cmd_send_sync BT_HCI_OP_LE_SET_SCAN_ENABLE
           (CpScanEnable enable fd) ;;
  if negb (err =? 0) then ret err else
  exec (if negb (enable =? 0) then bt_atomic_setbit BT_DEV_SCANNING
        else bt_atomic_clrbit BT_DEV_SCANNING) ;;
  ret 0.

Definition start_le_scan (type interval window : Z) : M Z :=
  buf <- bt_hci_cmd_create BT_HCI_OP_LE_SET_SCAN_PARAMS 7 ;;
  if negb buf then ret (- ENOBUFS) else
  exec bt_hci_cmd_send BT_HCI_OP_LE_SET_SCAN_PARAMS
         (CpScanParams type interval window 0 0) ;;
  err <- set_le_scan_enable BT_LE_SCAN_ENABLE ;;
  if negb (err =? 0) then ret err else
  exec (if type =? BT_LE_SCAN_ACTIVE then bt_atomic_setbit BT_DEV_ACTIVE_SCAN
        else bt_atomic_clrbit BT_DEV_ACTIVE_SCAN) ;;
  ret 0.

Definition bt_le_scan_start (param : bt_le_scan_param) (cb : option nat) : M Z :=
  ready <- bt_atomic_testbit BT_DEV_READY ;;
  if negb ready then ret (- EAGAIN) else
  if negb (valid_le_scan_param param) then ret (- EINVAL) else
  explicit <- bt_atomic_testsetbit BT_DEV_EXPLICIT_SCAN ;;
  if explicit then ret (- EALREADY) else
  scanning <- bt_atomic_testbit BT_DEV_SCANNING ;;
  err <- (if scanning then set_le_scan_enable BT_LE_SCAN_DISABLE else ret 0) ;;
  if negb (err =? 0) then
    exec bt_atomic_clrbit BT_DEV_EXPLICIT_SCAN ;; ret err
  else
  exec (if negb (filter_dup param =? 0)
        then bt_atomic_setbit BT_DEV_SCAN_FILTER_DUP
        else bt_atomic_clrbit BT_DEV_SCAN_FILTER_DUP) ;;
  err <- start_le_scan (scan_type param) (interval param) (window param) ;;
  if negb (err =? 0) then
    exec bt_atomic_clrbit BT_DEV_EXPLICIT_SCAN ;; ret err
  else
  exec (λ w, Done () (with_scan_cb cb w)) ;;
  ret 0.

End Host.

(** ** Specification-side definitions *)

(** A record as a caller can pass it: byte-sized type and length, and at
    least [data_len] bytes behind the data pointer. *)
Definition bt_data_wf (d : bt_data) : Prop :=
  0 ≤ data_type d < 256 ∧ 0 ≤ data_len d < 256
  ∧ data_len d ≤ Z.of_nat (length (data_bytes d)).

(** The serialized form of one record: length byte, type byte, payload. *)
Definition ad_triple (d : bt_data) : list Z :=
  (data_len d + 1) :: data_type d :: take (Z.to_nat (data_len d)) (data_bytes d).

Definition ad_concat (ds : list bt_data) : list Z :=
  concat (map ad_triple ds).

(** Cumulative encoded length of a sequence of records. *)
Fixpoint encoded_len (ds : list bt_data) : Z :=
  match ds with
  | [] => 0
  | d :: ds' => data_len d + 2 + encoded_len ds'
  end.

(** The 31 data bytes holding [bytes] followed by the zeros of the initial
    [memset]. *)
Definition padded (bytes : list Z) : list Z :=
  bytes ++ replicate (31 - length bytes) 0.

(** Reading and writing one flag of the world's device state. *)
Definition has_flag {T} (f : bt_dev_flag) (w : world T) : bool :=
  Z.testbit (flags (g_btdev w)) (flag_bit f).

Definition set_flag {T} (f : bt_dev_flag) (w : world T) : world T :=
  with_dev (with_flags (Z.setbit (flags (g_btdev w)) (flag_bit f)) (g_btdev w)) w.

Definition clr_flag {T} (f : bt_dev_flag) (w : world T) : world T :=
  with_dev (with_flags (Z.clearbit (flags (g_btdev w)) (flag_bit f)) (g_btdev w)) w.

(** The world right after [start_le_scan] has handed the scan parameters
    to the transport (fire and forget). *)
Definition scan_params_sent {T} `{!Collaborators T} (type itv win : Z)
    (w : world T) : world T :=
  with_ext (hci_cmd_send BT_HCI_OP_LE_SET_SCAN_PARAMS
              (CpScanParams type itv win 0 0) (ext w))
    (CmdSend BT_HCI_OP_LE_SET_SCAN_PARAMS (CpScanParams type itv win 0 0)) w.

(** The conditions the specification lists for scan parameters. *)
Definition scan_param_ok (p : bt_le_scan_param) : Prop :=
  (scan_type p = BT_LE_SCAN_PASSIVE ∨ scan_type p = BT_LE_SCAN_ACTIVE)
  ∧ (filter_dup p = BT_LE_SCAN_FILTER_DUP_DISABLE
     ∨ filter_dup p = BT_LE_SCAN_FILTER_DUP_ENABLE)
  ∧ 4 ≤ interval p ≤ 16384
  ∧ 4 ≤ window p ≤ 16384
  ∧ window p ≤ interval p.

(** The identity table is in a sound state: the count is within the
    array, and the array is small enough for the [uint8_t] count. *)
Definition id_wf (d : bt_dev_s) : Prop :=
  0 ≤ id_count d ≤ Z.of_nat (length (id_addr d))
  ∧ Z.of_nat (length (id_addr d)) < 256.

(** The entries [identity_addresses[0..identity_count)]. *)
Definition id_table (d : bt_dev_s) : list bt_addr_le_t :=
  take (Z.to_nat (id_count d)) (id_addr d).

(** A random address of the static subtype. *)
Definition static_random (a : bt_addr_le_t) : Prop :=
  addr_type a = BT_ADDR_LE_RANDOM ∧ BT_ADDR_IS_STATIC a = true.

(** No two entries of the table compare equal. *)
Definition ids_distinct (d : bt_dev_s) : Prop :=
  ∀ (i j : nat) (a b : bt_addr_le_t),
    i ≠ j → id_table d !! i = Some a → id_table d !! j = Some b →
    bt_addr_le_cmp a b ≠ 0.

(** No two entries of the table compare equal, unless both are the
    wildcard left by a deletion. *)
Definition ids_distinct_but_wildcard (d : bt_dev_s) : Prop :=
  ∀ (i j : nat) (a b : bt_addr_le_t),
    i ≠ j → id_table d !! i = Some a → id_table d !! j = Some b →
    bt_addr_le_cmp a b = 0 → a = BT_ADDR_LE_ANY.

(** The specification's "last occupied slot": slot [id] of the table holds
    an identity and every slot after it, up to the count, is a wildcard. *)
Definition last_occupied (d : bt_dev_s) (id : Z) : Prop :=
  id_addr_at d id ≠ BT_ADDR_LE_ANY
  ∧ ∀ j, id < j < id_count d → id_addr_at d j = BT_ADDR_LE_ANY.

(** What one identity operation can do to the table: nothing; overwrite a
    slot of the table with an address that was not in it; append such an
    address; or clear a slot other than slot 0 to the wildcard, dropping it
    from the count when it was the last one. *)
Definition id_step (d d' : bt_dev_s) : Prop :=
  (id_addr d' = id_addr d ∧ id_count d' = id_count d)
  ∨ (∃ id new,
       0 ≤ id < id_count d ∧ (new ∉ id_table d)
       ∧ id_addr d' = <[Z.to_nat id := new]> (id_addr d)
       ∧ id_count d' = id_count d)
  ∨ (∃ new,
       id_count d < Z.of_nat (length (id_addr d)) ∧ (new ∉ id_table d)
       ∧ id_addr d' = <[Z.to_nat (id_count d) := new]> (id_addr d)
       ∧ id_count d' = id_count d + 1)
  ∨ (∃ id,
       0 < id < id_count d
       ∧ id_addr d' = <[Z.to_nat id := BT_ADDR_LE_ANY]> (id_addr d)
       ∧ (id_count d' = id_count d
          ∨ id = id_count d - 1 ∧ id_count d' = id_count d - 1)).

(** The outcome of [bt_id_create] with result [r]: a failure that leaves
    the world alone, or an address [new], absent from the table so far (the
    caller's address when one was given), stored at index [id_count], which
    is then counted and returned. *)
Definition id_created {T} (addr : option bt_addr_le_t) (w : world T)
    (r : Z) (out : option bt_addr_le_t) (w' : world T) : Prop :=
  r < 0 ∧ w' = w ∧ out = addr
  ∨ r = id_count (g_btdev w)
    ∧ id_count (g_btdev w) < Z.of_nat (length (id_addr (g_btdev w)))
    ∧ ∃ new,
        (new ∉ id_table (g_btdev w))
        ∧ (addr_given addr = true → addr = Some new)
        ∧ id_addr (g_btdev w')
          = <[Z.to_nat (id_count (g_btdev w)) := new]> (id_addr (g_btdev w))
        ∧ id_count (g_btdev w') = id_count (g_btdev w) + 1.

(** The identity operations, and a sequence of them run in order. *)
Inductive id_op : Type :=
| OpCreate (addr : option bt_addr_le_t)
| OpReset (id : Z) (addr : option bt_addr_le_t)
| OpDelete (id : Z)
| OpSetIdAddr (addr : bt_addr_le_t).

(** Identity indices are [uint8_t] arguments. *)
Definition id_op_wf (op : id_op) : Prop :=
  match op with
  | OpReset id _ | OpDelete id => 0 ≤ id < 256
  | _ => True
  end.

Section IdOps.
Context {T : Type} `{!Collaborators T}.

Definition run_id_op (fuel : nat) (op : id_op) : M T Z :=
  match op with
  | OpCreate addr => r <- bt_id_create fuel addr None ;; ret r.1
  | OpReset id addr => r <- bt_id_reset fuel id addr None ;; ret r.1
  | OpDelete id => bt_id_delete id
  | OpSetIdAddr addr => bt_set_id_addr fuel addr
  end.

Fixpoint run_id_ops (fuel : nat) (ops : list id_op) : M T unit :=
  match ops with
  | [] => ret ()
  | op :: ops' => exec run_id_op fuel op ;; run_id_ops fuel ops'
  end.

End IdOps.

(** [w'] is a later world than [w] as far as enabling is concerned: the
    calls of [w] are a suffix of those of [w'], the driver is still the
    same, and the [ENABLE] flag is still set if it was. *)
Definition later {T} (w w' : world T) : Prop :=
  (has_flag BT_DEV_ENABLE w = true → has_flag BT_DEV_ENABLE w' = true)
  ∧ btdev (g_btdev w') = btdev (g_btdev w)
  ∧ ∃ calls, trace w' = calls ++ trace w.

(** ** Concrete collaborators and states, for running the model *)

(** Collaborators that answer from a script: every call that returns a
    status takes the next number of the list (0 once it is exhausted).  A
    command buffer is available when that number is 0; the random source
    answers success with six bytes starting with that number. *)
Definition next_status (t : list Z) : Z * list Z :=
  match t with
  | [] => (0, [])
  | s :: t' => (s, t')
  end.

#[export] Instance scripted : Collaborators (list Z) := {|
  hci_cmd_create := λ _ _ t, let '(s, t') := next_status t in (s =? 0, t');
  hci_cmd_send_sync := λ _ _ t, next_status t;
  hci_cmd_send := λ _ _ t, t;
  buf_release := λ t, t;
  drv_open := next_status;
  hci_init := next_status;
  l2cap_init := next_status;
  rand_bytes := λ _ t, let '(s, t') := next_status t in ((0, [s; 1; 2; 3; 4; 5]), t');
  hp_work_queue := next_status;
  CONFIG_BT_DEVICE_NAME := [84; 105; 122; 101; 110]
|}.

(** The zero-initialised [g_btdev] with a name buffer of [name_size] bytes
    and [id_max] identity slots, and the world at program start. *)
Definition dev_init (name_size id_max : nat) : bt_dev_s :=
  {| flags := 0; name := replicate name_size 0;
     id_addr := replicate id_max BT_ADDR_LE_ANY; id_count := 0;
     adv_id := 0; adv_enable := 0; btdev := false |}.

Definition world_init {T} (d : bt_dev_s) (t : T) : world T :=
  {| g_btdev := d; scan_dev_found_cb := None; ready_cb := None;
     g_hip_work := false; ext := t; trace := [] |}.

(** Two records that fit: flags, and a three-letter complete name. *)
Definition ad_fits : list bt_ad :=
  [[BT_DATA 1 1 [6]; BT_DATA BT_DATA_NAME_COMPLETE 3 [65; 66; 67]]].

(** A 28-byte manufacturer record (30 bytes encoded) followed by a complete
    local name of one letter. *)
Definition ad_name_after_30 : list bt_ad :=
  [[BT_DATA 255 28 (replicate 28 170); BT_DATA BT_DATA_NAME_COMPLETE 1 [65]]].

Definition is_send_sync (c : call) : bool :=
  match c with
  | CmdSendSync _ _ _ => true
  | _ => false
  end.

(** A device that advertises its name ([ADVERTISING] and
    [ADVERTISING_NAME] set) with an 8-byte name buffer holding "AB", and a
    transport that creates every command but fails every synchronous send
    with status -5. *)
Definition dev_advertising : bt_dev_s :=
  {| flags := 24; name := [65; 66; 0; 0; 0; 0; 0; 0];
     id_addr := replicate 2 BT_ADDR_LE_ANY; id_count := 0;
     adv_id := 0; adv_enable := 1; btdev := true |}.

Definition world_send_fails : world (list Z) :=
  world_init dev_advertising [0; -5; 0; -5; 0; -5].

(** An initialised device ([READY] set, nothing else), and scan
    parameters with a window above the maximum. *)
Definition dev_ready : bt_dev_s :=
  {| flags := 2; name := replicate 8 0;
     id_addr := replicate 4 BT_ADDR_LE_ANY; id_count := 0;
     adv_id := 0; adv_enable := 0; btdev := true |}.

Definition scan_window_too_big : bt_le_scan_param :=
  {| scan_type := BT_LE_SCAN_ACTIVE; filter_dup := BT_LE_SCAN_FILTER_DUP_ENABLE;
     interval := 24576; window := 20480 |}.

Definition scan_16 : bt_le_scan_param :=
  {| scan_type := BT_LE_SCAN_ACTIVE; filter_dup := BT_LE_SCAN_FILTER_DUP_ENABLE;
     interval := 16; window := 16 |}.

(** Static random addresses, four identities created with them in a table
    of four slots, then identities 1 and 2 deleted; and the world this
    leaves: slots 1 and 2 both hold the wildcard, and the count is still 4. *)
Definition static_addr (n : Z) : bt_addr_le_t :=
  {| addr_type := BT_ADDR_LE_RANDOM; addr_val := [n; 0; 0; 0; 0; 192] |}.

Definition ops_two_holes : list id_op :=
  [OpCreate (Some (static_addr 1)); OpCreate (Some (static_addr 2));
   OpCreate (Some (static_addr 3)); OpCreate (Some (static_addr 4));
   OpDelete 1; OpDelete 2].

Definition world_two_holes : world (list Z) :=
  Eval vm_compute in
    match run_id_ops 1 ops_two_holes (world_init (dev_init 8 4) []) with
    | Done _ w => w
    | _ => world_init (dev_init 8 4) []
    end.

(** Four identities, then identity 2 and identity 3 deleted: slot 2 is a
    hole that is still counted, so the last occupied slot (1) is not the
    last one counted (2). *)
Definition ops_trailing_hole : list id_op :=
  [OpCreate (Some (static_addr 1)); OpCreate (Some (static_addr 2));
   OpCreate (Some (static_addr 3)); OpCreate (Some (static_addr 4));
   OpDelete 2; OpDelete 3].

Definition world_trailing_hole : world (list Z) :=
  Eval vm_compute in
    match run_id_ops 1 ops_trailing_hole (world_init (dev_init 8 4) []) with
    | Done _ w => w
    | _ => world_init (dev_init 8 4) []
    end.

(** A device with a driver bound and nothing else done. *)
Definition dev_with_driver : bt_dev_s :=
  {| flags := 0; name := replicate 8 0;
     id_addr := replicate 4 BT_ADDR_LE_ANY; id_count := 0;
     adv_id := 0; adv_enable := 0; btdev := true |}.

(** ** Definitions for further properties *)

(** None of the records is a complete local name. *)
Definition no_complete_name (ds : list bt_data) : Prop :=
  Forall (λ d, data_type d ≠ BT_DATA_NAME_COMPLETE) ds.

(** A 20-byte service record and a 12-byte manufacturer record: 36 bytes
    encoded, none of them a name. *)
Definition ad_oversize : list bt_ad :=
  [[BT_DATA 22 20 (replicate 20 1)]; [BT_DATA 255 12 (replicate 12 2)]].

(** Flags, then a complete local name of 30 letters. *)
Definition ad_flags_long_name : list bt_ad :=
  [[BT_DATA 1 1 [6]]; [BT_DATA BT_DATA_NAME_COMPLETE 30 (replicate 30 97)]].

(** The world after advertising has been switched off on the advertising
    device, every command succeeding. *)
Definition world_adv_off : world (list Z) :=
  Eval vm_compute in
  match set_advertise_enable false (world_init dev_advertising []) with
  | Done _ w' => w'
  | _ => world_init dev_advertising []
  end.

(** A device that is named "AB" and does not advertise its name. *)
Definition dev_named : bt_dev_s :=
  {| flags := 2; name := [65; 66; 0; 0; 0; 0; 0; 0];
     id_addr := replicate 2 BT_ADDR_LE_ANY; id_count := 0;
     adv_id := 0; adv_enable := 0; btdev := true |}.

(** Three identities created with static addresses in a table of four
    slots. *)
Definition world_three_ids : world (list Z) :=
  Eval vm_compute in
    match run_id_ops 1 [OpCreate (Some (static_addr 1));
                        OpCreate (Some (static_addr 2));
                        OpCreate (Some (static_addr 3))]
            (world_init (dev_init 8 4) []) with
    | Done _ w => w
    | _ => world_init (dev_init 8 4) []
    end.

(** A full table: four identities in four slots. *)
Definition world_four_ids : world (list Z) :=
  Eval vm_compute in
    match run_id_ops 1 [OpCreate (Some (static_addr 1));
                        OpCreate (Some (static_addr 2));
                        OpCreate (Some (static_addr 3));
                        OpCreate (Some (static_addr 4))]
            (world_init (dev_init 8 4) []) with
    | Done _ w => w
    | _ => world_init (dev_init 8 4) []
    end.

(** Operations that go for every slot of three identities, the default
    one included, and the world they leave. *)
Definition ops_on_three : list id_op :=
  [OpDelete 1; OpReset 2 (Some (static_addr 7)); OpCreate None;
   OpDelete 0; OpReset 0 (Some (static_addr 8)); OpSetIdAddr (static_addr 5)].

Definition world_after_ops : world (list Z) :=
  Eval vm_compute in
    match run_id_ops 1 ops_on_three world_three_ids with
    | Done _ w => w
    | _ => world_three_ids
    end.

(** *** Footprints

    What a computation is allowed to touch: the flags it may change, whether
    it may rewrite the name buffer, the identity table and its count, the
    advertising state, the scan callback and the enable bookkeeping
    ([ready_cb], [g_hip_work]), and the calls it may make. *)
Record footprint : Type := mk_footprint {
  fp_flags : bt_dev_flag → bool;
  fp_name : bool;
  fp_ids : bool;
  fp_adv : bool;
  fp_scan_cb : bool;
  fp_enable : bool;
  fp_calls : call → bool
}.

(** [w'] differs from [w] only within the footprint.  Whatever the
    footprint, [READY] and [ENABLE] are not cleared, the buffers keep their
    sizes, the driver and the advertising identity stay, and the calls of
    [w] are still there, below the new ones. *)
Record within {T} (fp : footprint) (w w' : world T) : Prop := mk_within {
  within_flags : ∀ f, fp_flags fp f = false → has_flag f w' = has_flag f w;
  within_ready : has_flag BT_DEV_READY w = true → has_flag BT_DEV_READY w' = true;
  within_enabled : has_flag BT_DEV_ENABLE w = true → has_flag BT_DEV_ENABLE w' = true;
  within_name : fp_name fp = false → name (g_btdev w') = name (g_btdev w);
  within_name_size : length (name (g_btdev w')) = length (name (g_btdev w));
  within_ids :
    fp_ids fp = false →
    id_addr (g_btdev w') = id_addr (g_btdev w)
    ∧ id_count (g_btdev w') = id_count (g_btdev w);
  within_capacity : length (id_addr (g_btdev w')) = length (id_addr (g_btdev w));
  within_adv : fp_adv fp = false → adv_enable (g_btdev w') = adv_enable (g_btdev w);
  within_adv_id : adv_id (g_btdev w') = adv_id (g_btdev w);
  within_driver : btdev (g_btdev w') = btdev (g_btdev w);
  within_scan_cb : fp_scan_cb fp = false → scan_dev_found_cb w' = scan_dev_found_cb w;
  within_enable :
    fp_enable fp = false →
    ready_cb w' = ready_cb w ∧ g_hip_work w' = g_hip_work w;
  within_calls :
    ∃ calls, trace w' = calls ++ trace w
             ∧ Forall (λ c, fp_calls fp c = true) calls
}.

(** Every returning run of [m] stays within the relation [R]. *)
Definition keeps {T A} (R : world T → world T → Prop) (m : M T A) : Prop :=
  ∀ w r w', m w = Done r w' → R w w'.

(** The kinds of calls. *)
Definition is_hci_cmd (c : call) : bool :=
  match c with
  | CmdCreate _ _ _ | CmdSendSync _ _ _ | CmdSend _ _ | BufRelease => true
  | _ => false
  end.

Definition is_rand (c : call) : bool :=
  match c with
  | Rand _ _ => true
  | _ => false
  end.

(** [bt_set_name]: the name, and the advertising state when the name is
    advertised. *)
Definition fp_set_name : footprint :=
  {| fp_flags := λ f, bool_decide (f = BT_DEV_ADVERTISING);
     fp_name := true; fp_ids := false; fp_adv := true;
     fp_scan_cb := false; fp_enable := false;
     fp_calls := is_hci_cmd |}.

(** The identity operations: the table, its count and [USER_ID_ADDR]. *)
Definition fp_identity : footprint :=
  {| fp_flags := λ f, bool_decide (f = BT_DEV_USER_ID_ADDR);
     fp_name := false; fp_ids := true; fp_adv := false;
     fp_scan_cb := false; fp_enable := false;
     fp_calls := is_rand |}.

(** [bt_le_scan_start]: the four scan flags and the scan callback. *)
Definition fp_scan : footprint :=
  {| fp_flags := λ f, bool_decide (f = BT_DEV_EXPLICIT_SCAN)
                      || bool_decide (f = BT_DEV_SCANNING)
                      || bool_decide (f = BT_DEV_ACTIVE_SCAN)
                      || bool_decide (f = BT_DEV_SCAN_FILTER_DUP);
     fp_name := false; fp_ids := false; fp_adv := false;
     fp_scan_cb := true; fp_enable := false;
     fp_calls := is_hci_cmd |}.

(** [bt_enable] and the initialisation work: [ENABLE], [READY], what
    [bt_set_name] touches, and the enable bookkeeping. *)
Definition fp_enabling : footprint :=
  {| fp_flags := λ f, bool_decide (f = BT_DEV_ENABLE)
                      || bool_decide (f = BT_DEV_READY)
                      || bool_decide (f = BT_DEV_ADVERTISING);
     fp_name := true; fp_ids := false; fp_adv := true;
     fp_scan_cb := false; fp_enable := true;
     fp_calls := λ c, negb (is_rand c) |}.

(** Anything at all. *)
Definition fp_any : footprint :=
  {| fp_flags := λ _, true;
     fp_name := true; fp_ids := true; fp_adv := true;
     fp_scan_cb := true; fp_enable := true;
     fp_calls := λ _, true |}.

(** The entry points of this file, with the initialisation work as the
    work queue runs it, and a sequence of them run in order. *)
Inductive api_call : Type :=
| ApiSetName (new_name : list Z)
| ApiEnable (cb : option nat)
| ApiInitWork
| ApiIdentity (op : id_op)
| ApiScanStart (param : bt_le_scan_param) (cb : option nat).

Section ApiCalls.
Context {T : Type} `{!Collaborators T}.

Definition run_api (fuel : nat) (c : api_call) : M T Z :=
  match c with
  | ApiSetName new_name => bt_set_name new_name
  | ApiEnable cb => bt_enable cb
  | ApiInitWork => exec init_work ;; ret 0
  | ApiIdentity op => run_id_op fuel op
  | ApiScanStart param cb => bt_le_scan_start param cb
  end.

Fixpoint run_api_calls (fuel : nat) (cs : list api_call) : M T unit :=
  match cs with
  | [] => ret ()
  | c :: cs' => exec run_api fuel c ;; run_api_calls fuel cs'
  end.

End ApiCalls.

(** The advertising device after it has been renamed to "CD"; the ready
    device after a scan has been started on it; a device with a driver
    after [bt_enable] with a callback, and after the initialisation work
    has run; and the same device after a run through every entry point. *)
Definition world_renamed : world (list Z) :=
  Eval vm_compute in
    match bt_set_name [67; 68; 0] (world_init dev_advertising []) with
    | Done _ w => w
    | _ => world_init dev_advertising []
    end.

Definition world_scanning : world (list Z) :=
  Eval vm_compute in
    match bt_le_scan_start scan_16 (Some 3%nat) (world_init dev_ready []) with
    | Done _ w => w
    | _ => world_init dev_ready []
    end.

Definition world_enabling : world (list Z) :=
  Eval vm_compute in
    match bt_enable (Some 7%nat) (world_init dev_with_driver []) with
    | Done _ w => w
    | _ => world_init dev_with_driver []
    end.

Definition world_enabled : world (list Z) :=
  Eval vm_compute in
    match init_work world_enabling with
    | Done _ w => w
    | _ => world_enabling
    end.

(** The same with a link layer that answers 5: the world after
    [bt_enable] with callback 7, and after the initialisation work. *)
Definition world_queued : world (list Z) :=
  Eval vm_compute in
    match bt_enable (Some 7%nat) (world_init dev_with_driver [0; 0; 0; 5]) with
    | Done _ w => w
    | _ => world_init dev_with_driver [0; 0; 0; 5]
    end.

Definition world_called_back : world (list Z) :=
  Eval vm_compute in
    match init_work world_queued with
    | Done _ w => w
    | _ => world_queued
    end.

Definition api_tour : list api_call :=
  [ApiEnable (Some 7%nat); ApiInitWork; ApiSetName [67; 68; 0];
   ApiIdentity (OpCreate None); ApiScanStart scan_16 None;
   ApiIdentity (OpDelete 0); ApiEnable None].

Definition world_after_tour : world (list Z) :=
  Eval vm_compute in
    match run_api_calls 1 api_tour (world_init dev_with_driver []) with
    | Done _ w => w
    | _ => world_init dev_with_driver []
    end.

(** The device with a driver after an initialisation whose link layer
    fails with -3, and after a [bt_enable] without callback that went
    through. *)
Definition world_init_failed : world (list Z) :=
  Eval vm_compute in
    match bt_init (world_init dev_with_driver [0; -3]) with
    | Done _ w => w
    | _ => world_init dev_with_driver [0; -3]
    end.

Definition world_enabled_sync : world (list Z) :=
  Eval vm_compute in
    match bt_enable None (world_init dev_with_driver []) with
    | Done _ w => w
    | _ => world_init dev_with_driver []
    end.

(** ** Printing helpers *)

(** [ver_str]: the name of an HCI version number. *)
Definition ver_str (ver : Z) : string :=
  let str : list string :=
    ["1.0b"; "1.1"; "1.2"; "2.0"; "2.1"; "3.0"; "4.0"; "4.1"; "4.2";
     "5.0"; "5.1"]%string in
  if ver <? Z.of_nat (length str) then str !!! Z.to_nat ver
  else "unknown"%string.

(** The function-static variables of [bt_addr_le_str]: two buffers of 27
    characters and the index of the one to use next. *)
Record addr_str_s : Type := mk_addr_str {
  bufs : list (list Z);
  cur : Z
}.

Definition addr_str_init : addr_str_s :=
  {| bufs := replicate 2 (replicate 27 0); cur := 0 |}.

Section AddrStr.
(** [bt_addr_le_to_str] comes from the headers: what it leaves in a
    buffer, given the address and what the buffer held. *)
Variable bt_addr_le_to_str : bt_addr_le_t → list Z → list Z.

(** The result is the buffer handed out, as its index in [bufs]; indexing
    outside the array is undefined ([None]). *)
Definition bt_addr_le_str (addr : bt_addr_le_t) (s : addr_str_s)
    : option (nat * addr_str_s) :=
  let str := Z.to_nat (cur s) in
  let cur' := u8 (cur s + 1) mod Z.of_nat (length (bufs s)) in
  match bufs s !! str with
  | Some old =>
    Some (str, {| bufs := <[str := bt_addr_le_to_str addr old]> (bufs s);
                  cur := cur' |})
  | None => None
  end.

End AddrStr.

(** A formatter for running the model: the six address bytes, then what
    the buffer held. *)
Definition to_str_bytes (a : bt_addr_le_t) (old : list Z) : list Z :=
  take 6 (addr_val a) ++ drop 6 old.

(** Collaborators that fail every call: no command buffer, status -5
    everywhere, and a random source that reports -5 after leaving six
    sevens in the buffer. *)
#[export] Instance failing : Collaborators unit := {|
  hci_cmd_create := λ _ _ t, (false, t);
  hci_cmd_send_sync := λ _ _ t, (-5, t);
  hci_cmd_send := λ _ _ t, t;
  buf_release := λ t, t;
  drv_open := λ t, (-5, t);
  hci_init := λ t, (-5, t);
  l2cap_init := λ t, (-5, t);
  rand_bytes := λ _ t, ((-5, [7; 7; 7; 7; 7; 7]), t);
  hp_work_queue := λ t, (-5, t);
  CONFIG_BT_DEVICE_NAME := [84; 105; 122; 101; 110]
|}.

(** ** Proof tools *)

(** Reduce a computation of the monad without unfolding the bit
    operations or the encoder. *)
Ltac msimpl :=
  cbn -[Z.testbit Z.setbit Z.clearbit flag_bit ad_fill_all strncpy strcmp
        strlen u8 Z.of_nat Z.to_nat bt_addr_le_cmp id_new_addr].

Tactic Notation "msimpl" "in" hyp(H) :=
  cbn -[Z.testbit Z.setbit Z.clearbit flag_bit ad_fill_all strncpy strcmp
        strlen u8 Z.of_nat Z.to_nat bt_addr_le_cmp id_new_addr] in H.

(** A flag other than the one just set or cleared reads as before. *)
Ltac flag_frame f :=
  unfold has_flag; cbn [g_btdev with_dev with_flags flags with_ext];
  first [rewrite Z.setbit_neq | rewrite Z.clearbit_neq];
  first [reflexivity | lia | destruct f; simpl; (done || lia)].

(** Split a [Forall] over an explicit list into one goal per element. *)
Ltac forall_cases :=
  repeat match goal with
  | |- Forall _ [] => constructor
  | |- Forall _ (_ :: _) => constructor
  end.

(** Decide the integer comparisons of the goal, keeping the cases [lia]
    does not refute. *)
Ltac cmp_cases :=
  repeat match goal with
  | |- context [?a >? ?b] => rewrite (Z.gtb_ltb a b)
  | |- context [?a >=? ?b] => rewrite (Z.geb_leb a b)
  end;
  repeat match goal with
  | |- context [?a <? ?b] => destruct (Z.ltb_spec a b); try lia
  | |- context [?a <=? ?b] => destruct (Z.leb_spec a b); try lia
  | |- context [?a =? ?b] => destruct (Z.eqb_spec a b); try lia
  end.

(** ** Proofs: the advertising-data encoder *)

Lemma encoded_len_app ds1 ds2 :
  encoded_len (ds1 ++ ds2) = encoded_len ds1 + encoded_len ds2.
Proof. induction ds1 as [|d ds1 IH]; simpl; lia. Qed.

Lemma encoded_len_nonneg ds :
  Forall bt_data_wf ds → 0 ≤ encoded_len ds.
Proof.
  induction 1 as [|d ds Hd _ IH]; simpl; [lia|].
  destruct Hd as (_ & ? & _). lia.
Qed.

Lemma ad_concat_length ds :
  Forall bt_data_wf ds → Z.of_nat (length (ad_concat ds)) = encoded_len ds.
Proof.
  induction 1 as [|d ds Hd _ IH]; [done|].
  unfold ad_concat in *. simpl. rewrite length_app. simpl.
  rewrite length_take. destruct Hd as (_ & ? & ?). lia.
Qed.

Lemma buf_store_app (pre rest : list Z) (x v : Z) :
  buf_store (Z.of_nat (length pre)) v (pre ++ x :: rest)
  = Some (pre ++ u8 v :: rest).
Proof.
  unfold buf_store. rewrite length_app. simpl.
  rewrite Nat2Z.id.
  replace (0 <=? Z.of_nat (length pre)) with true by (symmetry; apply Z.leb_le; lia).
  replace (Z.of_nat (length pre) <? Z.of_nat (length pre + S (length rest)))
    with true by (symmetry; apply Z.ltb_lt; lia).
  simpl. f_equal.
  rewrite insert_app_r_alt by lia.
  by rewrite Nat.sub_diag.
Qed.

Lemma buf_memcpy_app (pre src : list Z) (n : Z) (k : nat) :
  0 ≤ n → n ≤ Z.of_nat k → n ≤ Z.of_nat (length src) →
  buf_memcpy (Z.of_nat (length pre)) src n (pre ++ replicate k 0)
  = Some (pre ++ take (Z.to_nat n) src ++ replicate (k - Z.to_nat n) 0).
Proof.
  intros Hn Hk Hs. unfold buf_memcpy.
  rewrite length_app, length_replicate.
  replace (0 <=? n) with true by (symmetry; apply Z.leb_le; lia).
  replace (0 <=? Z.of_nat (length pre)) with true by (symmetry; apply Z.leb_le; lia).
  replace (Z.of_nat (length pre) + n <=? Z.of_nat (length pre + k))
    with true by (symmetry; apply Z.leb_le; lia).
  replace (n <=? Z.of_nat (length src)) with true by (symmetry; apply Z.leb_le; lia).
  simpl. f_equal.
  rewrite Nat2Z.id, take_app_length. f_equal. f_equal.
  replace (Z.to_nat (Z.of_nat (length pre) + n)) with (length pre + Z.to_nat n)%nat by lia.
  rewrite drop_app_add', drop_replicate; done.
Qed.

Lemma ad_write_padded (pre src : list Z) (len type : Z) :
  0 ≤ len → Z.of_nat (length pre) + len + 2 ≤ 31 →
  0 ≤ type < 256 → len ≤ Z.of_nat (length src) →
  ad_write len type src
    {| sd_len := Z.of_nat (length pre); sd_data := padded pre |}
  = EncOk {| sd_len := Z.of_nat (length pre) + len + 2;
             sd_data := padded (pre ++ (len + 1) :: type
                                  :: take (Z.to_nat len) src) |}.
Proof.
  intros Hlen Hfit Hty Hsrc. unfold ad_write, padded. simpl.
  destruct (31 - length pre)%nat as [|[|k]] eqn:Hk; [lia|lia|].
  simpl replicate.
  rewrite buf_store_app.
  assert (Hu1 : u8 (Z.of_nat (length pre) + 1) = Z.of_nat (length (pre ++ [u8 (len + 1)]))).
  { rewrite length_app. simpl. unfold u8. rewrite Z.mod_small; lia. }
  rewrite Hu1.
  replace (pre ++ u8 (len + 1) :: 0 :: replicate k 0)
    with ((pre ++ [u8 (len + 1)]) ++ 0 :: replicate k 0)
    by (by rewrite <- app_assoc).
  rewrite buf_store_app.
  assert (Hu2 : u8 (Z.of_nat (length (pre ++ [u8 (len + 1)])) + 1)
                = Z.of_nat (length ((pre ++ [u8 (len + 1)]) ++ [u8 type]))).
  { rewrite !length_app. simpl. unfold u8. rewrite Z.mod_small; lia. }
  rewrite Hu2.
  replace ((pre ++ [u8 (len + 1)]) ++ u8 type :: replicate k 0)
    with (((pre ++ [u8 (len + 1)]) ++ [u8 type]) ++ replicate k 0)
    by (by rewrite <- (app_assoc _ [u8 type])).
  rewrite buf_memcpy_app by lia.
  f_equal. f_equal.
  - rewrite !length_app. simpl. unfold u8. rewrite Z.mod_small; lia.
  - unfold u8. rewrite !Z.mod_small by lia.
    rewrite <- !app_assoc. simpl. do 4 f_equal.
    rewrite length_app. simpl. rewrite length_take. f_equal. lia.
Qed.

Lemma ad_fill_padded (ds : list bt_data) (pre : list Z) :
  Forall bt_data_wf ds →
  Z.of_nat (length pre) + encoded_len ds ≤ 31 →
  ad_fill ds {| sd_len := Z.of_nat (length pre); sd_data := padded pre |}
  = EncOk {| sd_len := Z.of_nat (length pre) + encoded_len ds;
             sd_data := padded (pre ++ ad_concat ds) |}.
Proof.
  intros Hwf. revert pre.
  induction Hwf as [|d ds Hd Hds IH]; intros pre Hfit.
  - simpl. unfold ad_concat. simpl. by rewrite Z.add_0_r, app_nil_r.
  - pose proof (encoded_len_nonneg _ Hds) as Hnn.
    destruct Hd as (Hty & Hlen & Hsrc).
    simpl in Hfit |- *. unfold ad_append. simpl.
    replace (Z.of_nat (length pre) + data_len d + 2 >? 31) with false
      by (cmp_cases; done).
    rewrite ad_write_padded by lia.
    set (pre' := pre ++ (data_len d + 1) :: data_type d
                   :: take (Z.to_nat (data_len d)) (data_bytes d)).
    assert (Hl : Z.of_nat (length pre') = Z.of_nat (length pre) + data_len d + 2).
    { unfold pre'. rewrite length_app. simpl. rewrite length_take. lia. }
    rewrite <- Hl, IH by lia.
    f_equal. f_equal; [lia|].
    unfold pre', ad_concat, ad_triple. simpl. by rewrite <- app_assoc.
Qed.

Lemma ad_fill_all_padded (ad : list bt_ad) (pre : list Z) :
  Forall (Forall bt_data_wf) ad →
  Z.of_nat (length pre) + encoded_len (concat ad) ≤ 31 →
  ad_fill_all ad {| sd_len := Z.of_nat (length pre); sd_data := padded pre |}
  = EncOk {| sd_len := Z.of_nat (length pre) + encoded_len (concat ad);
             sd_data := padded (pre ++ ad_concat (concat ad)) |}.
Proof.
  intros Hwf. revert pre.
  induction Hwf as [|a ad Ha Had IH]; intros pre Hfit.
  - simpl. unfold ad_concat. simpl. by rewrite Z.add_0_r, app_nil_r.
  - simpl in Hfit |- *. rewrite encoded_len_app in Hfit.
    assert (0 ≤ encoded_len (concat ad)).
    { apply encoded_len_nonneg. by apply Forall_concat. }
    pose proof (encoded_len_nonneg _ Ha).
    rewrite ad_fill_padded by (done || lia).
    assert (Hl : Z.of_nat (length (pre ++ ad_concat a))
                 = Z.of_nat (length pre) + encoded_len a).
    { rewrite length_app, Nat2Z.inj_add, ad_concat_length; done. }
    rewrite <- Hl, IH by lia.
    f_equal. f_equal.
    + rewrite encoded_len_app. lia.
    + unfold ad_concat. by rewrite map_app, concat_app, app_assoc.
Qed.

Section EncoderProofs.
Context {T : Type} `{!Collaborators T}.

(** C1: when the records' cumulative encoded length is at most 31 bytes,
    the encoder neither rejects nor overruns: it fills the payload with
    exactly the concatenation, in input order, of the triples
    [payload length + 1, type, payload bytes], sets the length field to the
    cumulative length, and [set_ad] (given a command buffer) submits that
    payload synchronously, returning the transport's status. *)
Theorem set_ad_encodes (hci_op : hci_opcode) (ad : list bt_ad)
    (w : world T) (t1 : T) :
  Forall (Forall bt_data_wf) ad →
  encoded_len (concat ad) ≤ 31 →
  hci_cmd_create hci_op SET_DATA_SIZE (ext w) = (true, t1) →
  let set_data := {| sd_len := encoded_len (concat ad);
                     sd_data := padded (ad_concat (concat ad)) |} in
  ad_fill_all ad set_data_zero = EncOk set_data
  ∧ set_ad hci_op ad w
    = bt_hci_cmd_send_sync hci_op (CpAdvData set_data)
        (with_ext t1 (CmdCreate hci_op SET_DATA_SIZE true) w).
Proof.
  intros Hwf Hfit Hbuf set_data.
  assert (Hfill : ad_fill_all ad set_data_zero = EncOk set_data).
  { pose proof (ad_fill_all_padded ad [] Hwf) as H. simpl in H.
    by apply H. }
  split; [done|].
  unfold set_ad, bind, bt_hci_cmd_create. rewrite Hbuf. simpl.
  by rewrite Hfill.
Qed.

(** A record that does not fit and is not a complete local name is
    rejected: the buffer is released, nothing is sent and the result is
    [-EINVAL]. *)
Lemma ad_append_too_big (d : bt_data) (sd : set_adv_data) :
  sd_len sd + data_len d + 2 > 31 →
  data_type d ≠ BT_DATA_NAME_COMPLETE →
  ad_append d sd = EncTooBig.
Proof.
  intros Hbig Hty. unfold ad_append.
  cmp_cases; done.
Qed.

Lemma set_ad_too_big (hci_op : hci_opcode) (d : bt_data) (w : world T) (t1 : T) :
  data_len d + 2 > 31 →
  data_type d ≠ BT_DATA_NAME_COMPLETE →
  hci_cmd_create hci_op SET_DATA_SIZE (ext w) = (true, t1) →
  set_ad hci_op [[d]] w
  = Done (- EINVAL)
      (with_ext (buf_release t1) BufRelease
         (with_ext t1 (CmdCreate hci_op SET_DATA_SIZE true) w)).
Proof.
  intros Hbig Hty Hbuf.
  unfold set_ad, bind, bt_hci_cmd_create. rewrite Hbuf. simpl.
  by rewrite ad_append_too_big.
Qed.

(** A complete local name that does not fit is cut to the room left and
    retagged as shortened, as long as at least one byte of room is left
    after the two header bytes. *)
Lemma ad_append_shortened (d : bt_data) (pre : list Z) :
  bt_data_wf d →
  data_type d = BT_DATA_NAME_COMPLETE →
  Z.of_nat (length pre) + data_len d + 2 > 31 →
  Z.of_nat (length pre) < 29 →
  let len := 31 - (Z.of_nat (length pre) + 2) in
  ad_append d {| sd_len := Z.of_nat (length pre); sd_data := padded pre |}
  = EncOk {| sd_len := 31;
             sd_data := pre ++ (len + 1) :: BT_DATA_NAME_SHORTENED
                          :: take (Z.to_nat len) (data_bytes d) |}.
Proof.
  intros (Hty & Hlen & Hsrc) Hname Hbig Hroom len.
  unfold ad_append. simpl. rewrite Hname. simpl.
  cmp_cases. simpl.
  rewrite ad_write_padded by (unfold BT_DATA_NAME_SHORTENED; lia).
  f_equal. f_equal; [lia|].
  unfold padded. rewrite length_app. simpl. rewrite length_take.
  replace (31 - _)%nat with 0%nat by lia.
  simpl. by rewrite app_nil_r.
Qed.

(** No room at all after the header bytes: rejected. *)
Lemma ad_append_no_room (d : bt_data) (sd : set_adv_data) :
  sd_len sd = 29 → 0 < data_len d →
  ad_append d sd = EncTooBig.
Proof.
  intros Hl Hlen. unfold ad_append. rewrite Hl.
  cmp_cases; done.
Qed.

(** With 30 or 31 bytes already used the computed length is negative, the
    [!len] test lets it through, and the writes leave the array. *)
Lemma ad_append_overrun (d : bt_data) (sd : set_adv_data) :
  data_type d = BT_DATA_NAME_COMPLETE →
  0 < data_len d →
  length (sd_data sd) = 31%nat →
  30 ≤ sd_len sd ≤ 31 →
  ad_append d sd = EncFault.
Proof.
  intros Hname Hlen Harr Hl. unfold ad_append. rewrite Hname. simpl.
  cmp_cases. simpl. unfold ad_write, buf_store, buf_memcpy.
  rewrite Harr.
  assert (sd_len sd = 30 ∨ sd_len sd = 31) as [-> | ->] by lia.
  - simpl. by rewrite length_insert, Harr.
  - reflexivity.
Qed.

(** C2: a complete local name arriving when 30 bytes are used.  The room
    left is [31 - (30 + 2) = -1]; the encoder is specified to fail when the
    room is zero or less, but the code only tests for zero, goes on, and
    writes outside the payload: the result is the fault, not [-EINVAL]. *)
Theorem set_ad_name_overrun :
  ad_fill_all ad_name_after_30 set_data_zero = EncFault
  ∧ set_ad BT_HCI_OP_LE_SET_ADV_DATA ad_name_after_30
      (world_init (dev_init 8 2) ([] : list Z)) = Fault.
Proof. split; reflexivity. Qed.

End EncoderProofs.

(** C1, on a concrete record set. *)
Lemma set_ad_encodes_witness :
  let w := world_init (dev_init 8 2) ([] : list Z) in
  let set_data := {| sd_len := encoded_len (concat ad_fits);
                     sd_data := padded (ad_concat (concat ad_fits)) |} in
  ad_fill_all ad_fits set_data_zero = EncOk set_data
  ∧ set_ad BT_HCI_OP_LE_SET_ADV_DATA ad_fits w
    = bt_hci_cmd_send_sync BT_HCI_OP_LE_SET_ADV_DATA (CpAdvData set_data)
        (with_ext [] (CmdCreate BT_HCI_OP_LE_SET_ADV_DATA SET_DATA_SIZE true) w).
Proof.
  apply (set_ad_encodes BT_HCI_OP_LE_SET_ADV_DATA ad_fits
           (world_init (dev_init 8 2) ([] : list Z)) []).
  - unfold ad_fits. forall_cases;
      unfold bt_data_wf, BT_DATA_NAME_COMPLETE; simpl; lia.
  - simpl. lia.
  - reflexivity.
Defined.

(** A 40-letter complete name alone is cut to 29 letters and retagged. *)
Example long_name_shortened :
  ad_fill_all [[BT_DATA BT_DATA_NAME_COMPLETE 40 (replicate 40 97)]] set_data_zero
  = EncOk {| sd_len := 31;
             sd_data := 30 :: BT_DATA_NAME_SHORTENED :: replicate 29 97 |}.
Proof. reflexivity. Qed.

(** ** Proofs: the device name *)

Lemma memcmp_eq (a b : list Z) : memcmp a b = 0 ↔ a = b.
Proof.
  revert b. induction a as [|x a IH]; intros [|y b]; simpl; try (split; (done || lia)).
  destruct (Z.eqb_spec x y) as [->|Hne].
  - rewrite IH. split; [by intros ->|by intros [= ->]].
  - split; [lia|]. intros [= ? _]. done.
Qed.

Lemma strcmp_eq (a b : list Z) : strcmp a b = 0 ↔ c_str a = c_str b.
Proof. apply memcmp_eq. Qed.

Lemma c_str_app_nul (l r : list Z) :
  Forall (λ c, c ≠ 0) l → c_str (l ++ 0 :: r) = l.
Proof.
  induction 1 as [|c l Hc _ IH]; simpl; [done|].
  destruct (Z.eqb_spec c 0); [done|]. by rewrite IH.
Qed.

Lemma c_str_no_nul (s : list Z) : Forall (λ c, c ≠ 0) (c_str s).
Proof.
  induction s as [|c s IH]; simpl; [constructor|].
  destruct (Z.eqb_spec c 0); by constructor.
Qed.

Lemma c_str_length_lt (s : list Z) :
  0 ∈ s → (length (c_str s) < length s)%nat.
Proof.
  induction s as [|c s IH]; [by intros ?%elem_of_nil|].
  intros Hin. simpl. destruct (Z.eqb_spec c 0); simpl; [lia|].
  apply elem_of_cons in Hin as [?|Hin]; [done|].
  specialize (IH Hin). lia.
Qed.

(** After [strncpy] into a buffer with room for the terminator, the buffer
    reads back as the source string. *)
Lemma c_str_strncpy (src : list Z) (n : nat) :
  (length (c_str src) < n)%nat → c_str (strncpy src n) = c_str src.
Proof.
  intros Hlen. unfold strncpy.
  rewrite resize_ge by lia.
  destruct (n - length (c_str src))%nat as [|k] eqn:Hk; [lia|].
  simpl. apply c_str_app_nul, c_str_no_nul.
Qed.

Lemma strncpy_nul (src : list Z) (n : nat) :
  (length (c_str src) < n)%nat → 0 ∈ strncpy src n.
Proof.
  intros Hlen. unfold strncpy.
  rewrite resize_ge by lia.
  destruct (n - length (c_str src))%nat as [|k] eqn:Hk; [lia|].
  simpl. apply elem_of_app. right. by left.
Qed.

Lemma c_str_length_le (s : list Z) : (length (c_str s) ≤ length s)%nat.
Proof.
  induction s as [|c s IH]; simpl; [lia|].
  destruct (c =? 0); simpl; lia.
Qed.

Section NameProofs.
Context {T : Type} `{!Collaborators T}.

(** The single complete-name record [bt_set_name] builds never overruns the
    payload: it fits, or it is shortened to 29 bytes. *)
Lemma name_record_fills (s : list Z) :
  ∃ sd, ad_fill_all [[BT_DATA BT_DATA_NAME_COMPLETE (u8 (strlen s)) s]]
          set_data_zero = EncOk sd.
Proof.
  set (d := BT_DATA BT_DATA_NAME_COMPLETE (u8 (strlen s)) s).
  assert (Hwf : bt_data_wf d).
  { unfold bt_data_wf, d, BT_DATA_NAME_COMPLETE, u8, strlen. simpl.
    pose proof (c_str_length_le s).
    pose proof (Z.mod_pos_bound (Z.of_nat (length (c_str s))) 256 ltac:(lia)).
    pose proof (Z.mod_le (Z.of_nat (length (c_str s))) 256 ltac:(lia) ltac:(lia)).
    lia. }
  change set_data_zero with {| sd_len := Z.of_nat (length (@nil Z)); sd_data := padded [] |}.
  simpl ad_fill_all.
  destruct (Z_le_gt_dec (data_len d + 2) 31) as [Hfit|Hbig].
  - pose proof (ad_fill_padded [d] [] ltac:(by forall_cases)) as H.
    simpl in H, Hfit. simpl. rewrite H by lia. eauto.
  - simpl in Hbig.
    pose proof (ad_append_shortened d [] Hwf eq_refl) as H.
    simpl in H. simpl. rewrite H by lia. eauto.
Qed.

(** The advertising helpers return, and do not touch the stored name. *)
Lemma set_ad_name_done (hci_op : hci_opcode) (s : list Z) (w : world T) :
  ∃ r w', set_ad hci_op [[BT_DATA BT_DATA_NAME_COMPLETE (u8 (strlen s)) s]] w
          = Done r w'
          ∧ g_btdev w' = g_btdev w.
Proof.
  destruct (name_record_fills s) as [sd Hsd].
  unfold set_ad, bind, bt_hci_cmd_create.
  destruct (hci_cmd_create _ _ _) as [[|] t1]; cbn -[ad_fill_all]; [|by eauto].
  rewrite Hsd. unfold bt_hci_cmd_send_sync. simpl.
  destruct (hci_cmd_send_sync _ _ _) as [st t2]. by eauto.
Qed.

Lemma set_advertise_enable_done (enable : bool) (w : world T) :
  ∃ r w', set_advertise_enable enable w = Done r w'
          ∧ name (g_btdev w') = name (g_btdev w).
Proof.
  unfold set_advertise_enable, bind, bt_hci_cmd_create.
  destruct (hci_cmd_create _ _ _) as [[|] t1]; simpl; [|by eauto].
  unfold bt_hci_cmd_send_sync. simpl.
  destruct (hci_cmd_send_sync _ _ _) as [st t2].
  destruct (st =? 0); simpl; [|by eauto].
  destruct enable; simpl; by eauto.
Qed.

(** What [bt_set_name] does with a new name that fits and differs: the
    buffer holds the [strncpy] of the name and the result is 0, whatever
    the advertising helpers answer. *)
Lemma bt_set_name_changes (new_name : list Z) (w : world T) :
  strlen new_name < Z.of_nat (length (name (g_btdev w))) →
  strcmp (name (g_btdev w)) new_name ≠ 0 →
  ∃ w', bt_set_name new_name w = Done 0 w'
        ∧ name (g_btdev w') = strncpy new_name (length (name (g_btdev w))).
Proof.
  intros Hfit Hne. unfold bt_set_name, bind at 1, get_dev.
  cmp_cases. unfold bind at 1. msimpl.
  unfold bind at 1, bt_atomic_testbit at 1. msimpl.
  set (w1 := with_dev _ w).
  destruct (Z.testbit _ _); [|by eauto].
  unfold bind at 1.
  destruct (set_ad_name_done BT_HCI_OP_LE_SET_SCAN_RSP_DATA new_name w1)
    as (r & w2 & -> & Hd2).
  unfold bind at 1, bt_atomic_testbit. msimpl.
  destruct (Z.testbit _ _).
  - destruct (set_advertise_enable_done false w2) as (r3 & w3 & -> & Hn3).
    destruct (set_advertise_enable_done true w3) as (r4 & w4 & -> & Hn4).
    eexists; split; [done|]. by rewrite Hn4, Hn3, Hd2.
  - eexists; split; [done|]. by rewrite Hd2.
Qed.

(** [bt_set_name] keeps the name buffer a C string of the same size. *)
Lemma bt_set_name_terminated (new_name : list Z) (w w' : world T) (r : Z) :
  0 ∈ name (g_btdev w) →
  bt_set_name new_name w = Done r w' →
  0 ∈ name (g_btdev w') ∧ length (name (g_btdev w')) = length (name (g_btdev w)).
Proof.
  intros Hnul Hrun.
  destruct (Z_lt_ge_dec (strlen new_name) (Z.of_nat (length (name (g_btdev w)))))
    as [Hfit|Hbig].
  - destruct (Z.eq_dec (strcmp (name (g_btdev w)) new_name) 0) as [Heq|Hne].
    + unfold bt_set_name, bind, get_dev in Hrun. rewrite Heq in Hrun.
      revert Hrun. cmp_cases. by intros [= _ <-].
    + destruct (bt_set_name_changes new_name w Hfit Hne) as (w'' & Hrun' & Hname).
      rewrite Hrun' in Hrun. injection Hrun as _ <-. rewrite Hname.
      split; [|apply length_resize].
      apply strncpy_nul. unfold strlen in Hfit. lia.
  - unfold bt_set_name, bind, get_dev in Hrun.
    revert Hrun. cmp_cases. by intros [= _ <-].
Qed.

(** C9: a name that fits the buffer is read back by [bt_get_name] after
    [bt_set_name]; and setting the name that is already stored returns 0
    and leaves the whole world as it was: no command is created or sent. *)
Theorem bt_set_name_get_name (X : list Z) (w : world T) :
  (strlen X < Z.of_nat (length (name (g_btdev w))) →
   ∃ w', bt_set_name X w = Done 0 w' ∧ c_str (bt_get_name w') = c_str X)
  ∧ (0 ∈ name (g_btdev w) → c_str (bt_get_name w) = c_str X →
     bt_set_name X w = Done 0 w).
Proof.
  split.
  - intros Hfit.
    destruct (Z.eq_dec (strcmp (name (g_btdev w)) X) 0) as [Heq|Hne].
    + exists w. split; [|by apply strcmp_eq].
      unfold bt_set_name, bind, get_dev. rewrite Heq. by cmp_cases.
    + destruct (bt_set_name_changes X w Hfit Hne) as (w' & Hrun & Hname).
      exists w'. split; [done|].
      unfold bt_get_name. rewrite Hname. apply c_str_strncpy.
      unfold strlen in Hfit. lia.
  - intros Hnul Hsame. unfold bt_get_name in Hsame.
    pose proof (c_str_length_lt _ Hnul) as Hlt.
    unfold bt_set_name, bind, get_dev, strlen.
    rewrite <- Hsame.
    apply strcmp_eq in Hsame. rewrite Hsame.
    by cmp_cases.
Qed.

(** C10: a new name that fits and differs from the stored one is stored
    and the result is 0 for every behaviour of the collaborators: when
    [ADVERTISING_NAME] is set, the statuses of [set_ad] and of the two
    [set_advertise_enable] calls are dropped. *)
Theorem bt_set_name_drops_adv_errors (X : list Z) (w : world T) :
  strlen X < Z.of_nat (length (name (g_btdev w))) →
  c_str X ≠ c_str (bt_get_name w) →
  Z.testbit (flags (g_btdev w)) (flag_bit BT_DEV_ADVERTISING_NAME) = true →
  ∃ w', bt_set_name X w = Done 0 w'
        ∧ name (g_btdev w') = strncpy X (length (name (g_btdev w)))
        ∧ c_str (bt_get_name w') = c_str X.
Proof.
  intros Hfit Hdiff _.
  assert (Hne : strcmp (name (g_btdev w)) X ≠ 0).
  { intros Heq%strcmp_eq. by apply Hdiff. }
  destruct (bt_set_name_changes X w Hfit Hne) as (w' & Hrun & Hname).
  exists w'. split; [done|]. split; [done|].
  unfold bt_get_name. rewrite Hname. apply c_str_strncpy.
  unfold strlen in Hfit. lia.
Qed.

End NameProofs.

(** C9, on the name "CD" set on a device named "AB", and on "AB" again. *)
Lemma bt_set_name_get_name_witness :
  (∃ w', bt_set_name [67; 68; 0] world_send_fails = Done 0 w'
         ∧ c_str (bt_get_name w') = c_str [67; 68; 0])
  ∧ bt_set_name [65; 66; 0] world_send_fails = Done 0 world_send_fails.
Proof.
  split.
  - apply (bt_set_name_get_name [67; 68; 0] world_send_fails).
    reflexivity.
  - apply (bt_set_name_get_name [65; 66; 0] world_send_fails).
    + simpl. do 2 right. left.
    + reflexivity.
Defined.

(** C10, with every synchronous send failing: the statuses -5 are in the
    trace and the result is still 0. *)
Lemma bt_set_name_drops_adv_errors_witness :
  ∃ w', bt_set_name [67; 68; 0] world_send_fails = Done 0 w'
        ∧ name (g_btdev w') = strncpy [67; 68; 0] 8
        ∧ c_str (bt_get_name w') = c_str [67; 68; 0].
Proof.
  apply (bt_set_name_drops_adv_errors [67; 68; 0] world_send_fails).
  - reflexivity.
  - simpl. congruence.
  - reflexivity.
Defined.

(** The run behind the witness of C10: three failed sends, result 0. *)
Example bt_set_name_failing_run :
  match bt_set_name [67; 68; 0] world_send_fails with
  | Done r w' =>
    r = 0
    ∧ List.filter is_send_sync (trace w')
      = [CmdSendSync BT_HCI_OP_LE_SET_ADV_ENABLE (CpAdvEnable 1) (-5);
         CmdSendSync BT_HCI_OP_LE_SET_ADV_ENABLE (CpAdvEnable 1) (-5);
         CmdSendSync BT_HCI_OP_LE_SET_SCAN_RSP_DATA
           (CpAdvData {| sd_len := 4;
                         sd_data := padded [3; 9; 67; 68] |}) (-5)]
  | _ => False
  end.
Proof. vm_compute. split; reflexivity. Qed.

(** ** Proofs: the flag bitset *)

Lemma flag_bit_nonneg (f : bt_dev_flag) : 0 ≤ flag_bit f.
Proof. destruct f; simpl; lia. Qed.

Lemma flag_bit_inj (f g : bt_dev_flag) : flag_bit f = flag_bit g → f = g.
Proof. destruct f, g; simpl; intros; (done || lia). Qed.

Lemma setbit_already (a n : Z) :
  0 ≤ n → Z.testbit a n = true → Z.setbit a n = a.
Proof.
  intros Hn Hbit. apply Z.bits_inj'. intros m Hm.
  rewrite Z.setbit_eqb by done.
  destruct (Z.eqb_spec n m) as [->|]; [by rewrite Hbit|done].
Qed.

Lemma testbit_setbit (a : Z) (f g : bt_dev_flag) :
  Z.testbit (Z.setbit a (flag_bit f)) (flag_bit g)
  = if decide (f = g) then true else Z.testbit a (flag_bit g).
Proof.
  rewrite Z.setbit_eqb by apply flag_bit_nonneg.
  destruct (decide (f = g)) as [->|Hne]; [by rewrite Z.eqb_refl|].
  destruct (Z.eqb_spec (flag_bit f) (flag_bit g)) as [?%flag_bit_inj|]; done.
Qed.

Lemma testbit_clearbit (a : Z) (f g : bt_dev_flag) :
  Z.testbit (Z.clearbit a (flag_bit f)) (flag_bit g)
  = if decide (f = g) then false else Z.testbit a (flag_bit g).
Proof.
  rewrite Z.clearbit_eqb by apply flag_bit_nonneg.
  destruct (decide (f = g)) as [->|Hne].
  - by rewrite Z.eqb_refl, andb_false_r.
  - destruct (Z.eqb_spec (flag_bit f) (flag_bit g)) as [?%flag_bit_inj|]; [done|].
    by rewrite andb_true_r.
Qed.

Lemma has_flag_set_flag {T} (f g : bt_dev_flag) (w : world T) :
  has_flag g (set_flag f w) = if decide (f = g) then true else has_flag g w.
Proof.
  unfold has_flag, set_flag. cbn [g_btdev with_dev flags with_flags].
  apply testbit_setbit.
Qed.

Lemma has_flag_clr_flag {T} (f g : bt_dev_flag) (w : world T) :
  has_flag g (clr_flag f w) = if decide (f = g) then false else has_flag g w.
Proof.
  unfold has_flag, clr_flag. cbn [g_btdev with_dev flags with_flags].
  apply testbit_clearbit.
Qed.

(** ** Proofs: the LE scan controller *)

Lemma valid_le_scan_param_spec (p : bt_le_scan_param) :
  valid_le_scan_param p = true ↔ scan_param_ok p.
Proof.
  unfold valid_le_scan_param, scan_param_ok.
  unfold BT_LE_SCAN_PASSIVE, BT_LE_SCAN_ACTIVE,
    BT_LE_SCAN_FILTER_DUP_DISABLE, BT_LE_SCAN_FILTER_DUP_ENABLE.
  cmp_cases; simpl; split; (done || lia).
Qed.

Section ScanProofs.
Context {T : Type} `{!Collaborators T}.

(** C4: the parameters are accepted exactly under the listed conditions,
    and with [READY] set a rejected parameter set makes [bt_le_scan_start]
    return [-EINVAL] in an unchanged world: no command created or sent, no
    flag touched. *)
Theorem bt_le_scan_start_validates (param : bt_le_scan_param) :
  (valid_le_scan_param param = true ↔ scan_param_ok param)
  ∧ ∀ (cb : option nat) (w : world T),
      has_flag BT_DEV_READY w = true →
      ¬ scan_param_ok param →
      bt_le_scan_start param cb w = Done (- EINVAL) w.
Proof.
  split; [apply valid_le_scan_param_spec|].
  intros cb w Hready Hbad.
  unfold bt_le_scan_start, bind, bt_atomic_testbit.
  unfold has_flag in Hready. rewrite Hready. msimpl.
  destruct (valid_le_scan_param param) eqn:Hv; [|done].
  by apply valid_le_scan_param_spec in Hv.
Qed.

(** When the parameter command can be created, [start_le_scan] fails with
    the error of the scan-enable command. *)
Lemma start_le_scan_enable_fails (type itv win : Z) (w wa w4 : world T) (err : Z) :
  bt_hci_cmd_create BT_HCI_OP_LE_SET_SCAN_PARAMS 7 w = Done true wa →
  set_le_scan_enable BT_LE_SCAN_ENABLE (scan_params_sent type itv win wa)
  = Done err w4 →
  err ≠ 0 →
  start_le_scan type itv win w = Done err w4.
Proof.
  intros Hbuf Hen Herr. unfold scan_params_sent in Hen.
  unfold start_le_scan. unfold bind at 1. rewrite Hbuf. msimpl.
  unfold bind at 1. rewrite Hen. by cmp_cases.
Qed.

(** The scan commands only touch the [SCANNING] and [ACTIVE_SCAN] flags. *)
Lemma set_le_scan_enable_flags (enable : Z) (w w' : world T) (r : Z)
    (f : bt_dev_flag) :
  set_le_scan_enable enable w = Done r w' →
  f ≠ BT_DEV_SCANNING →
  has_flag f w' = has_flag f w.
Proof.
  intros Hrun Hf. unfold set_le_scan_enable in Hrun.
  unfold bind at 1, bt_hci_cmd_create in Hrun.
  destruct (hci_cmd_create _ _ _) as [[|] t1]; msimpl in Hrun;
    [|by injection Hrun as _ <-].
  unfold bind at 1 in Hrun.
  set (w1 := with_ext t1 _ w) in Hrun.
  assert (∃ fd, (if enable =? BT_LE_SCAN_ENABLE
                 then b <- bt_atomic_testbit BT_DEV_SCAN_FILTER_DUP ;; ret (b2z b)
                 else ret BT_LE_SCAN_FILTER_DUP_DISABLE) w1 = Done fd w1)
    as [fd Hfd].
  { destruct (_ =? _); by eexists. }
  rewrite Hfd in Hrun.
  unfold bind at 1, bt_hci_cmd_send_sync in Hrun. msimpl in Hrun.
  destruct (hci_cmd_send_sync _ _ _) as [st t2].
  destruct (st =? 0); msimpl in Hrun; [|by injection Hrun as _ <-].
  destruct (negb (enable =? 0)); msimpl in Hrun; injection Hrun as _ <-;
    flag_frame f.
Qed.

Lemma start_le_scan_flags (type itv win : Z) (w w' : world T) (r : Z)
    (f : bt_dev_flag) :
  start_le_scan type itv win w = Done r w' →
  f ≠ BT_DEV_SCANNING → f ≠ BT_DEV_ACTIVE_SCAN →
  has_flag f w' = has_flag f w.
Proof.
  intros Hrun Hf1 Hf2. unfold start_le_scan in Hrun.
  unfold bind at 1, bt_hci_cmd_create in Hrun.
  destruct (hci_cmd_create _ _ _) as [[|] t1]; msimpl in Hrun;
    [|by injection Hrun as _ <-].
  unfold bind at 1 in Hrun.
  destruct (set_le_scan_enable _ _) as [err w2| |] eqn:Hen; [|done|done].
  apply (set_le_scan_enable_flags _ _ _ _ f) in Hen; [|done].
  change (has_flag f w2 = has_flag f w) in Hen.
  destruct (err =? 0); msimpl in Hrun; [|by injection Hrun as _ <-].
  destruct (type =? BT_LE_SCAN_ACTIVE); msimpl in Hrun; injection Hrun as _ <-;
    rewrite <- Hen; flag_frame f.
Qed.

(** A scan that has started holds the [EXPLICIT_SCAN] guard: the flag is
    set, and [READY] still is. *)
Lemma bt_le_scan_start_holds_guard (param : bt_le_scan_param)
    (cb : option nat) (w w' : world T) :
  has_flag BT_DEV_READY w = true →
  bt_le_scan_start param cb w = Done 0 w' →
  has_flag BT_DEV_READY w' = true ∧ has_flag BT_DEV_EXPLICIT_SCAN w' = true.
Proof.
  intros Hready Hrun. pose proof Hready as Hr.
  unfold bt_le_scan_start, bind at 1, bt_atomic_testbit at 1 in Hrun.
  unfold has_flag in Hready. rewrite Hready in Hrun. msimpl in Hrun.
  destruct (valid_le_scan_param param); [|done]. msimpl in Hrun.
  clear Hready.
  destruct (Z.testbit _ (flag_bit BT_DEV_EXPLICIT_SCAN));
    [by unfold EALREADY in Hrun|].
  change (with_dev _ w) with (set_flag BT_DEV_EXPLICIT_SCAN w) in Hrun.
  set (w1 := set_flag BT_DEV_EXPLICIT_SCAN w) in Hrun.
  assert (H1 : has_flag BT_DEV_READY w1 = true ∧ has_flag BT_DEV_EXPLICIT_SCAN w1 = true).
  { unfold w1. rewrite !has_flag_set_flag. split; by destruct (decide _). }
  clear Hr. msimpl in Hrun. unfold bind at 1 in Hrun.
  destruct ((if Z.testbit _ _ then set_le_scan_enable BT_LE_SCAN_DISABLE
             else ret 0) w1) as [err w2| |] eqn:Hdis; [|done|done].
  assert (H2 : has_flag BT_DEV_READY w2 = true ∧ has_flag BT_DEV_EXPLICIT_SCAN w2 = true).
  { destruct (Z.testbit _ _).
    - rewrite !(set_le_scan_enable_flags _ _ _ _ _ Hdis); done.
    - by injection Hdis as _ <-. }
  destruct (Z.eqb_spec err 0); msimpl in Hrun; [|injection Hrun as -> _; done].
  unfold bind at 1 in Hrun.
  set (w3 := (if negb (filter_dup param =? 0)
              then set_flag BT_DEV_SCAN_FILTER_DUP w2
              else clr_flag BT_DEV_SCAN_FILTER_DUP w2)).
  assert ((if negb (filter_dup param =? 0)
           then bt_atomic_setbit BT_DEV_SCAN_FILTER_DUP
           else bt_atomic_clrbit BT_DEV_SCAN_FILTER_DUP) w2 = Done () w3) as Hw3.
  { unfold w3. by destruct (negb _). }
  rewrite Hw3 in Hrun.
  assert (H3 : has_flag BT_DEV_READY w3 = true ∧ has_flag BT_DEV_EXPLICIT_SCAN w3 = true).
  { destruct H2 as [? ?]. unfold w3. destruct (negb _);
      rewrite ?has_flag_set_flag, ?has_flag_clr_flag;
      split; by destruct (decide _). }
  unfold bind at 1 in Hrun.
  destruct (start_le_scan _ _ _ w3) as [err4 w4| |] eqn:Hstart; [|done|done].
  destruct (Z.eqb_spec err4 0); msimpl in Hrun; [|injection Hrun as -> _; done].
  injection Hrun as <-.
  change (has_flag BT_DEV_READY w4 = true ∧ has_flag BT_DEV_EXPLICIT_SCAN w4 = true).
  rewrite !(start_le_scan_flags _ _ _ _ _ _ _ Hstart); done.
Qed.

(** C5: with [READY] set and valid parameters, [bt_le_scan_start] refuses
    with [-EALREADY], changing nothing, when [EXPLICIT_SCAN] is already set;
    otherwise it sets the flag, and if the preliminary scan-disable, the
    start of the scan, or in particular its scan-enable command fails, it
    clears the flag again and returns that error.  After a start that
    succeeded the flag is held, so a further start is refused: one explicit
    scan session at a time. *)
Theorem bt_le_scan_start_guard (param : bt_le_scan_param) (cb : option nat)
    (w : world T) :
  has_flag BT_DEV_READY w = true →
  valid_le_scan_param param = true →
  (has_flag BT_DEV_EXPLICIT_SCAN w = true →
   bt_le_scan_start param cb w = Done (- EALREADY) w)
  ∧ (has_flag BT_DEV_EXPLICIT_SCAN w = false →
     let w1 := set_flag BT_DEV_EXPLICIT_SCAN w in
     (∀ err w2,
        has_flag BT_DEV_SCANNING w = true →
        set_le_scan_enable BT_LE_SCAN_DISABLE w1 = Done err w2 →
        err ≠ 0 →
        bt_le_scan_start param cb w = Done err (clr_flag BT_DEV_EXPLICIT_SCAN w2)
        ∧ has_flag BT_DEV_EXPLICIT_SCAN (clr_flag BT_DEV_EXPLICIT_SCAN w2) = false)
     ∧ (∀ w2 err w4,
          (has_flag BT_DEV_SCANNING w = false ∧ w2 = w1
           ∨ has_flag BT_DEV_SCANNING w = true
             ∧ set_le_scan_enable BT_LE_SCAN_DISABLE w1 = Done 0 w2) →
          start_le_scan (scan_type param) (interval param) (window param)
            (if negb (filter_dup param =? 0)
             then set_flag BT_DEV_SCAN_FILTER_DUP w2
             else clr_flag BT_DEV_SCAN_FILTER_DUP w2)
          = Done err w4 →
          err ≠ 0 →
          bt_le_scan_start param cb w = Done err (clr_flag BT_DEV_EXPLICIT_SCAN w4)
          ∧ has_flag BT_DEV_EXPLICIT_SCAN (clr_flag BT_DEV_EXPLICIT_SCAN w4) = false)
     ∧ (∀ w2 wa err w4,
          (has_flag BT_DEV_SCANNING w = false ∧ w2 = w1
           ∨ has_flag BT_DEV_SCANNING w = true
             ∧ set_le_scan_enable BT_LE_SCAN_DISABLE w1 = Done 0 w2) →
          bt_hci_cmd_create BT_HCI_OP_LE_SET_SCAN_PARAMS 7
            (if negb (filter_dup param =? 0)
             then set_flag BT_DEV_SCAN_FILTER_DUP w2
             else clr_flag BT_DEV_SCAN_FILTER_DUP w2)
          = Done true wa →
          set_le_scan_enable BT_LE_SCAN_ENABLE
            (scan_params_sent (scan_type param) (interval param) (window param) wa)
          = Done err w4 →
          err ≠ 0 →
          bt_le_scan_start param cb w = Done err (clr_flag BT_DEV_EXPLICIT_SCAN w4)
          ∧ has_flag BT_DEV_EXPLICIT_SCAN (clr_flag BT_DEV_EXPLICIT_SCAN w4) = false))
  ∧ (∀ w', bt_le_scan_start param cb w = Done 0 w' →
           ∀ param' cb', valid_le_scan_param param' = true →
                         bt_le_scan_start param' cb' w' = Done (- EALREADY) w').
Proof.
  intros Hready Hvalid.
  assert (Halready : ∀ (p : bt_le_scan_param) (c : option nat) (v : world T),
            has_flag BT_DEV_READY v = true → valid_le_scan_param p = true →
            has_flag BT_DEV_EXPLICIT_SCAN v = true →
            bt_le_scan_start p c v = Done (- EALREADY) v).
  { intros p c v Hr Hv Hset. unfold has_flag in Hr, Hset.
    unfold bt_le_scan_start, bind at 1, bt_atomic_testbit at 1.
    rewrite Hr, Hv. msimpl. rewrite Hset.
    unfold with_dev, with_flags.
    rewrite setbit_already by (done || apply flag_bit_nonneg).
    by destruct v as [[]]. }
  split; [by apply Halready|]. split; cycle 1.
  { intros w' Hrun param' cb' Hvalid'.
    destruct (bt_le_scan_start_holds_guard param cb w w' Hready Hrun).
    by apply Halready. }
  assert (Hclr : ∀ w' : world T,
            has_flag BT_DEV_EXPLICIT_SCAN (clr_flag BT_DEV_EXPLICIT_SCAN w') = false).
  { intros w'. rewrite has_flag_clr_flag. by destruct (decide _). }
  pose proof (has_flag_set_flag BT_DEV_EXPLICIT_SCAN BT_DEV_SCANNING w) as Hscan1.
  destruct (decide _) as [|_] in Hscan1; [done|].
  clear Halready. unfold has_flag in *.
  intros Hclear. set (w1 := set_flag BT_DEV_EXPLICIT_SCAN w) in *.
  assert (Hstartfail : ∀ w2 err w4,
    (Z.testbit (flags (g_btdev w)) (flag_bit BT_DEV_SCANNING) = false ∧ w2 = w1
     ∨ Z.testbit (flags (g_btdev w)) (flag_bit BT_DEV_SCANNING) = true
       ∧ set_le_scan_enable BT_LE_SCAN_DISABLE w1 = Done 0 w2) →
    start_le_scan (scan_type param) (interval param) (window param)
      (if negb (filter_dup param =? 0)
       then set_flag BT_DEV_SCAN_FILTER_DUP w2
       else clr_flag BT_DEV_SCAN_FILTER_DUP w2)
    = Done err w4 →
    err ≠ 0 →
    bt_le_scan_start param cb w = Done err (clr_flag BT_DEV_EXPLICIT_SCAN w4)
    ∧ Z.testbit (flags (g_btdev (clr_flag BT_DEV_EXPLICIT_SCAN w4)))
        (flag_bit BT_DEV_EXPLICIT_SCAN) = false);
    [|split; [|split; [exact Hstartfail|]]].
  3: { intros w2 wa err w4 Hpre Hbuf Hen Herr.
      apply (Hstartfail w2 err w4 Hpre); [|done].
      by apply (start_le_scan_enable_fails _ _ _ _ wa). }
  + intros w2 err w4 Hpre Hstart Herr. split; [|done].
    unfold bt_le_scan_start, bind at 1, bt_atomic_testbit at 1.
    rewrite Hready, Hvalid. msimpl. rewrite Hclear.
    change (with_dev _ w) with w1.
    msimpl. rewrite testbit_setbit.
    destruct (decide _) as [|_]; [done|].
    unfold bind at 1.
    destruct Hpre as [[Hs ->]|[Hs Hdis]]; rewrite Hs.
    * unfold w1, set_flag, clr_flag in Hstart |- *.
      destruct (negb (filter_dup param =? 0)); msimpl in Hstart; msimpl;
        unfold bind at 1; rewrite Hstart; by cmp_cases.
    * rewrite Hdis. msimpl. unfold set_flag, clr_flag in Hstart.
      destruct (negb (filter_dup param =? 0)); msimpl;
        unfold bind at 1; rewrite Hstart; by cmp_cases.
  + intros err w2 Hscan Hdis Herr. split; [|done].
    unfold bt_le_scan_start, bind at 1, bt_atomic_testbit at 1.
    rewrite Hready, Hvalid. msimpl. rewrite Hclear.
    change (with_dev _ w) with w1.
    msimpl. rewrite testbit_setbit.
    destruct (decide _) as [|_]; [done|].
    rewrite Hscan. unfold bind at 1. rewrite Hdis.
    by cmp_cases.
Qed.

End ScanProofs.

(** C4, on a window of 0x5000 with the device ready. *)
Lemma bt_le_scan_start_validates_witness :
  bt_le_scan_start scan_window_too_big None (world_init dev_ready ([] : list Z))
  = Done (- EINVAL) (world_init dev_ready []).
Proof.
  apply (proj2 (bt_le_scan_start_validates scan_window_too_big)).
  - reflexivity.
  - unfold scan_param_ok, scan_window_too_big. simpl. lia.
Defined.

(** C5, on a ready device whose transport creates both commands and then
    fails the scan-enable with status -5. *)
Lemma bt_le_scan_start_guard_witness :
  ∃ w4, bt_le_scan_start scan_16 None (world_init dev_ready [0; 0; -5])
        = Done (-5) (clr_flag BT_DEV_EXPLICIT_SCAN w4)
        ∧ has_flag BT_DEV_EXPLICIT_SCAN (clr_flag BT_DEV_EXPLICIT_SCAN w4) = false.
Proof.
  destruct (bt_le_scan_start_guard scan_16 None
              (world_init dev_ready [0; 0; -5]) eq_refl eq_refl) as (_ & H & _).
  destruct (H eq_refl) as (_ & _ & H3).
  eexists. eapply H3.
  - left. split; reflexivity.
  - vm_compute. reflexivity.
  - vm_compute. reflexivity.
  - lia.
Defined.

(** A scan with window = interval = 0x0010 starts and sets [SCANNING];
    a second start while it runs is refused. *)
Example scan_16_then_nested :
  match bt_le_scan_start scan_16 None (world_init dev_ready ([] : list Z)) with
  | Done r w' =>
    r = 0 ∧ has_flag BT_DEV_SCANNING w' = true
    ∧ bt_le_scan_start scan_16 None w' = Done (- EALREADY) w'
  | _ => False
  end.
Proof. vm_compute. repeat split; reflexivity. Qed.

(** ** Proofs: identity addresses *)

Lemma bt_addr_le_cmp_eq (a b : bt_addr_le_t) : bt_addr_le_cmp a b = 0 ↔ a = b.
Proof.
  unfold bt_addr_le_cmp. rewrite memcmp_eq.
  destruct a, b; simpl. split; [by intros [= -> ->]|by intros [= -> ->]].
Qed.

Lemma id_find_from_range (a : bt_addr_le_t) (l : list bt_addr_le_t) (i : Z) :
  id_find_from a l i = - ENOENT ∨ i ≤ id_find_from a l i < i + Z.of_nat (length l).
Proof.
  revert i. induction l as [|b l IH]; intros i; simpl; [by left|].
  destruct (bt_addr_le_cmp a b =? 0); [right; lia|].
  destruct (IH (i + 1)); [by left|right; lia].
Qed.

(** [id_find] answers a non-negative index exactly for the addresses of
    the table. *)
Lemma id_find_from_found (a : bt_addr_le_t) (l : list bt_addr_le_t) (i : Z) :
  0 ≤ i → (id_find_from a l i >=? 0) = true ↔ a ∈ l.
Proof.
  revert i. induction l as [|b l IH]; intros i Hi; simpl.
  - unfold ENOENT. split; [by cmp_cases|by intros ?%elem_of_nil].
  - destruct (Z.eqb_spec (bt_addr_le_cmp a b) 0) as [Heq|Hne].
    + apply bt_addr_le_cmp_eq in Heq as ->.
      split; [intros; by left|intros; by cmp_cases].
    + rewrite IH by lia. rewrite elem_of_cons.
      split; [by right|]. intros [->|?]; [|done].
      by destruct Hne; apply bt_addr_le_cmp_eq.
Qed.

Lemma id_find_from_absent (a : bt_addr_le_t) (l : list bt_addr_le_t) (i : Z) :
  0 ≤ i → (id_find_from a l i >=? 0) = false ↔ a ∉ l.
Proof.
  intros Hi. rewrite <- (id_find_from_found a l i Hi).
  by destruct (_ >=? _).
Qed.

(** The table after an update at slot [k]: every entry is the old entry
    at its index or the new address, and the new address was not in the
    table unless it is the wildcard. *)
Lemma ids_distinct_update (d d' : bt_dev_s) (k : nat) (new : bt_addr_le_t) :
  ids_distinct_but_wildcard d →
  (∀ i a, id_table d' !! i = Some a →
          id_table d !! i = Some a ∨ i = k ∧ a = new) →
  new ∉ id_table d ∨ new = BT_ADDR_LE_ANY →
  ids_distinct_but_wildcard d'.
Proof.
  intros Hinv Hupd Hnew i j a b Hij Ha Hb Hcmp.
  apply bt_addr_le_cmp_eq in Hcmp. subst b.
  destruct (Hupd i a Ha) as [Hia|[Hik Hanew]], (Hupd j a Hb) as [Hja|[Hjk Hbnew]].
  - apply (Hinv i j a a Hij Hia Hja). by apply bt_addr_le_cmp_eq.
  - subst a. destruct Hnew as [Hnew|?]; [|done].
    destruct Hnew. by eapply list_elem_of_lookup_2.
  - subst a. destruct Hnew as [Hnew|?]; [|done].
    destruct Hnew. by eapply list_elem_of_lookup_2.
  - lia.
Qed.

Lemma id_step_wf (d d' : bt_dev_s) : id_wf d → id_step d d' → id_wf d'.
Proof.
  unfold id_wf.
  intros [Hc Hl] [[-> ->]|[(id & new & Hid & _ & -> & ->)
    |[(new & Hroom & _ & -> & ->)|(id & Hid & -> & Hcnt)]]];
    rewrite ?length_insert; [lia|lia|lia|].
  destruct Hcnt as [->|[_ ->]]; lia.
Qed.

Lemma id_step_distinct (d d' : bt_dev_s) :
  id_wf d → ids_distinct_but_wildcard d → id_step d d' →
  ids_distinct_but_wildcard d'.
Proof.
  intros [Hc Hl] Hinv [[Ha Hn]|[(id & new & Hid & Hnew & Ha & Hn)
    |[(new & Hroom & Hnew & Ha & Hn)|(id & Hid & Ha & Hcnt)]]].
  - intros i j a b. unfold id_table. rewrite Ha, Hn. apply Hinv.
  - apply (ids_distinct_update d d' (Z.to_nat id) new Hinv); [|by left].
    intros i a. unfold id_table. rewrite Ha, Hn, !lookup_take_Some.
    intros [[(<- & <- & _)|[? ?]]%list_lookup_insert_Some Hi]; [by right|by left].
  - apply (ids_distinct_update d d' (Z.to_nat (id_count d)) new Hinv); [|by left].
    intros i a. unfold id_table. rewrite Ha, Hn, !lookup_take_Some.
    intros [[(<- & <- & _)|[? ?]]%list_lookup_insert_Some Hi]; [by right|].
    left. split; [done|lia].
  - apply (ids_distinct_update d d' (Z.to_nat id) BT_ADDR_LE_ANY Hinv); [|by right].
    intros i a. unfold id_table. rewrite Ha, !lookup_take_Some.
    intros [[(<- & <- & _)|[? ?]]%list_lookup_insert_Some Hi]; [by right|].
    left. split; [done|]. destruct Hcnt as [Hn|[_ Hn]]; rewrite Hn in Hi; lia.
Qed.

Section IdProofs.
Context {T : Type} `{!Collaborators T}.

Lemma bt_addr_le_create_static_done (w : world T) :
  ∃ r w1, bt_addr_le_create_static w = Done r w1 ∧ g_btdev w1 = g_btdev w.
Proof.
  unfold bt_addr_le_create_static, create_random_addr, bind, bt_rand.
  destruct (rand_bytes 6 (ext w)) as [[st bytes] t1]. msimpl.
  destruct (negb (st =? 0)); by eauto.
Qed.

(** The retry loop only returns an address that [id_find] does not find,
    and leaves the device state alone. *)
Lemma id_new_addr_done (fuel : nat) (w w' : world T) (a : bt_addr_le_t) :
  id_new_addr fuel w = Done a w' →
  g_btdev w' = g_btdev w ∧ a ∉ id_table (g_btdev w).
Proof.
  revert w. induction fuel as [|fuel IH]; intros w Hrun; [done|].
  simpl in Hrun. unfold bind at 1 in Hrun.
  destruct (bt_addr_le_create_static_done w) as (r & w1 & Hst & Hd1).
  rewrite Hst in Hrun. unfold bind at 1, id_find at 1 in Hrun.
  unfold bind at 1, get_dev at 1 in Hrun. msimpl in Hrun.
  destruct (id_find_from _ _ _ >=? 0) eqn:Hfound.
  - apply IH in Hrun as [-> Hnew]. by rewrite <- Hd1.
  - injection Hrun as <- <-. split; [done|].
    apply id_find_from_absent in Hfound; [|done].
    unfold id_table. by rewrite <- Hd1.
Qed.

Lemma id_new_addr_S (fuel : nat) (w : world T) :
  id_new_addr (S fuel) w
  = (r <- bt_addr_le_create_static ;;
     found <- id_find r.2 ;;
     if found >=? 0 then id_new_addr fuel else ret r.2) w.
Proof. reflexivity. Qed.

(** More fuel does not change a finished loop. *)
Lemma id_new_addr_fuel (fuel : nat) (w w' : world T) (a : bt_addr_le_t) :
  id_new_addr fuel w = Done a w' → id_new_addr (S fuel) w = Done a w'.
Proof.
  revert w. induction fuel as [|fuel IH]; intros w Hrun; [done|].
  rewrite id_new_addr_S in Hrun. rewrite id_new_addr_S.
  unfold bind at 1 in Hrun. unfold bind at 1.
  destruct (bt_addr_le_create_static w) as [r w1| |]; [|done|done].
  unfold bind at 1 in Hrun. unfold bind at 1.
  destruct (id_find r.2 w1) as [found w2| |]; [|done|done].
  destruct (found >=? 0); [|done].
  by apply IH.
Qed.


(** [id_create] writes one slot: the address given, or else one that the
    table does not hold. *)
Lemma id_create_done (fuel : nat) (id : Z) (addr : option bt_addr_le_t)
    (irk : option (list Z)) (w w' : world T) (out : option bt_addr_le_t) :
  id_create fuel id addr irk w = Done out w' →
  ∃ new,
    g_btdev w'
    = with_id_addr (<[Z.to_nat id := new]> (id_addr (g_btdev w))) (g_btdev w)
    ∧ (addr_given addr = true ∧ addr = Some new ∧ out = addr
       ∨ addr_given addr = false ∧ new ∉ id_table (g_btdev w)).
Proof.
  unfold id_create, addr_given. intros Hrun.
  destruct addr as [a|].
  - destruct (negb (bt_addr_le_cmp a BT_ADDR_LE_ANY =? 0)).
    + msimpl in Hrun. injection Hrun as <- <-. exists a. by eauto.
    + unfold bind at 1 in Hrun.
      destruct (id_new_addr fuel w) as [new w1| |] eqn:Hnew; [|done|done].
      apply id_new_addr_done in Hnew as [Hd1 Hfresh].
      msimpl in Hrun. injection Hrun as <- <-. exists new.
      msimpl. rewrite Hd1. by eauto.
  - unfold bind at 1 in Hrun.
    destruct (id_new_addr fuel w) as [new w1| |] eqn:Hnew; [|done|done].
    apply id_new_addr_done in Hnew as [Hd1 Hfresh].
    msimpl in Hrun. injection Hrun as <- <-. exists new.
    msimpl. rewrite Hd1. by eauto.
Qed.

Lemma id_table_grow (d : bt_dev_s) (c : Z) (a : bt_addr_le_t) :
  id_count d ≤ c →
  a ∉ take (Z.to_nat c) (id_addr d) → a ∉ id_table d.
Proof.
  intros Hc Hnot Hin. apply Hnot.
  unfold id_table in Hin. apply elem_of_take in Hin as (i & Hi & Hlt).
  apply elem_of_take. exists i. split; [done|lia].
Qed.

Lemma bt_id_create_done (fuel : nat) (addr : option bt_addr_le_t)
    (irk : option (list Z)) (w w' : world T) (r : Z)
    (out : option bt_addr_le_t) :
  id_wf (g_btdev w) →
  bt_id_create fuel addr irk w = Done (r, out) w' →
  id_created addr w r out w'.
Proof.
  intros [Hc Hl] Hrun. unfold bt_id_create in Hrun.
  set (allocate := (d <- get_dev ;; _) : M T _) in Hrun.
  assert (Halloc :
    (∀ a, addr_given addr = true → addr = Some a → a ∉ id_table (g_btdev w)) →
    allocate w = Done (r, out) w' → id_created addr w r out w').
  { clear Hrun. intros Hgiven Hrun. unfold allocate in Hrun.
    unfold bind at 1, get_dev at 1 in Hrun.
    destruct (Z.eqb_spec (id_count (g_btdev w)) (Z.of_nat (length (id_addr (g_btdev w)))))
      as [Hfull|Hroom].
    { injection Hrun as <- <- <-. left. unfold ENOMEM. by split; [lia|]. }
    right.
    unfold bind at 1, modify_dev at 1 in Hrun.
    unfold bind at 1, bt_atomic_testbit at 1 in Hrun.
    unfold bind at 1 in Hrun.
    set (w1 := with_dev _ w) in Hrun.
    assert (∃ w2, (if (id_count (g_btdev w) =? BT_ID_DEFAULT)
                       && negb (Z.testbit (flags (g_btdev w1)) (flag_bit BT_DEV_READY))
                   then bt_atomic_setbit BT_DEV_USER_ID_ADDR else ret ()) w1
                  = Done () w2
                  ∧ id_addr (g_btdev w2) = id_addr (g_btdev w)
                  ∧ id_count (g_btdev w2) = u8 (id_count (g_btdev w) + 1))
      as (w2 & Hw2 & Ha2 & Hn2).
    { destruct (_ && _); eexists; split; done. }
    rewrite Hw2 in Hrun. unfold bind at 1 in Hrun.
    destruct (id_create _ _ _ _ w2) as [o w3| |] eqn:Hcr; [|done|done].
    injection Hrun as <- <- <-.
    apply id_create_done in Hcr as (new & Hd3 & Hcase).
    unfold u8 in Hn2. rewrite Z.mod_small in Hn2 by lia.
    split; [done|]. split; [lia|]. exists new.
    rewrite Hd3. cbn [id_addr id_count with_id_addr]. rewrite Ha2, Hn2.
    split; [|split; [|done]].
    - destruct Hcase as [(Hg & -> & _)|[_ Hfresh]]; [by apply Hgiven|].
      apply (id_table_grow _ (id_count (g_btdev w) + 1)); [lia|].
      unfold id_table in Hfresh. by rewrite Ha2, Hn2 in Hfresh.
    - intros Hg. destruct Hcase as [(_ & -> & _)|[Hg' _]]; [done|congruence]. }
  destruct addr as [a|]; [|by apply Halloc].
  destruct (negb (bt_addr_le_cmp a BT_ADDR_LE_ANY =? 0)) eqn:Hwild;
    [|apply Halloc; [|done]; simpl; intros; congruence].
  destruct (negb (addr_type a =? BT_ADDR_LE_RANDOM) || negb (BT_ADDR_IS_STATIC a)).
  { injection Hrun as <- <- <-. left. unfold EINVAL. by split; [lia|]. }
  unfold bind at 1, id_find at 1 in Hrun.
  unfold bind at 1, get_dev at 1 in Hrun. msimpl in Hrun.
  destruct (id_find_from _ _ _ >=? 0) eqn:Hfound.
  { injection Hrun as <- <- <-. left. unfold EALREADY. by split; [lia|]. }
  apply id_find_from_absent in Hfound; [|done].
  apply Halloc; [|done]. by intros ? _ [= <-].
Qed.

Lemma static_random_check (a : bt_addr_le_t) :
  negb (addr_type a =? BT_ADDR_LE_RANDOM) || negb (BT_ADDR_IS_STATIC a) = false
  ↔ static_random a.
Proof.
  unfold static_random.
  destruct (Z.eqb_spec (addr_type a) BT_ADDR_LE_RANDOM), (BT_ADDR_IS_STATIC a);
    simpl; split; try done; by intros [? ?].
Qed.

Lemma wildcard_check (a : bt_addr_le_t) :
  negb (bt_addr_le_cmp a BT_ADDR_LE_ANY =? 0) = true ↔ a ≠ BT_ADDR_LE_ANY.
Proof.
  rewrite <- bt_addr_le_cmp_eq.
  destruct (Z.eqb_spec (bt_addr_le_cmp a BT_ADDR_LE_ANY) 0); simpl;
    split; try done; by intros [].
Qed.

(** C6: [bt_id_create] rejects a given non-wildcard address that is not
    static random with [-EINVAL]; one that is already in the table with
    [-EALREADY]; a full table with [-ENOMEM] (the address checks come
    first); otherwise it stores the identity at index [id_count], counts it
    and returns that index.  The last part says the same of every
    successful return, also when the address is generated. *)
Theorem bt_id_create_spec (fuel : nat) (addr : option bt_addr_le_t)
    (irk : option (list Z)) (w : world T) :
  id_wf (g_btdev w) →
  let d := g_btdev w in
  (∀ a, addr = Some a → a ≠ BT_ADDR_LE_ANY → ¬ static_random a →
        bt_id_create fuel addr irk w = Done (- EINVAL, addr) w)
  ∧ (∀ a, addr = Some a → a ≠ BT_ADDR_LE_ANY → static_random a →
          a ∈ id_table d →
          bt_id_create fuel addr irk w = Done (- EALREADY, addr) w)
  ∧ (id_count d = Z.of_nat (length (id_addr d)) →
     (∀ a, addr = Some a → a ≠ BT_ADDR_LE_ANY →
           static_random a ∧ a ∉ id_table d) →
     bt_id_create fuel addr irk w = Done (- ENOMEM, addr) w)
  ∧ (∀ a, addr = Some a → a ≠ BT_ADDR_LE_ANY → static_random a →
          a ∉ id_table d →
          id_count d < Z.of_nat (length (id_addr d)) →
          ∃ w', bt_id_create fuel addr irk w = Done (id_count d, addr) w'
                ∧ id_addr (g_btdev w') = <[Z.to_nat (id_count d) := a]> (id_addr d)
                ∧ id_count (g_btdev w') = id_count d + 1)
  ∧ (∀ r out w',
       bt_id_create fuel addr irk w = Done (r, out) w' → 0 ≤ r →
       r = id_count d
       ∧ ∃ new,
           (new ∉ id_table d)
           ∧ (addr_given addr = true → addr = Some new)
           ∧ id_addr (g_btdev w') = <[Z.to_nat r := new]> (id_addr d)
           ∧ id_count (g_btdev w') = id_count d + 1).
Proof.
  intros Hwf d. pose proof Hwf as [Hc Hl]. fold d in Hc, Hl.
  split; [|split; [|split; [|split]]].
  - intros a -> Hany%wildcard_check Hst. unfold bt_id_create. rewrite Hany.
    destruct (_ || _) eqn:Hchk; [done|].
    by apply static_random_check in Hchk.
  - intros a -> Hany%wildcard_check Hst%static_random_check Hin.
    unfold bt_id_create. rewrite Hany, Hst.
    unfold bind at 1, id_find at 1. unfold bind at 1, get_dev at 1. msimpl.
    apply (id_find_from_found a _ 0) in Hin; [|done].
    fold d. fold (id_table d). by rewrite Hin.
  - intros Hfull Hok. unfold bt_id_create.
    assert (Halloc : ∀ k : bt_dev_s → M T (Z * option bt_addr_le_t),
              (d' <- get_dev ;;
               if id_count d' =? Z.of_nat (length (id_addr d'))
               then ret (- ENOMEM, addr) else k d') w
              = Done (- ENOMEM, addr) w).
    { intros k. unfold bind, get_dev. fold d. rewrite Hfull.
      by rewrite Z.eqb_refl. }
    destruct addr as [a|]; [|apply Halloc].
    destruct (negb (bt_addr_le_cmp a BT_ADDR_LE_ANY =? 0)) eqn:Hany;
      [|apply Halloc].
    apply wildcard_check in Hany.
    destruct (Hok a eq_refl Hany) as [Hst%static_random_check Hnot].
    rewrite Hst.
    unfold bind at 1, id_find at 1. unfold bind at 1, get_dev at 1. msimpl.
    apply (id_find_from_absent a _ 0) in Hnot; [|done].
    fold d. fold (id_table d). rewrite Hnot. apply Halloc.
  - intros a -> Hany%wildcard_check Hst%static_random_check Hnot Hroom.
    unfold bt_id_create. rewrite Hany, Hst.
    unfold bind at 1, id_find at 1. unfold bind at 1, get_dev at 1. msimpl.
    apply (id_find_from_absent a _ 0) in Hnot; [|done].
    fold d. fold (id_table d). rewrite Hnot.
    unfold bind at 1, get_dev at 1. fold d.
    destruct (Z.eqb_spec (id_count d) (Z.of_nat (length (id_addr d)))); [lia|].
    unfold id_create. rewrite Hany.
    unfold u8. rewrite Z.mod_small by lia.
    msimpl.
    destruct (_ && _); msimpl; eexists; (split; [reflexivity|done]).
  - intros r out w' Hrun Hr.
    apply bt_id_create_done in Hrun; [|done].
    destruct Hrun as [(? & _)|(-> & _ & new & ? & ? & ? & ?)]; [lia|].
    split; [done|]. by exists new.
Qed.


(** C7 (amended): [bt_id_delete] fails on index 0, on an index at or
    above [id_count], on a slot that already holds the wildcard, and
    ([-EBUSY]) on the identity used by active advertising.  On every other
    index it returns 0, the slot holds the wildcard, no other slot moves,
    and the count drops by one exactly when the index is [id_count - 1],
    the last slot counted.  That slot is then the last occupied one; the
    last occupied slot need not be the last one counted. *)
Theorem bt_id_delete_spec (id : Z) (w : world T) :
  let d := g_btdev w in
  (id = BT_ID_DEFAULT → bt_id_delete id w = Done (- EINVAL) w)
  ∧ (id_count d ≤ id → bt_id_delete id w = Done (- EINVAL) w)
  ∧ (0 < id < id_count d → id_addr_at d id = BT_ADDR_LE_ANY →
     bt_id_delete id w = Done (- EALREADY) w)
  ∧ (0 < id < id_count d → id_addr_at d id ≠ BT_ADDR_LE_ANY →
     id = adv_id d → has_flag BT_DEV_ADVERTISING w = true →
     bt_id_delete id w = Done (- EBUSY) w)
  ∧ (id_wf d → 0 < id < id_count d → id_addr_at d id ≠ BT_ADDR_LE_ANY →
     ¬ (id = adv_id d ∧ has_flag BT_DEV_ADVERTISING w = true) →
     ∃ w', bt_id_delete id w = Done 0 w'
           ∧ id_addr (g_btdev w') = <[Z.to_nat id := BT_ADDR_LE_ANY]> (id_addr d)
           ∧ id_addr_at (g_btdev w') id = BT_ADDR_LE_ANY
           ∧ (∀ j, j ≠ Z.to_nat id →
                   id_addr (g_btdev w') !! j = id_addr d !! j)
           ∧ id_count (g_btdev w')
             = (if decide (id = id_count d - 1) then id_count d - 1
                else id_count d)
           ∧ (id = id_count d - 1 → last_occupied d id)).
Proof.
  intros d.
  assert (Hguard : 0 < id < id_count d →
                   (id =? 0) || (id >=? id_count d) = false).
  { intros Hid. by cmp_cases. }
  split; [|split; [|split; [|split]]];
    unfold bt_id_delete, bind at 1, get_dev at 1; fold d; unfold BT_ID_DEFAULT.
  - intros ->. done.
  - intros Hge. by cmp_cases.
  - intros Hid Hany. rewrite (Hguard Hid), Hany. done.
  - intros Hid Hany%wildcard_check Hadv Hflag.
    apply negb_true_iff in Hany. rewrite (Hguard Hid), Hany.
    unfold bind at 1, bt_atomic_testbit at 1.
    unfold has_flag in Hflag. fold d in Hflag |- *.
    rewrite Hflag, <- Hadv, Z.eqb_refl. done.
  - intros [Hc Hl] Hid Hslot Hfree.
    pose proof Hslot as Hany. apply wildcard_check in Hany.
    apply negb_true_iff in Hany. rewrite (Hguard Hid), Hany.
    unfold bind at 1, bt_atomic_testbit at 1. fold d.
    assert ((id =? adv_id d)
            && Z.testbit (flags d) (flag_bit BT_DEV_ADVERTISING) = false) as ->.
    { destruct (Z.eqb_spec id (adv_id d)); [|done].
      destruct (Z.testbit _ _) eqn:Hflag; [|done]. by destruct Hfree. }
    clear Hfree.
    msimpl. unfold u8. rewrite Z.mod_small by lia.
    destruct (Z.eqb_spec id (id_count d - 1)) as [He|Hne]; msimpl;
      (eexists; split; [done|]; msimpl; fold d;
       split; [done|]; split; [|split; [|split]];
       [ unfold id_addr_at; msimpl; fold d;
         rewrite list_lookup_insert_eq; [done|lia]
       | intros j Hj; by rewrite list_lookup_insert_ne
       | by destruct (decide _)
       | intros Hlast; split; [done|intros j Hj; lia] ]).
Qed.

(** *** Every identity operation is an [id_step] *)

Lemma bt_id_create_step (fuel : nat) (addr : option bt_addr_le_t)
    (irk : option (list Z)) (w w' : world T) (r : Z * option bt_addr_le_t) :
  id_wf (g_btdev w) →
  bt_id_create fuel addr irk w = Done r w' →
  id_step (g_btdev w) (g_btdev w').
Proof.
  intros Hwf Hrun. destruct r as [r out].
  apply bt_id_create_done in Hrun; [|done].
  destruct Hrun as [(_ & -> & _)|(_ & Hroom & new & Hnew & _ & Ha & Hn)].
  - by left.
  - right. right. left. by exists new.
Qed.

Lemma bt_set_id_addr_step (fuel : nat) (addr : bt_addr_le_t)
    (w w' : world T) (r : Z) :
  id_wf (g_btdev w) →
  bt_set_id_addr fuel addr w = Done r w' →
  id_step (g_btdev w) (g_btdev w').
Proof.
  intros Hwf Hrun. unfold bt_set_id_addr in Hrun.
  unfold bind at 1, bt_atomic_testbit at 1 in Hrun.
  destruct (Z.testbit _ _).
  - injection Hrun as _ <-. by left.
  - unfold bind at 1 in Hrun.
    destruct (bt_id_create _ _ _ w) as [r1 w1| |] eqn:Hcr; [|done|done].
    injection Hrun as _ <-. by eapply bt_id_create_step.
Qed.

Lemma bt_id_reset_step (fuel : nat) (id : Z) (addr : option bt_addr_le_t)
    (irk : option (list Z)) (w w' : world T) (r : Z * option bt_addr_le_t) :
  0 ≤ id < 256 →
  bt_id_reset fuel id addr irk w = Done r w' →
  id_step (g_btdev w) (g_btdev w').
Proof.
  intros Hid Hrun. unfold bt_id_reset in Hrun.
  set (reset := (d <- get_dev ;; _) : M T _) in Hrun.
  assert (Hreset :
    (∀ a, addr_given addr = true → addr = Some a → a ∉ id_table (g_btdev w)) →
    reset w = Done r w' → id_step (g_btdev w) (g_btdev w')).
  { clear Hrun. intros Hgiven Hrun. unfold reset in Hrun.
    unfold bind at 1, get_dev at 1 in Hrun. unfold BT_ID_DEFAULT in Hrun.
    destruct ((id =? 0) || (id >=? id_count (g_btdev w))) eqn:Hguard.
    { injection Hrun as _ <-. by left. }
    unfold bind at 1, bt_atomic_testbit at 1 in Hrun.
    destruct (_ && _).
    { injection Hrun as _ <-. by left. }
    unfold bind at 1 in Hrun.
    assert ((if negb (bt_addr_le_cmp (id_addr_at (g_btdev w) id) BT_ADDR_LE_ANY =? 0)
             then bt_unpair id None else ret 0) w = Done 0 w) as Hunpair.
    { by destruct (negb _). }
    rewrite Hunpair in Hrun. msimpl in Hrun. unfold bind at 1 in Hrun.
    destruct (id_create _ _ _ _ w) as [o w3| |] eqn:Hcr; [|done|done].
    injection Hrun as _ <-.
    apply id_create_done in Hcr as (new & Hd3 & Hcase).
    right. left. exists id, new. rewrite Hd3.
    split; [revert Hguard; cmp_cases; done|].
    split; [|done].
    destruct Hcase as [(Hg & -> & _)|[_ Hfresh]]; [by apply Hgiven|done]. }
  destruct addr as [a|]; [|by apply Hreset].
  destruct (negb (bt_addr_le_cmp a BT_ADDR_LE_ANY =? 0)) eqn:Hwild;
    [|apply Hreset; [|done]; simpl; intros; congruence].
  destruct (negb (addr_type a =? BT_ADDR_LE_RANDOM) || negb (BT_ADDR_IS_STATIC a)).
  { injection Hrun as _ <-. by left. }
  unfold bind at 1, id_find at 1 in Hrun.
  unfold bind at 1, get_dev at 1 in Hrun. msimpl in Hrun.
  destruct (id_find_from _ _ _ >=? 0) eqn:Hfound.
  { injection Hrun as _ <-. by left. }
  apply id_find_from_absent in Hfound; [|done].
  apply Hreset; [|done]. by intros ? _ [= <-].
Qed.

Lemma bt_id_delete_step (id : Z) (w w' : world T) (r : Z) :
  0 ≤ id < 256 →
  id_wf (g_btdev w) →
  bt_id_delete id w = Done r w' →
  id_step (g_btdev w) (g_btdev w').
Proof.
  intros Hid [Hc Hl] Hrun. unfold bt_id_delete in Hrun.
  unfold bind at 1, get_dev at 1 in Hrun. unfold BT_ID_DEFAULT in Hrun.
  destruct ((id =? 0) || (id >=? id_count (g_btdev w))) eqn:Hguard.
  { injection Hrun as _ <-. by left. }
  destruct (bt_addr_le_cmp _ _ =? 0).
  { injection Hrun as _ <-. by left. }
  unfold bind at 1, bt_atomic_testbit at 1 in Hrun.
  destruct (_ && _).
  { injection Hrun as _ <-. by left. }
  assert (Hin : 0 < id < id_count (g_btdev w)).
  { revert Hguard. cmp_cases; done. }
  msimpl in Hrun. unfold u8 in Hrun. rewrite Z.mod_small in Hrun by lia.
  right. right. right. exists id. split; [done|].
  destruct (Z.eqb_spec id (id_count (g_btdev w) - 1));
    msimpl in Hrun; injection Hrun as _ <-; msimpl; split; by eauto.
Qed.

(** Running operations one after the other keeps the table sound and its
    non-wildcard entries distinct. *)
Lemma run_id_op_step (fuel : nat) (op : id_op) (w w' : world T) (r : Z) :
  id_op_wf op → id_wf (g_btdev w) →
  run_id_op fuel op w = Done r w' →
  id_step (g_btdev w) (g_btdev w').
Proof.
  intros Hop Hwf Hrun. destruct op as [addr|id addr|id|addr]; simpl in Hrun, Hop.
  - unfold bind in Hrun.
    destruct (bt_id_create _ _ _ w) as [r1 w1| |] eqn:Hcr; [|done|done].
    injection Hrun as _ <-. by eapply bt_id_create_step.
  - unfold bind in Hrun.
    destruct (bt_id_reset _ _ _ _ w) as [r1 w1| |] eqn:Hcr; [|done|done].
    injection Hrun as _ <-. by eapply bt_id_reset_step.
  - by eapply bt_id_delete_step.
  - by eapply bt_set_id_addr_step.
Qed.

Lemma run_id_ops_invariant (fuel : nat) (ops : list id_op) (w w' : world T) :
  Forall id_op_wf ops →
  id_wf (g_btdev w) → ids_distinct_but_wildcard (g_btdev w) →
  run_id_ops fuel ops w = Done () w' →
  id_wf (g_btdev w') ∧ ids_distinct_but_wildcard (g_btdev w').
Proof.
  intros Hops. revert w.
  induction Hops as [|op ops Hop _ IH]; intros w Hwf Hinv Hrun.
  - injection Hrun as <-. done.
  - simpl in Hrun. unfold bind at 1 in Hrun.
    destruct (run_id_op fuel op w) as [r w1| |] eqn:Hop1; [|done|done].
    pose proof (run_id_op_step _ _ _ _ _ Hop Hwf Hop1) as Hstep.
    apply (IH w1); [|by eapply id_step_distinct|done].
    by eapply id_step_wf.
Qed.

(** C3 (amended): after every sequence of identity operations, started
    where this holds (the empty table in particular), two entries of
    [identity_addresses[0..identity_count)] that compare equal are both the
    wildcard address. *)
Theorem id_ops_keep_distinct (fuel : nat) (ops : list id_op) (w w' : world T) :
  Forall id_op_wf ops →
  id_wf (g_btdev w) → ids_distinct_but_wildcard (g_btdev w) →
  run_id_ops fuel ops w = Done () w' →
  ids_distinct_but_wildcard (g_btdev w').
Proof.
  intros Hops Hwf Hinv Hrun.
  by destruct (run_id_ops_invariant fuel ops w w' Hops Hwf Hinv Hrun).
Qed.

End IdProofs.

Lemma dev_init_distinct (name_size id_max : nat) :
  ids_distinct_but_wildcard (dev_init name_size id_max).
Proof. intros i j a b _ Ha. done. Qed.

(** C3 without the exception for the wildcard: two deletions leave two
    equal entries inside the table. *)
Lemma ids_distinct_counterexample :
  ∃ ops w',
    Forall id_op_wf ops
    ∧ run_id_ops 1 ops (world_init (dev_init 8 4) ([] : list Z)) = Done () w'
    ∧ ¬ ids_distinct (g_btdev w').
Proof.
  exists ops_two_holes, world_two_holes.
  split; [unfold ops_two_holes; forall_cases; simpl; lia|].
  split; [vm_compute; reflexivity|].
  intros Hdistinct.
  by apply (Hdistinct 1%nat 2%nat BT_ADDR_LE_ANY BT_ADDR_LE_ANY).
Qed.

(** C3 (amended), on the same run. *)
Lemma id_ops_keep_distinct_witness :
  ids_distinct_but_wildcard (g_btdev world_two_holes).
Proof.
  apply (id_ops_keep_distinct 1 ops_two_holes
           (world_init (dev_init 8 4) ([] : list Z)) world_two_holes).
  - unfold ops_two_holes. forall_cases; simpl; lia.
  - unfold id_wf. simpl. lia.
  - apply dev_init_distinct.
  - vm_compute. reflexivity.
Defined.

(** C6, on the first identity created with a static random address. *)
Lemma bt_id_create_spec_witness :
  let w := world_init (dev_init 8 4) ([] : list Z) in
  ∃ w', bt_id_create 1 (Some (static_addr 1)) None w
        = Done (0, Some (static_addr 1)) w'
        ∧ id_addr (g_btdev w')
          = <[0%nat := static_addr 1]> (id_addr (g_btdev w))
        ∧ id_count (g_btdev w') = 1.
Proof.
  intros w.
  assert (Hwf : id_wf (g_btdev w)) by (unfold id_wf; simpl; lia).
  destruct (bt_id_create_spec 1 (Some (static_addr 1)) None w Hwf)
    as (_ & _ & _ & Hok & _).
  apply (Hok (static_addr 1)).
  - reflexivity.
  - discriminate.
  - split; reflexivity.
  - simpl. apply not_elem_of_nil.
  - simpl. lia.
Defined.

(** C7, on the last identity of a table of four. *)
Lemma bt_id_delete_spec_witness :
  ∃ w', bt_id_delete 3 world_two_holes = Done 0 w'
        ∧ id_addr (g_btdev w')
          = <[3%nat := BT_ADDR_LE_ANY]> (id_addr (g_btdev world_two_holes))
        ∧ id_addr_at (g_btdev w') 3 = BT_ADDR_LE_ANY
        ∧ (∀ j, j ≠ 3%nat →
                id_addr (g_btdev w') !! j = id_addr (g_btdev world_two_holes) !! j)
        ∧ id_count (g_btdev w') = 3
        ∧ (3 = id_count (g_btdev world_two_holes) - 1 →
           last_occupied (g_btdev world_two_holes) 3).
Proof.
  destruct (bt_id_delete_spec 3 world_two_holes) as (_ & _ & _ & _ & Hok).
  apply Hok.
  - unfold id_wf. simpl. lia.
  - simpl. lia.
  - discriminate.
  - intros [Hadv _]. discriminate Hadv.
Defined.

(** C7 as the specification words it: after four identities are created
    and identities 2 and 3 deleted, slot 1 is the last occupied slot of a
    table that still counts three; deleting it succeeds and the count is
    not decremented. *)
Lemma bt_id_delete_last_occupied_counterexample :
  run_id_ops 1 ops_trailing_hole (world_init (dev_init 8 4) ([] : list Z))
  = Done () world_trailing_hole
  ∧ last_occupied (g_btdev world_trailing_hole) 1
  ∧ ∃ w', bt_id_delete 1 world_trailing_hole = Done 0 w'
          ∧ id_count (g_btdev w') = id_count (g_btdev world_trailing_hole)
          ∧ id_count (g_btdev w') ≠ id_count (g_btdev world_trailing_hole) - 1.
Proof.
  split; [vm_compute; reflexivity|]. split.
  - split; [discriminate|]. intros j Hj.
    assert (j = 2) as -> by (simpl in Hj; lia). reflexivity.
  - eexists. split; [vm_compute; reflexivity|]. split; [reflexivity|].
    simpl. lia.
Qed.

(** ** Proofs: the enable pipeline *)

Lemma later_refl {T} (w : world T) : later w w.
Proof. split; [done|]. split; [done|]. by exists []. Qed.

Lemma later_trans {T} (w1 w2 w3 : world T) :
  later w1 w2 → later w2 w3 → later w1 w3.
Proof.
  intros (He1 & Hb1 & c1 & Ht1) (He2 & Hb2 & c2 & Ht2).
  split; [by eauto|]. split; [congruence|].
  exists (c2 ++ c1). by rewrite Ht2, Ht1, app_assoc.
Qed.

Lemma later_with_ext {T} (w : world T) (t : T) (c : call) :
  later w (with_ext t c w).
Proof. split; [done|]. split; [done|]. by exists [c]. Qed.

Lemma later_set_flag {T} (f : bt_dev_flag) (w : world T) :
  later w (set_flag f w).
Proof.
  split; [|split; [done|by exists []]].
  intros He. rewrite has_flag_set_flag. by destruct (decide _).
Qed.

Lemma later_clr_flag {T} (f : bt_dev_flag) (w : world T) :
  f ≠ BT_DEV_ENABLE → later w (clr_flag f w).
Proof.
  intros Hf. split; [|split; [done|by exists []]].
  intros He. rewrite has_flag_clr_flag. by destruct (decide _).
Qed.

Lemma later_with_name {T} (n : list Z) (w : world T) :
  later w (with_dev (with_name n (g_btdev w)) w).
Proof. split; [done|]. split; [done|]. by exists []. Qed.

Lemma later_with_adv_enable {T} (e : Z) (w : world T) :
  later w (with_dev (with_adv_enable e (g_btdev w)) w).
Proof. split; [done|]. split; [done|]. by exists []. Qed.

Lemma later_with_ready_cb {T} (cb : option nat) (w : world T) :
  later w (with_ready_cb cb w).
Proof. split; [done|]. split; [done|]. by exists []. Qed.

Section EnableProofs.
Context {T : Type} `{!Collaborators T}.

Lemma set_advertise_enable_later (enable : bool) (w : world T) :
  ∃ r w', set_advertise_enable enable w = Done r w' ∧ later w w'.
Proof.
  unfold set_advertise_enable, bind, bt_hci_cmd_create.
  destruct (hci_cmd_create _ _ _) as [[|] t1]; msimpl;
    [|do 2 eexists; split; [done|apply later_with_ext]].
  unfold bt_hci_cmd_send_sync. msimpl.
  destruct (hci_cmd_send_sync _ _ _) as [st t2].
  set (w2 := with_ext t2 _ (with_ext t1 _ w)).
  assert (later w w2) as Hw2.
  { eapply later_trans; apply later_with_ext. }
  destruct (st =? 0); msimpl; [|by eauto].
  destruct enable; msimpl; do 2 eexists; (split; [done|]);
    (eapply later_trans; [apply Hw2|]).
  - eapply later_trans; [apply (later_with_adv_enable 1 w2)|].
    apply (later_set_flag BT_DEV_ADVERTISING).
  - eapply later_trans; [apply (later_with_adv_enable 0 w2)|].
    by apply (later_clr_flag BT_DEV_ADVERTISING).
Qed.

Lemma set_ad_name_later (hci_op : hci_opcode) (s : list Z) (w : world T) :
  ∃ r w', set_ad hci_op [[BT_DATA BT_DATA_NAME_COMPLETE (u8 (strlen s)) s]] w
          = Done r w'
          ∧ later w w'.
Proof.
  destruct (name_record_fills s) as [sd Hsd].
  unfold set_ad, bind, bt_hci_cmd_create.
  destruct (hci_cmd_create _ _ _) as [[|] t1]; msimpl;
    [|do 2 eexists; split; [done|apply later_with_ext]].
  rewrite Hsd. unfold bt_hci_cmd_send_sync. msimpl.
  destruct (hci_cmd_send_sync _ _ _) as [st t2].
  do 2 eexists. split; [done|].
  eapply later_trans; apply later_with_ext.
Qed.

Lemma bt_set_name_later (new_name : list Z) (w : world T) :
  ∃ r w', bt_set_name new_name w = Done r w' ∧ later w w'.
Proof.
  unfold bt_set_name, bind at 1, get_dev at 1.
  destruct (_ >=? _); [do 2 eexists; split; [done|apply later_refl]|].
  destruct (_ =? 0); [do 2 eexists; split; [done|apply later_refl]|].
  unfold bind at 1, modify_dev at 1.
  unfold bind at 1, bt_atomic_testbit at 1.
  set (w1 := with_dev _ w).
  assert (later w w1) as Hw1 by apply later_with_name.
  destruct (Z.testbit _ _); [|by eauto].
  unfold bind at 1.
  destruct (set_ad_name_later BT_HCI_OP_LE_SET_SCAN_RSP_DATA new_name w1)
    as (r2 & w2 & -> & Hw2).
  unfold bind at 1, bt_atomic_testbit at 1.
  destruct (Z.testbit _ _).
  - unfold bind at 1.
    destruct (set_advertise_enable_later false w2) as (r3 & w3 & -> & Hw3).
    unfold bind at 1.
    destruct (set_advertise_enable_later true w3) as (r4 & w4 & -> & Hw4).
    do 2 eexists. split; [done|].
    eauto using later_trans.
  - do 2 eexists. split; [done|]. eauto using later_trans.
Qed.

Lemma bt_init_later (w : world T) :
  ∃ r w', bt_init w = Done r w' ∧ later w w'
          ∧ ∃ st calls, trace w' = calls ++ HciInitialize st :: trace w.
Proof.
  unfold bt_init, bind at 1, hci_initialize.
  destruct (hci_init (ext w)) as [st t1].
  set (w1 := with_ext t1 _ w).
  assert (later w w1) as Hw1 by apply later_with_ext.
  destruct (st <? 0).
  { do 2 eexists. split; [done|]. split; [done|]. by exists st, []. }
  unfold bind at 1, bt_conn_init, bind at 1, bt_l2cap_init.
  destruct (l2cap_init (ext w1)) as [st2 t2].
  set (w2 := with_ext t2 _ w1).
  assert (later w w2) as Hw2.
  { eapply later_trans; [apply Hw1|apply later_with_ext]. }
  assert ((if st2 <? 0 then ret st2 else ret st2) w2 = Done st2 w2) as ->.
  { by destruct (st2 <? 0). }
  destruct (st2 <? 0).
  { do 2 eexists. split; [done|]. split; [done|]. by exists st, [L2capInit st2]. }
  msimpl. do 2 eexists. split; [done|]. split.
  - change (later w (set_flag BT_DEV_READY w2)).
    eapply later_trans; [apply Hw2|apply later_set_flag].
  - by exists st, [L2capInit st2].
Qed.

Lemma k_work_submit_later (w : world T) :
  ∃ w', k_work_submit w = Done () w' ∧ later w w'
        ∧ (g_hip_work w = false →
           ∃ st, trace w' = WorkQueue st :: trace w).
Proof.
  unfold k_work_submit.
  destruct (g_hip_work w); msimpl.
  { eexists. split; [done|]. split; [apply later_refl|done]. }
  unfold bind, work_queue.
  destruct (hp_work_queue (ext w)) as [st t1].
  eexists. split; [done|]. split.
  - apply (later_with_ext w t1 (WorkQueue st)).
  - intros _. by exists st.
Qed.

(** Once [ENABLE] is set, [bt_enable] returns [-EALREADY] at once and the
    world stays as it is. *)
Lemma bt_enable_again (cb : option nat) (w : world T) :
  btdev (g_btdev w) = true →
  has_flag BT_DEV_ENABLE w = true →
  bt_enable cb w = Done (- EALREADY) w.
Proof.
  intros Hdrv Hset. unfold has_flag in Hset.
  unfold bt_enable, bind at 1, get_dev at 1. rewrite Hdrv. msimpl.
  rewrite Hset.
  unfold with_dev, with_flags.
  rewrite setbit_already by (done || apply flag_bit_nonneg).
  by destruct w as [[]].
Qed.

(** What [bt_enable] does after it has set [ENABLE], stored the default
    name and the callback: it opens the driver and goes on from there. *)
Lemma bt_enable_open_later (cb : option nat) (w : world T) :
  ∃ r w',
    (err <- bt_drv_open ;;
     if negb (err =? 0) then ret err else
     match cb with
     | None => bt_init
     | Some _ => exec k_work_submit ;; ret 0
     end) w = Done r w'
    ∧ later w w'.
Proof.
  unfold bind at 1, bt_drv_open.
  destruct (drv_open (ext w)) as [st t].
  set (wo := with_ext t (DrvOpen st) w).
  assert (Hwo : later w wo) by apply later_with_ext.
  destruct (negb (st =? 0)); [by eauto|].
  destruct cb as [c|].
  - destruct (k_work_submit_later wo) as (w5 & Hsub & Hw5 & _).
    unfold bind. rewrite Hsub. eauto using later_trans.
  - destruct (bt_init_later wo) as (r5 & w5 & Hinit & Hw5 & _).
    rewrite Hinit. eauto using later_trans.
Qed.

(** The first call: up to the driver. *)
Lemma bt_enable_first (cb : option nat) (w : world T) :
  btdev (g_btdev w) = true →
  has_flag BT_DEV_ENABLE w = false →
  ∃ r0 wn,
    bt_set_name CONFIG_BT_DEVICE_NAME (set_flag BT_DEV_ENABLE w) = Done r0 wn
    ∧ later (set_flag BT_DEV_ENABLE w) wn
    ∧ bt_enable cb w
      = (err <- bt_drv_open ;;
         if negb (err =? 0) then ret err else
         match cb with
         | None => bt_init
         | Some _ => exec k_work_submit ;; ret 0
         end) (with_ready_cb cb wn).
Proof.
  intros Hdrv Hclear. unfold has_flag in Hclear.
  destruct (bt_set_name_later CONFIG_BT_DEVICE_NAME (set_flag BT_DEV_ENABLE w))
    as (r0 & wn & Hname & Hwn).
  exists r0, wn. split; [done|]. split; [done|].
  unfold bt_enable, bind at 1, get_dev at 1. rewrite Hdrv. msimpl.
  rewrite Hclear.
  change (with_dev _ w) with (set_flag BT_DEV_ENABLE w).
  unfold bind at 1. rewrite Hname. msimpl. done.
Qed.

(** C8: with a driver bound, the call that finds [ENABLE] clear sets it
    and goes through the initialisation, step by step: it stores the
    default name and the callback and opens the driver; a driver that does
    not open ends the call with its status.  Without a callback the call
    then initialises the HCI layer and, if that worked, the link layer, and
    sets [READY] when both worked; the result is the first negative status
    or else the status of the link layer.  With a callback it hands the
    initialisation to the work queue, unless the work is queued already,
    and returns 0.  However the call ends, [ENABLE] is set afterwards, so
    every call that finds [ENABLE] set, which is every later call, returns
    [-EALREADY] and leaves the world untouched. *)
Theorem bt_enable_once (cb : option nat) (w : world T) :
  btdev (g_btdev w) = true →
  (has_flag BT_DEV_ENABLE w = false →
   ∃ r0 wn,
     bt_set_name CONFIG_BT_DEVICE_NAME (set_flag BT_DEV_ENABLE w) = Done r0 wn
     ∧ (∃ before, trace wn = before ++ trace w)
     ∧ (∀ st t, drv_open (ext wn) = (st, t) →
          let wo := with_ext t (DrvOpen st) (with_ready_cb cb wn) in
          (st ≠ 0 → bt_enable cb w = Done st wo)
          ∧ (st = 0 → cb = None →
             ∀ s1 t1, hci_init t = (s1, t1) →
               let w1 := with_ext t1 (HciInitialize s1) wo in
               (s1 < 0 → bt_enable cb w = Done s1 w1)
               ∧ (0 ≤ s1 →
                  ∀ s2 t2, l2cap_init t1 = (s2, t2) →
                    let w2 := with_ext t2 (L2capInit s2) w1 in
                    (s2 < 0 → bt_enable cb w = Done s2 w2)
                    ∧ (0 ≤ s2 →
                       bt_enable cb w = Done s2 (set_flag BT_DEV_READY w2))))
          ∧ (st = 0 → is_Some cb →
             (g_hip_work wn = true → bt_enable cb w = Done 0 wo)
             ∧ (g_hip_work wn = false →
                ∀ q tq, hp_work_queue t = (q, tq) →
                  bt_enable cb w
                  = Done 0 (with_hip_work (negb (q <? 0))
                              (with_ext tq (WorkQueue q) wo)))))
     ∧ ∃ r w',
         bt_enable cb w = Done r w'
         ∧ has_flag BT_DEV_ENABLE w' = true
         ∧ ∀ cb', bt_enable cb' w' = Done (- EALREADY) w')
  ∧ (has_flag BT_DEV_ENABLE w = true →
     bt_enable cb w = Done (- EALREADY) w).
Proof.
  intros Hdrv. split; [|by apply bt_enable_again].
  intros Hclear.
  destruct (bt_enable_first cb w Hdrv Hclear) as (r0 & wn & Hname & Hwn & Hrun).
  exists r0, wn. split; [done|]. split; [|split].
  - destruct Hwn as (_ & _ & before & Ht). by exists before.
  - intros st t Hopen wo.
    assert (Hstep : bt_enable cb w
                    = (if negb (st =? 0) then ret st else
                       match cb with
                       | None => bt_init
                       | Some _ => exec k_work_submit ;; ret 0
                       end) wo).
    { rewrite Hrun. unfold bind at 1, bt_drv_open.
      cbn [ext with_ready_cb]. by rewrite Hopen. }
    split; [|split].
    + intros Hst. rewrite Hstep.
      by replace (negb (st =? 0)) with true by (symmetry; apply negb_true_iff; lia).
    + intros -> -> s1 t1 Hhci w1. cbn [negb Z.eqb] in Hstep.
      assert (Hstep1 : bt_enable None w
                       = (if s1 <? 0 then ret s1 else
                          r <- bt_conn_init ;;
                          if r <? 0 then ret r else
                          exec bt_finalize_init ;; ret r) w1).
      { rewrite Hstep. unfold bt_init, bind at 1, hci_initialize.
        cbn [ext with_ext wo]. by rewrite Hhci. }
      split.
      * intros Hs1. rewrite Hstep1.
        by replace (s1 <? 0) with true by lia.
      * intros Hs1 s2 t2 Hl2 w2.
        assert (Hstep2 : bt_enable None w
                         = (if s2 <? 0 then ret s2 else
                            exec bt_finalize_init ;; ret s2) w2).
        { rewrite Hstep1. replace (s1 <? 0) with false by lia.
          unfold bind at 1, bt_conn_init, bind at 1, bt_l2cap_init.
          cbn [ext with_ext w1]. rewrite Hl2. fold w2.
          destruct (s2 <? 0) eqn:Hlt; unfold ret at 1; cbn beta iota;
            by rewrite Hlt. }
        split; intros Hs2; rewrite Hstep2.
        -- by replace (s2 <? 0) with true by lia.
        -- by replace (s2 <? 0) with false by lia.
    + intros -> [c ->]. cbn [negb Z.eqb] in Hstep.
      split.
      * intros Hq. rewrite Hstep. unfold bind, k_work_submit.
        cbn [g_hip_work with_ext with_ready_cb wo]. by rewrite Hq.
      * intros Hq q tq Hwq. rewrite Hstep. unfold bind at 1, k_work_submit.
        cbn [g_hip_work with_ext with_ready_cb wo]. rewrite Hq.
        cbn [negb]. unfold bind at 1, work_queue.
        change (ext wo) with t. by rewrite Hwq.
  - destruct (bt_enable_open_later cb (with_ready_cb cb wn))
      as (r & w' & Hopen & Hw').
    assert (Hlater : later (set_flag BT_DEV_ENABLE w) w').
    { eapply later_trans; [apply Hwn|].
      eapply later_trans; [apply later_with_ready_cb|apply Hw']. }
    destruct Hlater as (He & Hb & _).
    assert (He' : has_flag BT_DEV_ENABLE w' = true).
    { apply He. rewrite has_flag_set_flag. by destruct (decide _). }
    exists r, w'. rewrite Hrun. split; [done|]. split; [done|].
    intros cb'. apply bt_enable_again; [|done]. by rewrite Hb.
Qed.

End EnableProofs.

(** C8, on a device with a driver and collaborators that succeed: the
    first call without callback opens the driver, initialises both layers
    and sets [READY]; whatever call comes next is refused. *)
Lemma bt_enable_once_witness :
  let w := world_init dev_with_driver ([] : list Z) in
  let wo := with_ext [] (DrvOpen 0)
              (with_ready_cb None
                 (with_dev (with_name (strncpy CONFIG_BT_DEVICE_NAME 8)
                              (g_btdev (set_flag BT_DEV_ENABLE w)))
                    (set_flag BT_DEV_ENABLE w))) in
  bt_enable None w
  = Done 0 (set_flag BT_DEV_READY
              (with_ext [] (L2capInit 0) (with_ext [] (HciInitialize 0) wo)))
  ∧ ∃ r w', bt_enable None w = Done r w'
            ∧ has_flag BT_DEV_ENABLE w' = true
            ∧ ∀ cb', bt_enable cb' w' = Done (- EALREADY) w'.
Proof.
  intros w wo.
  destruct (bt_enable_once None w eq_refl) as [Hfirst _].
  destruct (Hfirst eq_refl) as (r0 & wn & Hname & _ & Hpaths & Hafter).
  split; [|exact Hafter].
  vm_compute in Hname. injection Hname as <- <-.
  destruct (Hpaths 0 [] eq_refl) as (_ & Hsync & _).
  destruct (Hsync eq_refl eq_refl 0 [] eq_refl) as (_ & Hlink).
  destruct (Hlink (Z.le_refl 0) 0 [] eq_refl) as (_ & Hready).
  exact (Hready (Z.le_refl 0)).
Defined.

(** * Further properties *)

(** Turn boolean comparisons among the hypotheses into propositions. *)
Ltac bool_hyps :=
  repeat match goal with
  | H : _ && _ = true |- _ => apply andb_true_iff in H as [? ?]
  | H : (_ <=? _) = true |- _ => apply Z.leb_le in H
  | H : (_ <? _) = true |- _ => apply Z.ltb_lt in H
  end.

(** ** The encoder: what a filled payload looks like *)

Lemma padded_length (bytes : list Z) :
  (length bytes ≤ 31)%nat → length (padded bytes) = 31%nat.
Proof. intros H. unfold padded. rewrite length_app, length_replicate. lia. Qed.

(** The three writes succeed only inside the array and the source. *)
Lemma ad_write_checks (len type : Z) (src : list Z) (sd sd' : set_adv_data) :
  length (sd_data sd) = 31%nat → 0 ≤ sd_len sd →
  ad_write len type src sd = EncOk sd' →
  0 ≤ len ∧ sd_len sd + len + 2 ≤ 31 ∧ len ≤ Z.of_nat (length src).
Proof.
  intros Harr Hl. unfold ad_write, buf_store. rewrite Harr.
  destruct ((0 <=? sd_len sd) && _) eqn:E1; [|done].
  bool_hyps. rewrite length_insert, Harr.
  assert (Hu : u8 (sd_len sd + 1) = sd_len sd + 1)
    by (unfold u8; apply Z.mod_small; lia).
  rewrite !Hu.
  destruct ((0 <=? sd_len sd + 1) && _) eqn:E2; [|done].
  bool_hyps.
  assert (Hu2 : u8 (sd_len sd + 1 + 1) = sd_len sd + 1 + 1)
    by (unfold u8; apply Z.mod_small; lia).
  rewrite !Hu2.
  unfold buf_memcpy. rewrite !length_insert, Harr.
  destruct (_ && _) eqn:E3; [|done].
  bool_hyps. intros _. lia.
Qed.

Lemma ad_write_u8 (len type : Z) (src : list Z) (sd : set_adv_data) :
  ad_write len type src sd = ad_write len (u8 type) src sd.
Proof.
  unfold ad_write. destruct (buf_store _ _ _) as [b1|]; [|done].
  unfold buf_store.
  assert (u8 (u8 type) = u8 type) as -> by (unfold u8; apply Z.mod_mod; lia).
  done.
Qed.

Lemma ad_write_inv (len type : Z) (src pre : list Z) (sd' : set_adv_data) :
  (length pre ≤ 31)%nat →
  ad_write len type src
    {| sd_len := Z.of_nat (length pre); sd_data := padded pre |} = EncOk sd' →
  let pre' := pre ++ (len + 1) :: u8 type :: take (Z.to_nat len) src in
  sd' = {| sd_len := Z.of_nat (length pre'); sd_data := padded pre' |}
  ∧ (length pre' ≤ 31)%nat.
Proof.
  intros Hpre Hrun pre'.
  destruct (ad_write_checks len type src
              {| sd_len := Z.of_nat (length pre); sd_data := padded pre |} sd')
    as (Hlen & Hfit & Hsrc); [by apply padded_length|simpl; lia|done|].
  simpl in Hfit.
  assert (Hl' : Z.of_nat (length pre') = Z.of_nat (length pre) + len + 2).
  { unfold pre'. rewrite length_app. simpl. rewrite length_take. lia. }
  rewrite ad_write_u8, ad_write_padded in Hrun;
    [|lia|lia|unfold u8; apply Z.mod_pos_bound; lia|lia].
  injection Hrun as <-. split; [|lia]. by rewrite Hl'.
Qed.

Lemma ad_append_inv (d : bt_data) (pre : list Z) (sd' : set_adv_data) :
  (length pre ≤ 31)%nat →
  ad_append d {| sd_len := Z.of_nat (length pre); sd_data := padded pre |}
  = EncOk sd' →
  ∃ pre', sd' = {| sd_len := Z.of_nat (length pre'); sd_data := padded pre' |}
          ∧ (length pre' ≤ 31)%nat.
Proof.
  intros Hpre. unfold ad_append. simpl.
  destruct (_ >? 31); [destruct (_ || _); [done|]|];
    intros [-> ?]%ad_write_inv; by eauto.
Qed.

Lemma ad_fill_inv (ds : list bt_data) (pre : list Z) (sd' : set_adv_data) :
  (length pre ≤ 31)%nat →
  ad_fill ds {| sd_len := Z.of_nat (length pre); sd_data := padded pre |}
  = EncOk sd' →
  ∃ pre', sd' = {| sd_len := Z.of_nat (length pre'); sd_data := padded pre' |}
          ∧ (length pre' ≤ 31)%nat.
Proof.
  revert pre. induction ds as [|d ds IH]; intros pre Hpre Hrun; simpl in Hrun.
  - injection Hrun as <-. by eauto.
  - destruct (ad_append d _) as [sd1| |] eqn:Happ; [|done|done].
    apply ad_append_inv in Happ as (pre1 & -> & Hpre1); [|done].
    by apply (IH pre1).
Qed.

(** The record sets are filled as one sequence: where one array of
    records ends and the next begins makes no difference. *)
Lemma ad_fill_all_concat (ad : list bt_ad) (sd : set_adv_data) :
  ad_fill_all ad sd = ad_fill (concat ad) sd.
Proof.
  revert sd. induction ad as [|a ad IH]; intros sd; [done|].
  simpl. revert sd. induction a as [|d a IHa]; intros sd; simpl; [apply IH|].
  destruct (ad_append d sd); [apply IHa|done|done].
Qed.

(** X1: whatever the records, a payload the encoder hands over holds at
    most 31 bytes: its length field counts the bytes written, the data array
    still has 31 entries, and the entries after the written ones are the
    zeros of the initial [memset]. *)
Theorem ad_fill_all_payload (ad : list bt_ad) (sd : set_adv_data) :
  ad_fill_all ad set_data_zero = EncOk sd →
  ∃ bytes, sd_len sd = Z.of_nat (length bytes)
           ∧ sd_data sd = bytes ++ replicate (31 - length bytes) 0
           ∧ 0 ≤ sd_len sd ≤ 31
           ∧ length (sd_data sd) = 31%nat.
Proof.
  rewrite ad_fill_all_concat.
  change set_data_zero
    with {| sd_len := Z.of_nat (length (@nil Z)); sd_data := padded [] |}.
  intros (bytes & -> & Hlen)%ad_fill_inv; [|simpl; lia].
  exists bytes. simpl. split; [done|]. split; [done|].
  split; [lia|by apply padded_length].
Qed.

Lemma ad_fill_all_payload_witness :
  ∃ bytes,
    Z.of_nat 8 = Z.of_nat (length bytes)
    ∧ padded (ad_concat (concat ad_fits)) = bytes ++ replicate (31 - length bytes) 0
    ∧ 0 ≤ Z.of_nat 8 ≤ 31
    ∧ length (padded (ad_concat (concat ad_fits))) = 31%nat.
Proof.
  apply (ad_fill_all_payload ad_fits
           {| sd_len := 8; sd_data := padded (ad_concat (concat ad_fits)) |}).
  reflexivity.
Defined.

Lemma ad_fill_app (a b : list bt_data) (sd : set_adv_data) :
  ad_fill (a ++ b) sd
  = match ad_fill a sd with
    | EncOk sd' => ad_fill b sd'
    | r => r
    end.
Proof.
  revert sd. induction a as [|d a IH]; intros sd; simpl.
  - by destruct (ad_fill b sd).
  - destruct (ad_append d sd); [apply IH|done|done].
Qed.

Lemma ad_append_fits (d : bt_data) (pre : list Z) :
  bt_data_wf d →
  Z.of_nat (length pre) + data_len d + 2 ≤ 31 →
  ad_append d {| sd_len := Z.of_nat (length pre); sd_data := padded pre |}
  = EncOk {| sd_len := Z.of_nat (length (pre ++ ad_triple d));
             sd_data := padded (pre ++ ad_triple d) |}.
Proof.
  intros (Hty & Hlen & Hsrc) Hfit. unfold ad_append. simpl.
  replace (Z.of_nat (length pre) + data_len d + 2 >? 31) with false
    by (cmp_cases; done).
  rewrite ad_write_padded by lia. f_equal. f_equal.
  unfold ad_triple. rewrite length_app. simpl. rewrite length_take. lia.
Qed.

Lemma ad_fill_too_big (ds : list bt_data) (pre : list Z) :
  Forall bt_data_wf ds → no_complete_name ds →
  (length pre ≤ 31)%nat →
  Z.of_nat (length pre) + encoded_len ds > 31 →
  ad_fill ds {| sd_len := Z.of_nat (length pre); sd_data := padded pre |}
  = EncTooBig.
Proof.
  intros Hwf. revert pre.
  induction Hwf as [|d ds Hd Hds IH]; intros pre Hname Hpre Hbig.
  - simpl in Hbig. lia.
  - apply Forall_cons in Hname as [Hd_name Hname]. simpl in Hbig |- *.
    destruct (Z_le_gt_dec (Z.of_nat (length pre) + data_len d + 2) 31) as [Hfit|Hover].
    + rewrite ad_append_fits by done.
      assert (Z.of_nat (length (pre ++ ad_triple d))
              = Z.of_nat (length pre) + data_len d + 2) as Hl.
      { destruct Hd as (_ & ? & ?). unfold ad_triple.
        rewrite length_app. simpl. rewrite length_take. lia. }
      apply IH; [done|lia|lia].
    + by rewrite ad_append_too_big.
Qed.

Section EncoderMore.
Context {T : Type} `{!Collaborators T}.

(** X2: records that together need more than 31 bytes, none of them a
    complete local name, are refused: the encoder stops at the first record
    that does not fit, [set_ad] releases the command buffer, sends nothing
    and returns [-EINVAL]. *)
Theorem set_ad_rejects_oversize (hci_op : hci_opcode) (ad : list bt_ad)
    (w : world T) (t1 : T) :
  Forall bt_data_wf (concat ad) →
  no_complete_name (concat ad) →
  encoded_len (concat ad) > 31 →
  hci_cmd_create hci_op SET_DATA_SIZE (ext w) = (true, t1) →
  ad_fill_all ad set_data_zero = EncTooBig
  ∧ set_ad hci_op ad w
    = Done (- EINVAL)
        (with_ext (buf_release t1) BufRelease
           (with_ext t1 (CmdCreate hci_op SET_DATA_SIZE true) w)).
Proof.
  intros Hwf Hname Hbig Hbuf.
  assert (Hfill : ad_fill_all ad set_data_zero = EncTooBig).
  { rewrite ad_fill_all_concat.
    apply (ad_fill_too_big (concat ad) []); [done|done|simpl; lia|simpl; lia]. }
  split; [done|].
  unfold set_ad, bind, bt_hci_cmd_create. rewrite Hbuf. msimpl.
  by rewrite Hfill.
Qed.

(** X3: when the records before it leave at least one byte of room after
    a header, a complete local name that does not fit is sent shortened:
    the payload is full (31 bytes), the records before the name are
    unchanged, and the name record holds the first [room] bytes of the
    name under the shortened-name type, [room] being what is left after
    the two header bytes. *)
Theorem set_ad_shortens_name (hci_op : hci_opcode) (ad : list bt_ad)
    (before : list bt_data) (d : bt_data) (w : world T) (t1 : T) :
  concat ad = before ++ [d] →
  Forall bt_data_wf before → bt_data_wf d →
  data_type d = BT_DATA_NAME_COMPLETE →
  encoded_len before < 29 →
  encoded_len before + data_len d + 2 > 31 →
  hci_cmd_create hci_op SET_DATA_SIZE (ext w) = (true, t1) →
  let room := 31 - (encoded_len before + 2) in
  let set_data :=
    {| sd_len := 31;
       sd_data := ad_concat before
                  ++ (room + 1) :: BT_DATA_NAME_SHORTENED
                     :: take (Z.to_nat room) (data_bytes d) |} in
  ad_fill_all ad set_data_zero = EncOk set_data
  ∧ length (sd_data set_data) = 31%nat
  ∧ set_ad hci_op ad w
    = bt_hci_cmd_send_sync hci_op (CpAdvData set_data)
        (with_ext t1 (CmdCreate hci_op SET_DATA_SIZE true) w).
Proof.
  intros Hcat Hwf Hd Hname Hroom Hbig Hbuf room set_data.
  pose proof (encoded_len_nonneg _ Hwf) as Hnn.
  pose proof (ad_concat_length _ Hwf) as Hlen.
  assert (Hfill : ad_fill_all ad set_data_zero = EncOk set_data).
  { rewrite ad_fill_all_concat, Hcat, ad_fill_app.
    change set_data_zero
      with {| sd_len := Z.of_nat (length (@nil Z)); sd_data := padded [] |}.
    rewrite (ad_fill_padded before [] Hwf) by (simpl; lia).
    rewrite app_nil_l. simpl length. rewrite Z.add_0_l, <- Hlen.
    unfold ad_fill. rewrite ad_append_shortened by (done || lia).
    unfold set_data, room. by rewrite Hlen. }
  split; [done|]. split.
  - unfold set_data. cbn [sd_data]. rewrite length_app. simpl.
    rewrite length_take. destruct Hd as (_ & ? & ?). unfold room. lia.
  - unfold set_ad, bind, bt_hci_cmd_create. rewrite Hbuf. msimpl.
    by rewrite Hfill.
Qed.

(** X4: [set_ad] leaves the device state and the registered callbacks
    alone whatever it returns; without a command buffer it returns
    [-ENOBUFS] after that one attempt, and nothing is sent. *)
Theorem set_ad_frame (hci_op : hci_opcode) (ad : list bt_ad)
    (w w' : world T) (r : Z) :
  set_ad hci_op ad w = Done r w' →
  g_btdev w' = g_btdev w
  ∧ scan_dev_found_cb w' = scan_dev_found_cb w
  ∧ ready_cb w' = ready_cb w
  ∧ g_hip_work w' = g_hip_work w
  ∧ (∀ t1, hci_cmd_create hci_op SET_DATA_SIZE (ext w) = (false, t1) →
           r = - ENOBUFS
           ∧ trace w' = CmdCreate hci_op SET_DATA_SIZE false :: trace w).
Proof.
  unfold set_ad, bind, bt_hci_cmd_create.
  destruct (hci_cmd_create _ _ _) as [[|] t1] eqn:Hbuf; cbn -[ad_fill_all].
  - destruct (ad_fill_all ad set_data_zero) as [sd| |]; [| |done].
    + unfold bt_hci_cmd_send_sync. simpl.
      destruct (hci_cmd_send_sync _ _ _) as [st t2].
      intros [= <- <-]. by repeat split.
    + intros [= <- <-]. by repeat split.
  - intros [= <- <-]. repeat split; try done.
    all: by intros t [= <-].
Qed.

End EncoderMore.

Lemma set_ad_rejects_oversize_witness :
  let w := world_init (dev_init 8 2) ([] : list Z) in
  ad_fill_all ad_oversize set_data_zero = EncTooBig
  ∧ set_ad BT_HCI_OP_LE_SET_ADV_DATA ad_oversize w
    = Done (- EINVAL)
        (with_ext [] BufRelease
           (with_ext [] (CmdCreate BT_HCI_OP_LE_SET_ADV_DATA SET_DATA_SIZE true) w)).
Proof.
  refine (set_ad_rejects_oversize BT_HCI_OP_LE_SET_ADV_DATA ad_oversize
            (world_init (dev_init 8 2) ([] : list Z)) [] _ _ _ _).
  - simpl. forall_cases; unfold bt_data_wf; simpl; lia.
  - simpl. unfold no_complete_name. forall_cases; simpl; discriminate.
  - simpl. lia.
  - reflexivity.
Defined.

Lemma set_ad_shortens_name_witness :
  let w := world_init (dev_init 8 2) ([] : list Z) in
  let set_data :=
    {| sd_len := 31;
       sd_data := [2; 1; 6] ++ 27 :: BT_DATA_NAME_SHORTENED :: replicate 26 97 |} in
  ad_fill_all ad_flags_long_name set_data_zero = EncOk set_data
  ∧ length (sd_data set_data) = 31%nat
  ∧ set_ad BT_HCI_OP_LE_SET_SCAN_RSP_DATA ad_flags_long_name w
    = bt_hci_cmd_send_sync BT_HCI_OP_LE_SET_SCAN_RSP_DATA (CpAdvData set_data)
        (with_ext [] (CmdCreate BT_HCI_OP_LE_SET_SCAN_RSP_DATA SET_DATA_SIZE true) w).
Proof.
  refine (set_ad_shortens_name BT_HCI_OP_LE_SET_SCAN_RSP_DATA ad_flags_long_name
            [BT_DATA 1 1 [6]]
            (BT_DATA BT_DATA_NAME_COMPLETE 30 (replicate 30 97))
            (world_init (dev_init 8 2) ([] : list Z)) [] _ _ _ _ _ _ _).
  - reflexivity.
  - forall_cases. unfold bt_data_wf. simpl. lia.
  - unfold bt_data_wf, BT_DATA_NAME_COMPLETE. simpl. lia.
  - reflexivity.
  - simpl. lia.
  - simpl. lia.
  - reflexivity.
Defined.

Lemma set_ad_frame_witness :
  let w := world_init (dev_init 8 2) ([1] : list Z) in
  let w' := with_ext [] (CmdCreate BT_HCI_OP_LE_SET_ADV_DATA SET_DATA_SIZE false) w in
  g_btdev w' = g_btdev w
  ∧ scan_dev_found_cb w' = scan_dev_found_cb w
  ∧ ready_cb w' = ready_cb w
  ∧ g_hip_work w' = g_hip_work w
  ∧ (∀ t1, hci_cmd_create BT_HCI_OP_LE_SET_ADV_DATA SET_DATA_SIZE (ext w)
           = (false, t1) →
           - ENOBUFS = - ENOBUFS
           ∧ trace w' = CmdCreate BT_HCI_OP_LE_SET_ADV_DATA SET_DATA_SIZE false
                          :: trace w).
Proof.
  refine (set_ad_frame BT_HCI_OP_LE_SET_ADV_DATA ad_fits
            (world_init (dev_init 8 2) ([1] : list Z)) _ (- ENOBUFS) _).
  reflexivity.
Defined.

(** ** Advertising and the device name *)

Lemma c_str_take (s : list Z) : take (length (c_str s)) s = c_str s.
Proof.
  induction s as [|c s IH]; simpl; [done|].
  destruct (c =? 0); simpl; [done|]. by rewrite IH.
Qed.

Section AdvertisingMore.
Context {T : Type} `{!Collaborators T}.

(** X5: what [set_advertise_enable] leaves behind.  With result 0 the
    [ADVERTISING] flag and [adv_enable] hold the request and nothing else
    of the device state changes; with any other result the device state is
    as before.  The command it sends carries the value [adv_enable] had
    before the call, whatever the request is, and its status is the
    result. *)
Theorem set_advertise_enable_outcome (enable : bool) (w w' : world T) (r : Z) :
  set_advertise_enable enable w = Done r w' →
  (r = 0 →
   g_btdev w'
   = with_flags ((if enable then Z.setbit else Z.clearbit)
                   (flags (g_btdev w)) (flag_bit BT_DEV_ADVERTISING))
       (with_adv_enable (b2z enable) (g_btdev w)))
  ∧ (r ≠ 0 → g_btdev w' = g_btdev w)
  ∧ ∃ calls,
      trace w' = calls ++ trace w
      ∧ ∀ op cp st, CmdSendSync op cp st ∈ calls →
          op = BT_HCI_OP_LE_SET_ADV_ENABLE
          ∧ cp = CpAdvEnable (adv_enable (g_btdev w)) ∧ st = r.
Proof.
  unfold set_advertise_enable, bind, bt_hci_cmd_create.
  destruct (hci_cmd_create _ _ _) as [[|] t1]; simpl.
  - unfold bt_hci_cmd_send_sync. simpl.
    destruct (hci_cmd_send_sync _ _ _) as [st t2].
    destruct (Z.eqb_spec st 0) as [->|Hst]; simpl.
    + destruct enable; simpl; intros [= <- <-]; simpl.
      all: split; [done|]; split; [done|].
      all: eexists [_; _]; split; [done|].
      all: intros op cp st [[= -> -> ->]|[?|[]%elem_of_nil]%elem_of_cons]%elem_of_cons;
        done.
    + intros [= <- <-]. simpl. split; [done|]. split; [done|].
      eexists [_; _]; split; [done|].
      intros op cp st' [[= -> -> ->]|[?|[]%elem_of_nil]%elem_of_cons]%elem_of_cons;
        done.
  - intros [= <- <-]. simpl. unfold ENOBUFS. split; [done|]. split; [done|].
    eexists [_]; split; [done|].
    by intros op cp st [?|[]%elem_of_nil]%elem_of_cons.
Qed.

(** X6: [bt_set_name] always returns, with 0 or [-ENOMEM], and [-ENOMEM]
    exactly for a name that leaves no room for the terminator; in that case
    nothing at all has changed.  The name buffer keeps its size. *)
Theorem bt_set_name_outcome (new_name : list Z) (w : world T) :
  ∃ r w',
    bt_set_name new_name w = Done r w'
    ∧ (r = 0 ∨ r = - ENOMEM)
    ∧ (r = - ENOMEM ↔ Z.of_nat (length (name (g_btdev w))) ≤ strlen new_name)
    ∧ (r = - ENOMEM → w' = w)
    ∧ length (name (g_btdev w')) = length (name (g_btdev w)).
Proof.
  destruct (Z_lt_ge_dec (strlen new_name) (Z.of_nat (length (name (g_btdev w)))))
    as [Hfit|Hbig].
  - destruct (Z.eq_dec (strcmp (name (g_btdev w)) new_name) 0) as [Heq|Hne].
    + exists 0, w. unfold bt_set_name, bind, get_dev. rewrite Heq.
      cmp_cases. simpl. unfold ENOMEM. repeat split; (lia || eauto).
    + destruct (bt_set_name_changes new_name w Hfit Hne) as (w' & -> & Hname).
      exists 0, w'. unfold ENOMEM. rewrite Hname. unfold strncpy.
      rewrite length_resize.
      repeat split; (lia || eauto).
  - exists (- ENOMEM), w. unfold bt_set_name, bind, get_dev.
    cmp_cases. simpl. repeat split; (lia || eauto).
Qed.

(** X7: while the name is not being advertised ([ADVERTISING_NAME]
    clear), [bt_set_name] talks to nobody: at most the name buffer
    changes, and it then holds the new name padded with zeros. *)
Theorem bt_set_name_quiet (new_name : list Z) (w w' : world T) (r : Z) :
  has_flag BT_DEV_ADVERTISING_NAME w = false →
  bt_set_name new_name w = Done r w' →
  w' = w
  ∨ r = 0
    ∧ w' = with_dev (with_name (strncpy new_name (length (name (g_btdev w))))
                       (g_btdev w)) w.
Proof.
  unfold has_flag. intros Hflag.
  unfold bt_set_name, bind, get_dev, bt_atomic_testbit. msimpl.
  destruct (_ >=? _); [by intros [= _ <-]; left|].
  destruct (_ =? _); [by intros [= _ <-]; left|].
  msimpl. rewrite Hflag. intros [= <- <-]. by right.
Qed.

(** X8: while the name is advertised, a new name of at most 29
    characters goes out in the scan-response data as one complete-name
    record: length byte, type 9, the characters, zeros up to 31 bytes.
    This holds once the command buffer is there; the status of the command
    does not matter. *)
Theorem bt_set_name_advertises (new_name : list Z) (w : world T) (t1 : T) :
  has_flag BT_DEV_ADVERTISING_NAME w = true →
  strlen new_name < Z.of_nat (length (name (g_btdev w))) →
  strlen new_name ≤ 29 →
  c_str new_name ≠ c_str (bt_get_name w) →
  hci_cmd_create BT_HCI_OP_LE_SET_SCAN_RSP_DATA SET_DATA_SIZE (ext w) = (true, t1) →
  ∃ w' calls st,
    bt_set_name new_name w = Done 0 w'
    ∧ trace w'
      = calls
        ++ [CmdSendSync BT_HCI_OP_LE_SET_SCAN_RSP_DATA
              (CpAdvData
                 {| sd_len := strlen new_name + 2;
                    sd_data := padded ((strlen new_name + 1)
                                       :: BT_DATA_NAME_COMPLETE
                                       :: c_str new_name) |}) st;
            CmdCreate BT_HCI_OP_LE_SET_SCAN_RSP_DATA SET_DATA_SIZE true]
        ++ trace w.
Proof.
  unfold has_flag. intros Hflag Hfit Hshort Hdiff Hbuf.
  assert (Hne : strcmp (name (g_btdev w)) new_name ≠ 0).
  { intros Heq%strcmp_eq. by apply Hdiff. }
  set (d := BT_DATA BT_DATA_NAME_COMPLETE (u8 (strlen new_name)) new_name).
  assert (Hu : u8 (strlen new_name) = strlen new_name).
  { unfold u8, strlen in *. apply Z.mod_small. lia. }
  assert (Hwf : bt_data_wf d).
  { unfold bt_data_wf, d, BT_DATA_NAME_COMPLETE. simpl. rewrite Hu.
    pose proof (c_str_length_le new_name). unfold strlen in *. lia. }
  assert (Hfill : ad_fill_all [[d]] set_data_zero
                  = EncOk {| sd_len := strlen new_name + 2;
                             sd_data := padded ((strlen new_name + 1)
                                                :: BT_DATA_NAME_COMPLETE
                                                :: c_str new_name) |}).
  { change set_data_zero
      with {| sd_len := Z.of_nat (length (@nil Z)); sd_data := padded [] |}.
    rewrite (ad_fill_all_padded [[d]] []).
    - simpl. unfold ad_concat, ad_triple. simpl. rewrite Hu, app_nil_r.
      unfold strlen. rewrite Nat2Z.id, c_str_take. do 2 f_equal. lia.
    - by forall_cases.
    - simpl. lia. }
  unfold bt_set_name, bind at 1, get_dev.
  cmp_cases. unfold bind at 1. msimpl.
  unfold bind at 1, bt_atomic_testbit at 1. msimpl. rewrite Hflag.
  unfold bind at 1, set_ad at 1, bind at 1, bt_hci_cmd_create. msimpl.
  rewrite Hbuf. msimpl. fold d. rewrite Hfill.
  unfold bt_hci_cmd_send_sync. msimpl.
  destruct (hci_cmd_send_sync _ _ _) as [st t2]. msimpl.
  unfold bind at 1, bt_atomic_testbit. msimpl.
  set (w2 := with_ext t2 _ _).
  destruct (Z.testbit _ (flag_bit BT_DEV_ADVERTISING)).
  - destruct (set_advertise_enable_later false w2)
      as (r3 & w3 & H3 & _ & _ & c3 & E3).
    destruct (set_advertise_enable_later true w3)
      as (r4 & w4 & H4 & _ & _ & c4 & E4).
    unfold bind. rewrite H3, H4.
    exists w4, (c4 ++ c3), st. split; [done|].
    rewrite E4, E3. unfold w2. simpl. by rewrite <- app_assoc.
  - exists w2, [], st. split; [done|]. done.
Qed.

End AdvertisingMore.

(** X5, switching advertising off on the advertising device. *)
Lemma set_advertise_enable_outcome_witness :
  let w := world_init dev_advertising ([] : list Z) in
  (0 = 0 →
   g_btdev world_adv_off
   = with_flags (Z.clearbit (flags (g_btdev w)) (flag_bit BT_DEV_ADVERTISING))
       (with_adv_enable (b2z false) (g_btdev w)))
  ∧ (0 ≠ 0 → g_btdev world_adv_off = g_btdev w)
  ∧ ∃ calls,
      trace world_adv_off = calls ++ trace w
      ∧ ∀ op cp st, CmdSendSync op cp st ∈ calls →
          op = BT_HCI_OP_LE_SET_ADV_ENABLE
          ∧ cp = CpAdvEnable (adv_enable (g_btdev w)) ∧ st = 0.
Proof.
  refine (set_advertise_enable_outcome false
            (world_init dev_advertising ([] : list Z)) world_adv_off 0 _).
  vm_compute. reflexivity.
Defined.

(** X7, renaming the device "AB" to "CD" while the name is not advertised. *)
Lemma bt_set_name_quiet_witness :
  let w := world_init dev_named ([] : list Z) in
  let w' := with_dev (with_name (strncpy [67; 68; 0] 8) dev_named) w in
  w' = w
  ∨ 0 = 0
    ∧ w' = with_dev (with_name (strncpy [67; 68; 0] (length (name (g_btdev w))))
                       (g_btdev w)) w.
Proof.
  refine (bt_set_name_quiet [67; 68; 0] (world_init dev_named ([] : list Z))
            _ 0 _ _).
  - reflexivity.
  - vm_compute. reflexivity.
Defined.

(** X8, renaming the advertising device "AB" to "CD". *)
Lemma bt_set_name_advertises_witness :
  let w := world_init dev_advertising ([] : list Z) in
  ∃ w' calls st,
    bt_set_name [67; 68; 0] w = Done 0 w'
    ∧ trace w'
      = calls
        ++ [CmdSendSync BT_HCI_OP_LE_SET_SCAN_RSP_DATA
              (CpAdvData
                 {| sd_len := strlen [67; 68; 0] + 2;
                    sd_data := padded ((strlen [67; 68; 0] + 1)
                                       :: BT_DATA_NAME_COMPLETE
                                       :: c_str [67; 68; 0]) |}) st;
            CmdCreate BT_HCI_OP_LE_SET_SCAN_RSP_DATA SET_DATA_SIZE true]
        ++ trace w.
Proof.
  refine (bt_set_name_advertises [67; 68; 0]
            (world_init dev_advertising ([] : list Z)) [] _ _ _ _ _).
  - reflexivity.
  - vm_compute. reflexivity.
  - vm_compute. discriminate.
  - simpl. congruence.
  - reflexivity.
Defined.

(** ** Identity addresses: lookup, generation, reset *)

Lemma land_lor_192 (x : Z) : Z.land (Z.lor x 192) 192 = 192.
Proof.
  apply Z.bits_inj'. intros n Hn. rewrite Z.land_spec, Z.lor_spec.
  destruct (Z.testbit 192 n); [by rewrite orb_true_r|by rewrite andb_false_r].
Qed.

Lemma id_find_from_least (a : bt_addr_le_t) (l : list bt_addr_le_t) (i : Z) :
  id_find_from a l i = - ENOENT ∧ (a ∉ l)
  ∨ ∃ k : nat, id_find_from a l i = i + Z.of_nat k ∧ l !! k = Some a
               ∧ ∀ j, (j < k)%nat → l !! j ≠ Some a.
Proof.
  revert i. induction l as [|b l IH]; intros i; simpl.
  - left. split; [done|apply not_elem_of_nil].
  - destruct (Z.eqb_spec (bt_addr_le_cmp a b) 0) as [Heq|Hne].
    + apply bt_addr_le_cmp_eq in Heq as ->. right. exists 0%nat.
      split; [lia|]. split; [done|]. intros j Hj. lia.
    + destruct (IH (i + 1)) as [[Hr Hn]|(k & Hr & Hk & Hmin)].
      * left. split; [done|]. intros [->|?]%elem_of_cons; [|done].
        apply Hne. by apply bt_addr_le_cmp_eq.
      * right. exists (S k). split; [lia|]. split; [done|].
        intros [|j] Hj; simpl.
        -- intros [= ->]. by apply Hne, bt_addr_le_cmp_eq.
        -- apply Hmin. lia.
Qed.

Section IdentityMore.
Context {T : Type} `{!Collaborators T}.

(** X9: [id_find] changes nothing and returns the lowest index below
    [id_count] whose slot compares equal to the address, or [-ENOENT] when
    there is none. *)
Theorem id_find_least (addr : bt_addr_le_t) (w : world T) :
  ∃ r, id_find addr w = Done r w
       ∧ (r = - ENOENT ∧ (addr ∉ id_table (g_btdev w))
          ∨ ∃ k : nat, r = Z.of_nat k
                       ∧ id_table (g_btdev w) !! k = Some addr
                       ∧ ∀ j, (j < k)%nat → id_table (g_btdev w) !! j ≠ Some addr).
Proof.
  unfold id_find, bind, get_dev. msimpl. eexists. split; [done|].
  fold (id_table (g_btdev w)).
  destruct (id_find_from_least addr (id_table (g_btdev w)) 0)
    as [?|(k & Hr & ?)]; [by left|].
  right. exists k. by rewrite Hr.
Qed.

(** X10: [bt_addr_le_create_static] leaves the device state alone and
    always hands back six bytes typed as a random address, which is
    therefore never the wildcard; when the random source reports success
    the two top bits of the last byte are set, so the address is a static
    random one. *)
Theorem bt_addr_le_create_static_ok (w w' : world T) (st : Z) (a : bt_addr_le_t) :
  bt_addr_le_create_static w = Done (st, a) w' →
  g_btdev w' = g_btdev w
  ∧ addr_type a = BT_ADDR_LE_RANDOM
  ∧ length (addr_val a) = 6%nat
  ∧ a ≠ BT_ADDR_LE_ANY
  ∧ (st = 0 → static_random a).
Proof.
  unfold bt_addr_le_create_static, create_random_addr, bind, bt_rand.
  destruct (rand_bytes 6 (ext w)) as [[s bytes] t1]. msimpl.
  destruct (Z.eqb_spec s 0) as [->|Hs]; msimpl; intros [= <- <- <-].
  - split; [done|]. split; [done|].
    split; [by cbn [addr_val BT_ADDR_SET_STATIC];
              rewrite length_insert, length_resize|].
    split; [by intros [= ? _]|]. intros _. split; [done|].
    unfold BT_ADDR_IS_STATIC. cbn [addr_val BT_ADDR_SET_STATIC].
    rewrite list_lookup_total_insert_eq by (rewrite length_resize; lia).
    rewrite land_lor_192. done.
  - split; [done|]. split; [done|].
    split; [by cbn [addr_val]; rewrite length_resize|].
    split; [by intros [= ? _]|done].
Qed.

(** What a returning [bt_id_reset] has done: nothing, with a negative
    result; or it has overwritten the slot of an identity other than the
    default one. *)
Lemma bt_id_reset_done (fuel : nat) (id : Z) (addr : option bt_addr_le_t)
    (irk : option (list Z)) (w w' : world T) (r : Z)
    (out : option bt_addr_le_t) :
  0 ≤ id < 256 →
  bt_id_reset fuel id addr irk w = Done (r, out) w' →
  r < 0 ∧ w' = w ∧ out = addr
  ∨ r = id ∧ 0 < id < id_count (g_btdev w)
    ∧ ¬ (id = adv_id (g_btdev w) ∧ has_flag BT_DEV_ADVERTISING w = true)
    ∧ ∃ new,
        (new ∉ id_table (g_btdev w))
        ∧ (addr_given addr = true → addr = Some new)
        ∧ g_btdev w'
          = with_id_addr (<[Z.to_nat id := new]> (id_addr (g_btdev w))) (g_btdev w).
Proof.
  intros Hid Hrun. unfold bt_id_reset in Hrun.
  set (reset := (d <- get_dev ;; _) : M T _) in Hrun.
  assert (Hreset :
    (∀ a, addr_given addr = true → addr = Some a → a ∉ id_table (g_btdev w)) →
    reset w = Done (r, out) w' →
    r < 0 ∧ w' = w ∧ out = addr
    ∨ r = id ∧ 0 < id < id_count (g_btdev w)
      ∧ ¬ (id = adv_id (g_btdev w) ∧ has_flag BT_DEV_ADVERTISING w = true)
      ∧ ∃ new,
          (new ∉ id_table (g_btdev w))
          ∧ (addr_given addr = true → addr = Some new)
          ∧ g_btdev w'
            = with_id_addr (<[Z.to_nat id := new]> (id_addr (g_btdev w)))
                (g_btdev w)).
  { clear Hrun. intros Hgiven Hrun. unfold reset in Hrun.
    unfold bind at 1, get_dev at 1 in Hrun. unfold BT_ID_DEFAULT in Hrun.
    destruct ((id =? 0) || (id >=? id_count (g_btdev w))) eqn:Hguard.
    { injection Hrun as <- <- <-. left. by unfold EINVAL. }
    unfold bind at 1, bt_atomic_testbit at 1 in Hrun.
    destruct ((id =? adv_id (g_btdev w)) && _) eqn:Hbusy.
    { injection Hrun as <- <- <-. left. by unfold EBUSY. }
    unfold bind at 1 in Hrun.
    assert ((if negb (bt_addr_le_cmp (id_addr_at (g_btdev w) id) BT_ADDR_LE_ANY =? 0)
             then bt_unpair id None else ret 0) w = Done 0 w) as Hunpair.
    { by destruct (negb _). }
    rewrite Hunpair in Hrun. msimpl in Hrun. unfold bind at 1 in Hrun.
    destruct (id_create _ _ _ _ w) as [o w3| |] eqn:Hcr; [|done|done].
    injection Hrun as <- <- <-.
    apply id_create_done in Hcr as (new & Hd3 & Hcase).
    right. split; [done|]. split; [revert Hguard; cmp_cases; done|].
    split.
    { intros [Hadv Hflag]. unfold has_flag in Hflag.
      rewrite Hflag, andb_true_r in Hbusy. revert Hbusy. by cmp_cases. }
    exists new. split; [|split; [|done]].
    - destruct Hcase as [(Hg & -> & _)|[_ Hfresh]]; [by apply Hgiven|done].
    - intros Hg. destruct Hcase as [(_ & -> & _)|[Hg' _]]; [done|congruence]. }
  destruct addr as [a|]; [|by apply Hreset].
  destruct (negb (bt_addr_le_cmp a BT_ADDR_LE_ANY =? 0)) eqn:Hwild;
    [|apply Hreset; [|done]; simpl; intros; congruence].
  destruct (negb (addr_type a =? BT_ADDR_LE_RANDOM) || negb (BT_ADDR_IS_STATIC a)).
  { injection Hrun as <- <- <-. left. by unfold EINVAL. }
  unfold bind at 1, id_find at 1 in Hrun.
  unfold bind at 1, get_dev at 1 in Hrun. msimpl in Hrun.
  destruct (id_find_from _ _ _ >=? 0) eqn:Hfound.
  { injection Hrun as <- <- <-. left. by unfold EALREADY. }
  apply id_find_from_absent in Hfound; [|done].
  apply Hreset; [|done]. by intros ? _ [= <-].
Qed.

(** What a returning [bt_id_delete] has done: nothing, with a negative
    result; or it has cleared the slot of an identity other than the
    default one, and dropped it from the count when it was the last. *)
Lemma bt_id_delete_done (id : Z) (w w' : world T) (r : Z) :
  0 ≤ id < 256 →
  id_wf (g_btdev w) →
  bt_id_delete id w = Done r w' →
  r < 0 ∧ w' = w
  ∨ r = 0 ∧ 0 < id < id_count (g_btdev w)
    ∧ id_addr (g_btdev w')
      = <[Z.to_nat id := BT_ADDR_LE_ANY]> (id_addr (g_btdev w))
    ∧ id_count (g_btdev w')
      = (if decide (id = id_count (g_btdev w) - 1)
         then id_count (g_btdev w) - 1 else id_count (g_btdev w))
    ∧ flags (g_btdev w') = flags (g_btdev w)
    ∧ adv_id (g_btdev w') = adv_id (g_btdev w)
    ∧ ext w' = ext w ∧ trace w' = trace w.
Proof.
  intros Hid [Hc Hl] Hrun. unfold bt_id_delete in Hrun.
  unfold bind at 1, get_dev at 1 in Hrun. unfold BT_ID_DEFAULT in Hrun.
  destruct ((id =? 0) || (id >=? id_count (g_btdev w))) eqn:Hguard.
  { injection Hrun as <- <-. left. by unfold EINVAL. }
  destruct (bt_addr_le_cmp _ _ =? 0).
  { injection Hrun as <- <-. left. by unfold EALREADY. }
  unfold bind at 1, bt_atomic_testbit at 1 in Hrun.
  destruct (_ && _).
  { injection Hrun as <- <-. left. by unfold EBUSY. }
  assert (Hin : 0 < id < id_count (g_btdev w)).
  { revert Hguard. cmp_cases; done. }
  msimpl in Hrun. unfold u8 in Hrun. rewrite Z.mod_small in Hrun by lia.
  right.
  destruct (Z.eqb_spec id (id_count (g_btdev w) - 1));
    msimpl in Hrun; injection Hrun as <- <-; msimpl;
    destruct (decide _); done.
Qed.

End IdentityMore.

Section ResetProofs.
Context {T : Type} `{!Collaborators T}.

(** X11: [bt_id_reset] first checks a supplied concrete address like
    [bt_id_create] does (not static random: [-EINVAL]; already in the
    table, be it in the very slot that is being reset: [-EALREADY]), then
    the index (the default identity or an index at or above [id_count]:
    [-EINVAL]) and the advertising state (the advertising identity while
    advertising: [-EBUSY]); every refusal leaves the world as it was.
    Otherwise a supplied address replaces the slot in place: the result is
    the index, and neither the count nor any other slot changes. *)
Theorem bt_id_reset_spec (fuel : nat) (id : Z) (addr : option bt_addr_le_t)
    (irk : option (list Z)) (w : world T) :
  let d := g_btdev w in
  (∀ a, addr = Some a → a ≠ BT_ADDR_LE_ANY → ¬ static_random a →
        bt_id_reset fuel id addr irk w = Done (- EINVAL, addr) w)
  ∧ (∀ a, addr = Some a → a ≠ BT_ADDR_LE_ANY → static_random a →
          a ∈ id_table d →
          bt_id_reset fuel id addr irk w = Done (- EALREADY, addr) w)
  ∧ ((∀ a, addr = Some a → a ≠ BT_ADDR_LE_ANY →
           static_random a ∧ (a ∉ id_table d)) →
     (id = BT_ID_DEFAULT ∨ id_count d ≤ id →
      bt_id_reset fuel id addr irk w = Done (- EINVAL, addr) w)
     ∧ (0 < id < id_count d → id = adv_id d →
        has_flag BT_DEV_ADVERTISING w = true →
        bt_id_reset fuel id addr irk w = Done (- EBUSY, addr) w)
     ∧ (0 < id < id_count d →
        ¬ (id = adv_id d ∧ has_flag BT_DEV_ADVERTISING w = true) →
        ∀ a, addr = Some a → a ≠ BT_ADDR_LE_ANY →
        bt_id_reset fuel id addr irk w
        = Done (id, addr)
            (with_dev (with_id_addr (<[Z.to_nat id := a]> (id_addr d)) d) w))).
Proof.
  intros d. split; [|split].
  - intros a -> Hany%wildcard_check Hst. unfold bt_id_reset. rewrite Hany.
    destruct (_ || _) eqn:Hchk; [done|].
    by apply static_random_check in Hchk.
  - intros a -> Hany%wildcard_check Hst%static_random_check Hin.
    unfold bt_id_reset. rewrite Hany, Hst.
    unfold bind at 1, id_find at 1. unfold bind at 1, get_dev at 1. msimpl.
    apply (id_find_from_found a _ 0) in Hin; [|done].
    fold d. fold (id_table d). by rewrite Hin.
  - intros Hok.
    assert (Hpass : ∀ k : M T (Z * option bt_addr_le_t),
      match addr with
      | Some a =>
        if negb (bt_addr_le_cmp a BT_ADDR_LE_ANY =? 0) then
          if negb (addr_type a =? BT_ADDR_LE_RANDOM) || negb (BT_ADDR_IS_STATIC a)
          then ret (- EINVAL, addr)
          else found <- id_find a ;;
               if found >=? 0 then ret (- EALREADY, addr) else k
        else k
      | None => k
      end w = k w).
    { intros k. destruct addr as [a|]; [|done].
      destruct (negb (bt_addr_le_cmp a BT_ADDR_LE_ANY =? 0)) eqn:Hany; [|done].
      apply wildcard_check in Hany.
      destruct (Hok a eq_refl Hany) as [Hst%static_random_check Hnot].
      rewrite Hst.
      unfold bind at 1, id_find at 1. unfold bind at 1, get_dev at 1. msimpl.
      apply (id_find_from_absent a _ 0) in Hnot; [|done].
      fold d. fold (id_table d). by rewrite Hnot. }
    unfold bt_id_reset. cbv zeta. rewrite Hpass. clear Hpass Hok. subst d.
    unfold BT_ID_DEFAULT.
    split; [|split]; intros ?; unfold bind at 1, get_dev at 1; cbn beta iota.
    + rename H into Hbad.
      replace ((id =? 0) || (id >=? id_count (g_btdev w))) with true; [done|].
      symmetry. apply orb_true_iff. destruct Hbad; [left|right]; lia.
    + rename H into Hin. intros Hadv Hflag.
      replace ((id =? 0) || (id >=? id_count (g_btdev w))) with false
        by (symmetry; apply orb_false_iff; lia).
      unfold bind at 1, bt_atomic_testbit at 1. unfold has_flag in Hflag.
      rewrite Hflag, andb_true_r.
      by replace (id =? adv_id (g_btdev w)) with true by lia.
    + rename H into Hin. intros Hfree a -> Hany%wildcard_check.
      replace ((id =? 0) || (id >=? id_count (g_btdev w))) with false
        by (symmetry; apply orb_false_iff; lia).
      unfold bind at 1, bt_atomic_testbit at 1.
      replace ((id =? adv_id (g_btdev w)) && _) with false; cycle 1.
      { symmetry. apply andb_false_iff.
        destruct (Z.eqb_spec id (adv_id (g_btdev w))) as [Heq|]; [|by left].
        right. unfold has_flag in Hfree.
        destruct (Z.testbit _ _); [|done]. by destruct Hfree. }
      unfold bind at 1.
      replace ((if negb (bt_addr_le_cmp (id_addr_at (g_btdev w) id)
                           BT_ADDR_LE_ANY =? 0)
                then bt_unpair id None else ret 0) w) with (Done (T:=T) 0 w)
        by (by destruct (negb (bt_addr_le_cmp (id_addr_at _ _) _ =? 0))).
      msimpl. unfold id_create. rewrite Hany. by msimpl.
Qed.

End ResetProofs.

(** X10, on the first answer of the scripted random source. *)
Lemma bt_addr_le_create_static_ok_witness :
  let w := world_init (dev_init 8 2) ([] : list Z) in
  let a := {| addr_type := BT_ADDR_LE_RANDOM; addr_val := [0; 1; 2; 3; 4; 197] |} in
  g_btdev (with_ext [] (Rand 0 [0; 1; 2; 3; 4; 5]) w) = g_btdev w
  ∧ addr_type a = BT_ADDR_LE_RANDOM
  ∧ length (addr_val a) = 6%nat
  ∧ a ≠ BT_ADDR_LE_ANY
  ∧ (0 = 0 → static_random a).
Proof.
  refine (bt_addr_le_create_static_ok
            (world_init (dev_init 8 2) ([] : list Z)) _ 0 _ _).
  vm_compute. reflexivity.
Defined.

(** X11, on three identities: resetting identity 1 to a fresh static
    address replaces slot 1 and nothing else. *)
Lemma bt_id_reset_spec_witness :
  bt_id_reset 1 1 (Some (static_addr 9)) None world_three_ids
  = Done (1, Some (static_addr 9))
      (with_dev (with_id_addr (<[1%nat := static_addr 9]>
                                 (id_addr (g_btdev world_three_ids)))
                   (g_btdev world_three_ids)) world_three_ids).
Proof.
  refine (proj2 (proj2 (proj2 (proj2
            (bt_id_reset_spec 1 1 (Some (static_addr 9)) None world_three_ids))
            _)) _ _ (static_addr 9) eq_refl _).
  - intros a [= <-] _. split; [by split|]. vm_compute.
    intros H. repeat (apply elem_of_cons in H as [H|H]; [discriminate H|]).
    by apply elem_of_nil in H.
  - vm_compute. split; discriminate || reflexivity.
  - intros [_ H]. vm_compute in H. discriminate H.
  - discriminate.
Defined.

(** ** Identity addresses: holes, the default identity, the user's address *)

Section IdentityTable.
Context {T : Type} `{!Collaborators T}.

(** A static random address that is not in the table yet is stored at
    index [id_count], which is then counted; creating identity 0 before
    [READY] also sets [USER_ID_ADDR]. *)
Lemma bt_id_create_given (fuel : nat) (a : bt_addr_le_t)
    (irk : option (list Z)) (w : world T) :
  id_wf (g_btdev w) →
  a ≠ BT_ADDR_LE_ANY → static_random a → a ∉ id_table (g_btdev w) →
  id_count (g_btdev w) < Z.of_nat (length (id_addr (g_btdev w))) →
  ∃ w', bt_id_create fuel (Some a) irk w = Done (id_count (g_btdev w), Some a) w'
        ∧ id_addr (g_btdev w')
          = <[Z.to_nat (id_count (g_btdev w)) := a]> (id_addr (g_btdev w))
        ∧ id_count (g_btdev w') = id_count (g_btdev w) + 1
        ∧ flags (g_btdev w')
          = (if (id_count (g_btdev w) =? BT_ID_DEFAULT)
                && negb (Z.testbit (flags (g_btdev w)) (flag_bit BT_DEV_READY))
             then Z.setbit (flags (g_btdev w)) (flag_bit BT_DEV_USER_ID_ADDR)
             else flags (g_btdev w)).
Proof.
  intros [Hc Hl] Hany%wildcard_check Hst%static_random_check Hnot Hroom.
  unfold bt_id_create. rewrite Hany, Hst.
  unfold bind at 1, id_find at 1. unfold bind at 1, get_dev at 1. msimpl.
  apply (id_find_from_absent a _ 0) in Hnot; [|done].
  fold (id_table (g_btdev w)). rewrite Hnot.
  unfold bind at 1, get_dev at 1.
  destruct (Z.eqb_spec (id_count (g_btdev w))
              (Z.of_nat (length (id_addr (g_btdev w))))); [lia|].
  unfold id_create. rewrite Hany.
  unfold u8. rewrite Z.mod_small by lia.
  msimpl.
  destruct (_ && _); msimpl; eexists; (split; [reflexivity|done]).
Qed.

(** An identity that can be deleted is deleted: the slot is cleared, and
    the count drops exactly when it was the last slot counted. *)
Lemma bt_id_delete_runs (id : Z) (w : world T) :
  id_wf (g_btdev w) →
  0 < id < id_count (g_btdev w) →
  id_addr_at (g_btdev w) id ≠ BT_ADDR_LE_ANY →
  ¬ (id = adv_id (g_btdev w) ∧ has_flag BT_DEV_ADVERTISING w = true) →
  ∃ w', bt_id_delete id w = Done 0 w'
        ∧ id_addr (g_btdev w')
          = <[Z.to_nat id := BT_ADDR_LE_ANY]> (id_addr (g_btdev w))
        ∧ id_count (g_btdev w')
          = (if decide (id = id_count (g_btdev w) - 1)
             then id_count (g_btdev w) - 1 else id_count (g_btdev w))
        ∧ flags (g_btdev w') = flags (g_btdev w)
        ∧ adv_id (g_btdev w') = adv_id (g_btdev w).
Proof.
  intros [Hc Hl] Hin Hslot Hfree. unfold bt_id_delete.
  unfold bind at 1, get_dev at 1. cbn beta iota. unfold BT_ID_DEFAULT.
  replace ((id =? 0) || (id >=? id_count (g_btdev w))) with false
    by (symmetry; apply orb_false_iff; lia).
  destruct (Z.eqb_spec (bt_addr_le_cmp (id_addr_at (g_btdev w) id) BT_ADDR_LE_ANY) 0)
    as [Heq%bt_addr_le_cmp_eq|_]; [done|].
  unfold bind at 1, bt_atomic_testbit at 1.
  replace ((id =? adv_id (g_btdev w)) && _) with false; cycle 1.
  { symmetry. apply andb_false_iff.
    destruct (Z.eqb_spec id (adv_id (g_btdev w))) as [Heq|]; [|by left].
    right. unfold has_flag in Hfree.
    destruct (Z.testbit _ _); [|done]. by destruct Hfree. }
  msimpl. unfold u8. rewrite Z.mod_small by lia.
  destruct (Z.eqb_spec id (id_count (g_btdev w) - 1));
    msimpl; eexists; (split; [reflexivity|]); msimpl; destruct (decide _); done.
Qed.

(** X12: deleting an identity in the middle of a full table frees no
    room.  The deletion succeeds and clears the slot, but the count stays
    at the capacity, so every later [bt_id_create] is refused and changes
    nothing; without an address the refusal is [-ENOMEM]. *)
Theorem bt_id_delete_leaves_hole (id : Z) (w : world T) :
  id_wf (g_btdev w) →
  id_count (g_btdev w) = Z.of_nat (length (id_addr (g_btdev w))) →
  0 < id < id_count (g_btdev w) - 1 →
  id_addr_at (g_btdev w) id ≠ BT_ADDR_LE_ANY →
  ¬ (id = adv_id (g_btdev w) ∧ has_flag BT_DEV_ADVERTISING w = true) →
  ∃ w1,
    bt_id_delete id w = Done 0 w1
    ∧ id_addr_at (g_btdev w1) id = BT_ADDR_LE_ANY
    ∧ id_count (g_btdev w1) = id_count (g_btdev w)
    ∧ (∀ fuel irk, bt_id_create fuel None irk w1 = Done (- ENOMEM, None) w1)
    ∧ (∀ fuel addr irk r out w2,
         bt_id_create fuel addr irk w1 = Done (r, out) w2 → r < 0 ∧ w2 = w1).
Proof.
  intros Hwf Hfull Hin Hslot Hfree.
  destruct (bt_id_delete_runs id w Hwf ltac:(lia) Hslot Hfree)
    as (w1 & Hrun & Ha & Hn & _).
  destruct (decide (id = _)) as [|_] in Hn; [lia|].
  destruct Hwf as [Hc Hl].
  assert (Hwf1 : id_wf (g_btdev w1)).
  { unfold id_wf. rewrite Ha, Hn, length_insert. done. }
  exists w1. split; [done|]. split; [|split; [done|split]].
  - unfold id_addr_at. rewrite Ha, list_lookup_insert_eq by lia. done.
  - intros fuel irk. unfold bt_id_create, bind, get_dev.
    rewrite Ha, Hn, length_insert, Hfull. by rewrite Z.eqb_refl.
  - intros fuel addr irk r out w2 Hcr.
    apply bt_id_create_done in Hcr; [|done].
    destruct Hcr as [(? & ? & _)|(_ & Hroom & _)]; [done|].
    rewrite Ha, Hn, length_insert in Hroom. lia.
Qed.

(** X13: deleting the last identity gives its index back.  The count
    drops by one, and a [bt_id_create] with a fresh static random address
    right after returns the index that was deleted and stores the address
    in that slot. *)
Theorem bt_id_delete_last_then_create (fuel : nat) (a : bt_addr_le_t)
    (irk : option (list Z)) (w : world T) :
  let d := g_btdev w in
  let last := id_count d - 1 in
  id_wf d → 0 < last →
  id_addr_at d last ≠ BT_ADDR_LE_ANY →
  ¬ (last = adv_id d ∧ has_flag BT_DEV_ADVERTISING w = true) →
  a ≠ BT_ADDR_LE_ANY → static_random a → a ∉ id_table d →
  ∃ w1 w2,
    bt_id_delete last w = Done 0 w1
    ∧ id_count (g_btdev w1) = last
    ∧ bt_id_create fuel (Some a) irk w1 = Done (last, Some a) w2
    ∧ id_count (g_btdev w2) = id_count d
    ∧ id_addr (g_btdev w2) = <[Z.to_nat last := a]> (id_addr d).
Proof.
  intros d last Hwf Hlast Hslot Hfree Hany Hst Hnot.
  destruct (bt_id_delete_runs last w Hwf ltac:(unfold last, d in *; lia) Hslot Hfree)
    as (w1 & Hrun & Ha & Hn & Hf & _).
  destruct (decide (last = _)) as [_|Hne] in Hn; [|by unfold last, d in Hne].
  fold d in Ha, Hn. fold last in Hn.
  destruct Hwf as [Hc Hl].
  assert (Hwf1 : id_wf (g_btdev w1)).
  { unfold id_wf. rewrite Ha, Hn, length_insert. unfold last. fold d in Hc, Hl.
    lia. }
  assert (Hnot1 : a ∉ id_table (g_btdev w1)).
  { unfold id_table. rewrite Ha, Hn.
    intros (i & Hi & Hlt)%elem_of_take. apply Hnot.
    apply elem_of_take. exists i.
    rewrite list_lookup_insert_ne in Hi by lia.
    split; [done|]. fold d. unfold last in Hlt. lia. }
  destruct (bt_id_create_given fuel a irk w1 Hwf1 Hany Hst Hnot1)
    as (w2 & Hcr & Ha2 & Hn2 & _).
  { rewrite Ha, Hn, length_insert. unfold last. fold d in Hc. lia. }
  exists w1, w2. rewrite Hn in Hcr, Ha2, Hn2.
  split; [done|]. split; [done|]. split; [done|].
  split; [unfold last in Hn2 |- *; lia|].
  by rewrite Ha2, Ha, list_insert_insert_eq.
Qed.

(** One identity operation on a table that has its default identity
    leaves that identity where it is. *)
Lemma run_id_op_default (fuel : nat) (op : id_op) (w w' : world T) (r : Z) :
  id_op_wf op → id_wf (g_btdev w) → 1 ≤ id_count (g_btdev w) →
  run_id_op fuel op w = Done r w' →
  1 ≤ id_count (g_btdev w')
  ∧ id_addr (g_btdev w') !! 0%nat = id_addr (g_btdev w) !! 0%nat.
Proof.
  intros Hop Hwf Hone Hrun.
  assert (Hcreate : ∀ addr q out v,
            bt_id_create fuel addr None w = Done (q, out) v →
            1 ≤ id_count (g_btdev v)
            ∧ id_addr (g_btdev v) !! 0%nat = id_addr (g_btdev w) !! 0%nat).
  { intros addr q out v Hcr. apply bt_id_create_done in Hcr; [|done].
    destruct Hcr as [(_ & -> & _)|(_ & _ & new & _ & _ & Ha & Hn)]; [done|].
    rewrite Ha, Hn. split; [lia|]. apply list_lookup_insert_ne. lia. }
  destruct op as [addr|id addr|id|addr]; simpl in Hrun, Hop.
  - unfold bind in Hrun.
    destruct (bt_id_create _ _ _ w) as [[q out] v| |] eqn:Hcr; [|done|done].
    injection Hrun as _ <-. by eapply Hcreate.
  - unfold bind in Hrun.
    destruct (bt_id_reset _ _ _ _ w) as [[q out] v| |] eqn:Hre; [|done|done].
    injection Hrun as _ <-. apply bt_id_reset_done in Hre; [|done].
    destruct Hre as [(_ & -> & _)|(_ & Hin & _ & new & _ & _ & ->)]; [done|].
    simpl. split; [done|]. apply list_lookup_insert_ne. lia.
  - apply bt_id_delete_done in Hrun; [|done|done].
    destruct Hrun as [(_ & ->)|(_ & Hin & Ha & Hn & _)]; [done|].
    rewrite Ha, Hn. split; [destruct (decide _); lia|].
    apply list_lookup_insert_ne. lia.
  - unfold bt_set_id_addr in Hrun.
    unfold bind at 1, bt_atomic_testbit at 1 in Hrun.
    destruct (Z.testbit _ _); [by injection Hrun as _ <-|].
    unfold bind at 1 in Hrun.
    destruct (bt_id_create _ _ _ w) as [[q out] v| |] eqn:Hcr; [|done|done].
    injection Hrun as _ <-. by eapply Hcreate.
Qed.

(** X14: once the default identity exists it stays.  No sequence of
    [bt_id_create], [bt_id_reset], [bt_id_delete] and [bt_set_id_addr]
    calls changes slot 0 of the table or brings the count below 1. *)
Theorem id_ops_keep_default (fuel : nat) (ops : list id_op) (w w' : world T) :
  Forall id_op_wf ops →
  id_wf (g_btdev w) → 1 ≤ id_count (g_btdev w) →
  run_id_ops fuel ops w = Done () w' →
  1 ≤ id_count (g_btdev w')
  ∧ id_addr (g_btdev w') !! 0%nat = id_addr (g_btdev w) !! 0%nat.
Proof.
  intros Hops. revert w.
  induction Hops as [|op ops Hop Hops IH]; intros w Hwf Hone Hrun.
  - by injection Hrun as <-.
  - simpl in Hrun. unfold bind at 1 in Hrun.
    destruct (run_id_op fuel op w) as [r w1| |] eqn:Hop1; [|done|done].
    destruct (run_id_op_default _ _ _ _ _ Hop Hwf Hone Hop1) as [Hone1 H0].
    assert (Hwf1 : id_wf (g_btdev w1)).
    { eapply id_step_wf; [done|]. by eapply run_id_op_step. }
    destruct (IH w1 Hwf1 Hone1 Hrun) as [? Heq]. by rewrite Heq.
Qed.

(** X15: [bt_set_id_addr] is refused with [-EBUSY], changing nothing,
    once [READY] is set.  Before that, on an empty table, a static random
    address becomes identity 0: the result is 0, slot 0 holds the address,
    the count is 1 and [USER_ID_ADDR] is set. *)
Theorem bt_set_id_addr_spec (fuel : nat) (addr : bt_addr_le_t) (w : world T) :
  (has_flag BT_DEV_READY w = true →
   bt_set_id_addr fuel addr w = Done (- EBUSY) w)
  ∧ (has_flag BT_DEV_READY w = false →
     id_wf (g_btdev w) → id_count (g_btdev w) = 0 →
     (0 < length (id_addr (g_btdev w)))%nat →
     addr ≠ BT_ADDR_LE_ANY → static_random addr →
     ∃ w', bt_set_id_addr fuel addr w = Done 0 w'
           ∧ id_addr (g_btdev w') !! 0%nat = Some addr
           ∧ id_count (g_btdev w') = 1
           ∧ has_flag BT_DEV_USER_ID_ADDR w' = true).
Proof.
  unfold has_flag. split.
  - intros Hready. unfold bt_set_id_addr, bind, bt_atomic_testbit.
    by rewrite Hready.
  - intros Hready Hwf Hzero Hcap Hany Hst.
    destruct (bt_id_create_given fuel addr None w Hwf Hany Hst)
      as (w' & Hcr & Ha & Hn & Hf).
    { unfold id_table. rewrite Hzero. apply not_elem_of_nil. }
    { rewrite Hzero. lia. }
    exists w'. unfold bt_set_id_addr, bind at 1, bt_atomic_testbit at 1.
    rewrite Hready. unfold bind. rewrite Hcr, Hzero. msimpl.
    split; [done|]. rewrite Ha, Hn, Hf, Hzero, Hready.
    split; [by apply list_lookup_insert_eq|]. split; [done|].
    change (0 =? BT_ID_DEFAULT) with true. cbn [andb negb].
    rewrite Z.setbit_eqb by apply flag_bit_nonneg.
    by rewrite Z.eqb_refl.
Qed.

End IdentityTable.

Lemma static_addr_fresh (n : Z) (l : list bt_addr_le_t) :
  Forall (λ b, bt_addr_le_cmp (static_addr n) b ≠ 0) l → static_addr n ∉ l.
Proof.
  intros Hall Hin. rewrite Forall_forall in Hall.
  apply (Hall _ Hin). by apply bt_addr_le_cmp_eq.
Qed.

(** X12, deleting identity 1 of four in a table of four slots. *)
Lemma bt_id_delete_leaves_hole_witness :
  ∃ w1,
    bt_id_delete 1 world_four_ids = Done 0 w1
    ∧ id_addr_at (g_btdev w1) 1 = BT_ADDR_LE_ANY
    ∧ id_count (g_btdev w1) = id_count (g_btdev world_four_ids)
    ∧ (∀ fuel irk, bt_id_create fuel None irk w1 = Done (- ENOMEM, None) w1)
    ∧ (∀ fuel addr irk r out w2,
         bt_id_create fuel addr irk w1 = Done (r, out) w2 → r < 0 ∧ w2 = w1).
Proof.
  refine (bt_id_delete_leaves_hole 1 world_four_ids _ _ _ _ _).
  - vm_compute. repeat split; discriminate.
  - reflexivity.
  - vm_compute. split; reflexivity.
  - discriminate.
  - intros [_ H]. discriminate H.
Defined.

(** X13, deleting identity 2 of three and creating a new identity. *)
Lemma bt_id_delete_last_then_create_witness :
  ∃ w1 w2,
    bt_id_delete 2 world_three_ids = Done 0 w1
    ∧ id_count (g_btdev w1) = 2
    ∧ bt_id_create 1 (Some (static_addr 9)) None w1
      = Done (2, Some (static_addr 9)) w2
    ∧ id_count (g_btdev w2) = id_count (g_btdev world_three_ids)
    ∧ id_addr (g_btdev w2)
      = <[2%nat := static_addr 9]> (id_addr (g_btdev world_three_ids)).
Proof.
  refine (bt_id_delete_last_then_create 1 (static_addr 9) None world_three_ids
            _ _ _ _ _ _ _).
  - vm_compute. repeat split; discriminate.
  - reflexivity.
  - discriminate.
  - intros [_ H]. discriminate H.
  - discriminate.
  - by split.
  - apply static_addr_fresh. vm_compute. forall_cases; discriminate.
Defined.

(** X14, on three identities: deleting or resetting identity 0 is refused
    and the other operations stay away from it. *)
Lemma id_ops_keep_default_witness :
  1 ≤ id_count (g_btdev world_after_ops)
  ∧ id_addr (g_btdev world_after_ops) !! 0%nat
    = id_addr (g_btdev world_three_ids) !! 0%nat.
Proof.
  refine (id_ops_keep_default 1 ops_on_three world_three_ids world_after_ops
            _ _ _ _).
  - unfold ops_on_three. forall_cases; simpl; (done || lia).
  - vm_compute. repeat split; discriminate.
  - vm_compute. discriminate.
  - vm_compute. reflexivity.
Defined.

(** X15, the user's address on a device that is not initialised yet. *)
Lemma bt_set_id_addr_spec_witness :
  ∃ w', bt_set_id_addr 1 (static_addr 1) (world_init (dev_init 8 2) ([] : list Z))
        = Done 0 w'
        ∧ id_addr (g_btdev w') !! 0%nat = Some (static_addr 1)
        ∧ id_count (g_btdev w') = 1
        ∧ has_flag BT_DEV_USER_ID_ADDR w' = true.
Proof.
  refine (proj2 (bt_set_id_addr_spec 1 (static_addr 1)
                   (world_init (dev_init 8 2) ([] : list Z))) _ _ _ _ _ _).
  - reflexivity.
  - vm_compute. repeat split; discriminate.
  - reflexivity.
  - simpl. lia.
  - discriminate.
  - by split.
Defined.

(** ** Footprints: what each entry point can touch *)

Lemma within_refl {T} (fp : footprint) (w : world T) : within fp w w.
Proof. constructor; try done. by exists []. Qed.

Lemma within_trans {T} (fp : footprint) (w1 w2 w3 : world T) :
  within fp w1 w2 → within fp w2 w3 → within fp w1 w3.
Proof.
  intros H1 H2. constructor.
  - intros f Hf. by rewrite (within_flags _ _ _ H2), (within_flags _ _ _ H1).
  - intros. by apply (within_ready _ _ _ H2), (within_ready _ _ _ H1).
  - intros. by apply (within_enabled _ _ _ H2), (within_enabled _ _ _ H1).
  - intros. by rewrite (within_name _ _ _ H2), (within_name _ _ _ H1).
  - by rewrite (within_name_size _ _ _ H2), (within_name_size _ _ _ H1).
  - intros Hf. destruct (within_ids _ _ _ H2 Hf) as [-> ->].
    by apply (within_ids _ _ _ H1).
  - by rewrite (within_capacity _ _ _ H2), (within_capacity _ _ _ H1).
  - intros. by rewrite (within_adv _ _ _ H2), (within_adv _ _ _ H1).
  - by rewrite (within_adv_id _ _ _ H2), (within_adv_id _ _ _ H1).
  - by rewrite (within_driver _ _ _ H2), (within_driver _ _ _ H1).
  - intros. by rewrite (within_scan_cb _ _ _ H2), (within_scan_cb _ _ _ H1).
  - intros Hf. destruct (within_enable _ _ _ H2 Hf) as [-> ->].
    by apply (within_enable _ _ _ H1).
  - destruct (within_calls _ _ _ H1) as (c1 & E1 & F1).
    destruct (within_calls _ _ _ H2) as (c2 & E2 & F2).
    exists (c2 ++ c1). split; [by rewrite E2, E1, app_assoc|].
    by apply Forall_app.
Qed.

(** A wider footprint allows what a narrower one does. *)
Lemma within_weaken {T} (fp fp' : footprint) (w w' : world T) :
  (∀ f, fp_flags fp f = true → fp_flags fp' f = true) →
  (fp_name fp = true → fp_name fp' = true) →
  (fp_ids fp = true → fp_ids fp' = true) →
  (fp_adv fp = true → fp_adv fp' = true) →
  (fp_scan_cb fp = true → fp_scan_cb fp' = true) →
  (fp_enable fp = true → fp_enable fp' = true) →
  (∀ c, fp_calls fp c = true → fp_calls fp' c = true) →
  within fp w w' → within fp' w w'.
Proof.
  intros Hfl Hn Hi Ha Hs He Hc H.
  assert (Hb : ∀ a b : bool, (a = true → b = true) → b = false → a = false).
  { intros [] []; naive_solver. }
  constructor.
  - intros f Hf. apply (within_flags _ _ _ H). by eapply Hb; [apply Hfl|].
  - apply (within_ready _ _ _ H).
  - apply (within_enabled _ _ _ H).
  - intros Hf. apply (within_name _ _ _ H). by eapply Hb.
  - apply (within_name_size _ _ _ H).
  - intros Hf. apply (within_ids _ _ _ H). by eapply Hb.
  - apply (within_capacity _ _ _ H).
  - intros Hf. apply (within_adv _ _ _ H). by eapply Hb.
  - apply (within_adv_id _ _ _ H).
  - apply (within_driver _ _ _ H).
  - intros Hf. apply (within_scan_cb _ _ _ H). by eapply Hb.
  - intros Hf. apply (within_enable _ _ _ H). by eapply Hb.
  - destruct (within_calls _ _ _ H) as (cs & E & F). exists cs.
    split; [done|]. eapply Forall_impl; [done|]. intros c. apply Hc.
Qed.

(** The elementary updates. *)
Lemma within_with_ext {T} (fp : footprint) (w : world T) (t : T) (c : call) :
  fp_calls fp c = true → within fp w (with_ext t c w).
Proof.
  intros Hc. constructor; try done.
  exists [c]. split; [done|]. by constructor.
Qed.

Lemma within_set_flag {T} (fp : footprint) (w : world T) (g : bt_dev_flag) :
  fp_flags fp g = true → within fp w (set_flag g w).
Proof.
  intros Hg. constructor; try done.
  - intros f Hf. rewrite has_flag_set_flag.
    destruct (decide (g = f)) as [->|]; [congruence|done].
  - intros Hr. rewrite has_flag_set_flag. by destruct (decide _).
  - intros Hr. rewrite has_flag_set_flag. by destruct (decide _).
  - by exists [].
Qed.

Lemma within_clr_flag {T} (fp : footprint) (w : world T) (g : bt_dev_flag) :
  fp_flags fp g = true → g ≠ BT_DEV_READY → g ≠ BT_DEV_ENABLE →
  within fp w (clr_flag g w).
Proof.
  intros Hg Hr He. constructor; try done.
  - intros f Hf. rewrite has_flag_clr_flag.
    destruct (decide (g = f)) as [->|]; [congruence|done].
  - intros H. rewrite has_flag_clr_flag. by destruct (decide _).
  - intros H. rewrite has_flag_clr_flag. by destruct (decide _).
  - by exists [].
Qed.

Lemma within_with_name {T} (fp : footprint) (w : world T) (n : list Z) :
  fp_name fp = true → length n = length (name (g_btdev w)) →
  within fp w (with_dev (with_name n (g_btdev w)) w).
Proof.
  intros Hn Hl. constructor; try done; [simpl; congruence|by exists []].
Qed.

Lemma within_with_adv_enable {T} (fp : footprint) (w : world T) (e : Z) :
  fp_adv fp = true →
  within fp w (with_dev (with_adv_enable e (g_btdev w)) w).
Proof.
  intros Ha. constructor; try done; [simpl; congruence|by exists []].
Qed.

Lemma within_with_id_count {T} (fp : footprint) (w : world T) (c : Z) :
  fp_ids fp = true →
  within fp w (with_dev (with_id_count c (g_btdev w)) w).
Proof.
  intros Hi. constructor; try done; [simpl; congruence|by exists []].
Qed.

Lemma within_with_id_addr {T} (fp : footprint) (w : world T) (i : nat)
    (a : bt_addr_le_t) :
  fp_ids fp = true →
  within fp w (with_dev (with_id_addr (<[i := a]> (id_addr (g_btdev w)))
                           (g_btdev w)) w).
Proof.
  intros Hi. constructor; try done;
    [simpl; congruence|simpl; apply length_insert|by exists []].
Qed.

Lemma within_with_scan_cb {T} (fp : footprint) (w : world T) (cb : option nat) :
  fp_scan_cb fp = true → within fp w (with_scan_cb cb w).
Proof.
  intros Hs. constructor; try done; [simpl; congruence|by exists []].
Qed.

Lemma within_with_ready_cb {T} (fp : footprint) (w : world T) (cb : option nat) :
  fp_enable fp = true → within fp w (with_ready_cb cb w).
Proof.
  intros Hs. constructor; try done; [simpl; congruence|by exists []].
Qed.

Lemma within_with_hip_work {T} (fp : footprint) (w : world T) (q : bool) :
  fp_enable fp = true → within fp w (with_hip_work q w).
Proof.
  intros Hs. constructor; try done; [simpl; congruence|by exists []].
Qed.

Section Keeps.
Context {T : Type} `{!Collaborators T}.
Variable fp : footprint.

Local Abbreviation ok := (keeps (within (T:=T) fp)).

Lemma keeps_ret {A} (a : A) : ok (ret a).
Proof. intros w r w' [= _ <-]. apply within_refl. Qed.

Lemma keeps_bind {A B} (m : M T A) (k : A → M T B) :
  ok m → (∀ a, ok (k a)) → ok (bind m k).
Proof.
  intros Hm Hk w r w' Hrun. unfold bind in Hrun.
  destruct (m w) as [a w1| |] eqn:Hw1; [|done|done].
  eapply within_trans; [by eapply Hm|by eapply Hk].
Qed.

Lemma keeps_fault {A} : ok (fault (A:=A)).
Proof. by intros w r w'. Qed.

Lemma keeps_out_of_fuel {A} : ok (out_of_fuel (A:=A)).
Proof. by intros w r w'. Qed.

Lemma keeps_get_dev : ok get_dev.
Proof. intros w r w' [= _ <-]. apply within_refl. Qed.

Lemma keeps_testbit (f : bt_dev_flag) : ok (bt_atomic_testbit f).
Proof. intros w r w' [= _ <-]. apply within_refl. Qed.

Lemma keeps_setbit (f : bt_dev_flag) :
  fp_flags fp f = true → ok (bt_atomic_setbit f).
Proof. intros Hf w r w' [= _ <-]. by apply (within_set_flag fp w f). Qed.

Lemma keeps_clrbit (f : bt_dev_flag) :
  fp_flags fp f = true → f ≠ BT_DEV_READY → f ≠ BT_DEV_ENABLE →
  ok (bt_atomic_clrbit f).
Proof. intros Hf ? ? w r w' [= _ <-]. by apply (within_clr_flag fp w f). Qed.

Lemma keeps_testsetbit (f : bt_dev_flag) :
  fp_flags fp f = true → ok (bt_atomic_testsetbit f).
Proof.
  intros Hf. unfold bt_atomic_testsetbit.
  apply keeps_bind; [apply keeps_testbit|intros old].
  apply keeps_bind; [by apply keeps_setbit|intros _]. apply keeps_ret.
Qed.

Lemma keeps_set_name (n : list Z) :
  fp_name fp = true →
  ok (λ w, modify_dev (with_name (strncpy n (length (name (g_btdev w))))) w).
Proof.
  intros Hn w r w' [= _ <-]. apply within_with_name; [done|].
  unfold strncpy. apply length_resize.
Qed.

Lemma keeps_set_adv_enable (e : Z) :
  fp_adv fp = true → ok (modify_dev (with_adv_enable e)).
Proof. intros Ha w r w' [= _ <-]. by apply within_with_adv_enable. Qed.

Lemma keeps_set_id_count (c : Z) :
  fp_ids fp = true → ok (modify_dev (with_id_count c)).
Proof. intros Hi w r w' [= _ <-]. by apply within_with_id_count. Qed.

Lemma keeps_set_id_addr (id : Z) (a : bt_addr_le_t) :
  fp_ids fp = true → ok (set_id_addr id a).
Proof. intros Hi w r w' [= _ <-]. by apply within_with_id_addr. Qed.

Lemma keeps_cmd_create (op : hci_opcode) (len : Z) :
  (∀ b, fp_calls fp (CmdCreate op len b) = true) →
  ok (bt_hci_cmd_create op len).
Proof.
  intros Hc w r w'. unfold bt_hci_cmd_create.
  destruct (hci_cmd_create _ _ _) as [b t]. intros [= _ <-].
  by apply within_with_ext.
Qed.

Lemma keeps_cmd_send_sync (op : hci_opcode) (cp : hci_payload) :
  (∀ st, fp_calls fp (CmdSendSync op cp st) = true) →
  ok (bt_hci_cmd_send_sync op cp).
Proof.
  intros Hc w r w'. unfold bt_hci_cmd_send_sync.
  destruct (hci_cmd_send_sync _ _ _) as [b t]. intros [= _ <-].
  by apply within_with_ext.
Qed.

Lemma keeps_cmd_send (op : hci_opcode) (cp : hci_payload) :
  fp_calls fp (CmdSend op cp) = true → ok (bt_hci_cmd_send op cp).
Proof. intros Hc w r w' [= _ <-]. by apply within_with_ext. Qed.

Lemma keeps_buf_release :
  fp_calls fp BufRelease = true → ok bt_buf_release.
Proof. intros Hc w r w' [= _ <-]. by apply within_with_ext. Qed.

Lemma keeps_rand (len : Z) :
  (∀ st bytes, fp_calls fp (Rand st bytes) = true) → ok (bt_rand len).
Proof.
  intros Hc w r w'. unfold bt_rand.
  destruct (rand_bytes _ _) as [b t]. intros [= _ <-].
  by apply within_with_ext.
Qed.

Lemma keeps_drv_open :
  (∀ st, fp_calls fp (DrvOpen st) = true) → ok bt_drv_open.
Proof.
  intros Hc w r w'. unfold bt_drv_open.
  destruct (drv_open _) as [b t]. intros [= _ <-]. by apply within_with_ext.
Qed.

Lemma keeps_hci_initialize :
  (∀ st, fp_calls fp (HciInitialize st) = true) → ok hci_initialize.
Proof.
  intros Hc w r w'. unfold hci_initialize.
  destruct (hci_init _) as [b t]. intros [= _ <-]. by apply within_with_ext.
Qed.

Lemma keeps_l2cap_init :
  (∀ st, fp_calls fp (L2capInit st) = true) → ok bt_l2cap_init.
Proof.
  intros Hc w r w'. unfold bt_l2cap_init.
  destruct (l2cap_init _) as [b t]. intros [= _ <-]. by apply within_with_ext.
Qed.

Lemma keeps_work_queue :
  (∀ st, fp_calls fp (WorkQueue st) = true) → ok work_queue.
Proof.
  intros Hc w r w'. unfold work_queue.
  destruct (hp_work_queue _) as [b t]. intros [= _ <-]. by apply within_with_ext.
Qed.

Lemma keeps_ready_cb (cb : nat) (err : Z) :
  fp_calls fp (ReadyCb cb err) = true → ok (invoke_ready_cb cb err).
Proof. intros Hc w r w' [= _ <-]. by apply within_with_ext. Qed.

End Keeps.

(** Take a computation apart down to the elementary steps above. *)
Ltac keeps_steps :=
  repeat first
    [ apply keeps_ret
    | apply keeps_get_dev
    | apply keeps_testbit
    | apply keeps_fault
    | apply keeps_out_of_fuel
    | apply keeps_bind; [|intros ?]
    | apply keeps_setbit; reflexivity
    | apply keeps_clrbit; [reflexivity|discriminate|discriminate]
    | apply keeps_testsetbit; reflexivity
    | apply keeps_set_adv_enable; reflexivity
    | apply keeps_set_id_count; reflexivity
    | apply keeps_set_id_addr; reflexivity
    | apply keeps_cmd_create; reflexivity
    | apply keeps_cmd_send_sync; reflexivity
    | apply keeps_cmd_send; reflexivity
    | apply keeps_buf_release; reflexivity
    | apply keeps_rand; reflexivity
    | apply keeps_drv_open; reflexivity
    | apply keeps_hci_initialize; reflexivity
    | apply keeps_l2cap_init; reflexivity
    | apply keeps_work_queue; reflexivity
    | apply keeps_ready_cb; reflexivity
    | match goal with
      | |- keeps _ (if ?b then _ else _) => destruct b
      | |- keeps _ (match ?x with Some _ => _ | None => _ end) => destruct x
      | |- keeps _ (match ?x with EncOk _ => _ | EncTooBig => _ | EncFault => _ end) =>
        destruct x
      end ].

Section Footprints.
Context {T : Type} `{!Collaborators T}.

Lemma keeps_weaken {A} (fp fp' : footprint) (m : M T A) :
  (∀ f, fp_flags fp f = true → fp_flags fp' f = true) →
  (fp_name fp = true → fp_name fp' = true) →
  (fp_ids fp = true → fp_ids fp' = true) →
  (fp_adv fp = true → fp_adv fp' = true) →
  (fp_scan_cb fp = true → fp_scan_cb fp' = true) →
  (fp_enable fp = true → fp_enable fp' = true) →
  (∀ c, fp_calls fp c = true → fp_calls fp' c = true) →
  keeps (within fp) m → keeps (within fp') m.
Proof.
  intros ? ? ? ? ? ? ? Hm w r w' Hrun.
  apply (within_weaken fp fp'); try done. by eapply Hm.
Qed.

Lemma keeps_set_scan_cb (fp : footprint) (cb : option nat) :
  fp_scan_cb fp = true →
  keeps (within fp) (λ w : world T, Done () (with_scan_cb cb w)).
Proof. intros Hs w r w' [= _ <-]. by apply within_with_scan_cb. Qed.

Lemma keeps_set_ready_cb (fp : footprint) (cb : option nat) :
  fp_enable fp = true →
  keeps (within fp) (λ w : world T, Done () (with_ready_cb cb w)).
Proof. intros Hs w r w' [= _ <-]. by apply within_with_ready_cb. Qed.

Lemma keeps_set_hip_work (fp : footprint) (q : bool) :
  fp_enable fp = true →
  keeps (within fp) (λ w : world T, Done () (with_hip_work q w)).
Proof. intros Hs w r w' [= _ <-]. by apply within_with_hip_work. Qed.

(** *** The name and advertising *)

Lemma set_advertise_enable_keeps (enable : bool) :
  keeps (within (T:=T) fp_set_name) (set_advertise_enable enable).
Proof. unfold set_advertise_enable. keeps_steps. Qed.

Lemma set_ad_keeps (hci_op : hci_opcode) (ad : list bt_ad) :
  keeps (within (T:=T) fp_set_name) (set_ad hci_op ad).
Proof. unfold set_ad. keeps_steps. Qed.

Lemma bt_set_name_keeps (new_name : list Z) :
  keeps (within (T:=T) fp_set_name) (bt_set_name new_name).
Proof.
  intros w r w' Hrun. unfold bt_set_name in Hrun.
  unfold bind at 1, get_dev at 1 in Hrun. cbn beta iota in Hrun.
  destruct (_ >=? _); [injection Hrun as _ <-; apply within_refl|].
  destruct (_ =? _); [injection Hrun as _ <-; apply within_refl|].
  unfold bind at 1, modify_dev at 1 in Hrun.
  eapply within_trans.
  { apply (within_with_name fp_set_name w
             (strncpy new_name (length (name (g_btdev w))))); [done|].
    unfold strncpy. apply length_resize. }
  revert Hrun. generalize (with_dev
    (with_name (strncpy new_name (length (name (g_btdev w)))) (g_btdev w)) w).
  intros w1 Hrun.
  eapply (keeps_bind fp_set_name (bt_atomic_testbit BT_DEV_ADVERTISING_NAME));
    [apply keeps_testbit| |exact Hrun].
  intros adv_name. destruct adv_name; [|apply keeps_ret].
  apply keeps_bind; [apply set_ad_keeps|intros _].
  apply keeps_bind; [apply keeps_testbit|intros adv].
  destruct adv; [|apply keeps_ret].
  apply keeps_bind; [apply set_advertise_enable_keeps|intros _].
  apply keeps_bind; [apply set_advertise_enable_keeps|intros _].
  apply keeps_ret.
Qed.

(** *** Identities *)

Lemma bt_addr_le_create_static_keeps :
  keeps (within (T:=T) fp_identity) bt_addr_le_create_static.
Proof. unfold bt_addr_le_create_static, create_random_addr. keeps_steps. Qed.

Lemma id_find_keeps (fp : footprint) (a : bt_addr_le_t) :
  keeps (within (T:=T) fp) (id_find a).
Proof. unfold id_find. keeps_steps. Qed.

Lemma id_new_addr_keeps (fuel : nat) :
  keeps (within (T:=T) fp_identity) (id_new_addr fuel).
Proof.
  induction fuel as [|fuel IH]; simpl; [apply keeps_out_of_fuel|].
  apply keeps_bind; [apply bt_addr_le_create_static_keeps|intros r].
  apply keeps_bind; [apply id_find_keeps|intros found].
  destruct (_ >=? _); [done|apply keeps_ret].
Qed.

Lemma id_create_keeps (fuel : nat) (id : Z) (addr : option bt_addr_le_t)
    (irk : option (list Z)) :
  keeps (within (T:=T) fp_identity) (id_create fuel id addr irk).
Proof.
  unfold id_create.
  destruct addr as [a|]; [destruct (negb _)|].
  - keeps_steps.
  - apply keeps_bind; [apply id_new_addr_keeps|intros ?]. keeps_steps.
  - apply keeps_bind; [apply id_new_addr_keeps|intros ?]. keeps_steps.
Qed.

Lemma bt_id_create_keeps (fuel : nat) (addr : option bt_addr_le_t)
    (irk : option (list Z)) :
  keeps (within (T:=T) fp_identity) (bt_id_create fuel addr irk).
Proof.
  unfold bt_id_create. cbv zeta.
  assert (Halloc : keeps (within (T:=T) fp_identity)
    (d <- get_dev ;;
     if id_count d =? Z.of_nat (length (id_addr d)) then ret (- ENOMEM, addr) else
     exec modify_dev (with_id_count (u8 (id_count d + 1))) ;;
     ready <- bt_atomic_testbit BT_DEV_READY ;;
     exec (if (id_count d =? BT_ID_DEFAULT) && negb ready
           then bt_atomic_setbit BT_DEV_USER_ID_ADDR else ret ()) ;;
     out <- id_create fuel (id_count d) addr irk ;;
     ret (id_count d, out))).
  { apply keeps_bind; [apply keeps_get_dev|intros d].
    destruct (_ =? _); [apply keeps_ret|].
    apply keeps_bind; [by apply keeps_set_id_count|intros _].
    apply keeps_bind; [apply keeps_testbit|intros ready].
    apply keeps_bind; [destruct (_ && _); keeps_steps|intros _].
    apply keeps_bind; [apply id_create_keeps|intros out]. apply keeps_ret. }
  destruct addr as [a|]; [|done].
  destruct (negb _); [|done].
  destruct (_ || _); [apply keeps_ret|].
  apply keeps_bind; [apply id_find_keeps|intros found].
  destruct (_ >=? _); [apply keeps_ret|done].
Qed.

Lemma bt_set_id_addr_keeps (fuel : nat) (addr : bt_addr_le_t) :
  keeps (within (T:=T) fp_identity) (bt_set_id_addr fuel addr).
Proof.
  unfold bt_set_id_addr.
  apply keeps_bind; [apply keeps_testbit|intros ready].
  destruct ready; [apply keeps_ret|].
  apply keeps_bind; [apply bt_id_create_keeps|intros r]. apply keeps_ret.
Qed.

Lemma bt_id_reset_keeps (fuel : nat) (id : Z) (addr : option bt_addr_le_t)
    (irk : option (list Z)) :
  keeps (within (T:=T) fp_identity) (bt_id_reset fuel id addr irk).
Proof.
  unfold bt_id_reset. cbv zeta.
  assert (Hreset : keeps (within (T:=T) fp_identity)
    (d <- get_dev ;;
     if (id =? BT_ID_DEFAULT) || (id >=? id_count d) then ret (- EINVAL, addr) else
     adv <- bt_atomic_testbit BT_DEV_ADVERTISING ;;
     if (id =? adv_id d) && adv then ret (- EBUSY, addr) else
     err <- (if negb (bt_addr_le_cmp (id_addr_at d id) BT_ADDR_LE_ANY =? 0)
             then bt_unpair id None else ret 0) ;;
     if negb (err =? 0) then ret (err, addr) else
     out <- id_create fuel id addr irk ;;
     ret (id, out))).
  { apply keeps_bind; [apply keeps_get_dev|intros d].
    destruct (_ || _); [apply keeps_ret|].
    apply keeps_bind; [apply keeps_testbit|intros adv].
    destruct (_ && _); [apply keeps_ret|].
    apply keeps_bind; [destruct (negb _); apply keeps_ret|intros err].
    destruct (negb _); [apply keeps_ret|].
    apply keeps_bind; [apply id_create_keeps|intros out]. apply keeps_ret. }
  destruct addr as [a|]; [|done].
  destruct (negb _); [|done].
  destruct (_ || _); [apply keeps_ret|].
  apply keeps_bind; [apply id_find_keeps|intros found].
  destruct (_ >=? _); [apply keeps_ret|done].
Qed.

Lemma bt_id_delete_keeps (id : Z) :
  keeps (within (T:=T) fp_identity) (bt_id_delete id).
Proof.
  unfold bt_id_delete.
  apply keeps_bind; [apply keeps_get_dev|intros d].
  destruct (_ || _); [apply keeps_ret|].
  destruct (_ =? _); [apply keeps_ret|].
  apply keeps_bind; [apply keeps_testbit|intros adv].
  destruct (_ && _); [apply keeps_ret|].
  apply keeps_bind; [apply keeps_ret|intros err].
  destruct (negb _); [apply keeps_ret|].
  apply keeps_bind; [by apply keeps_set_id_addr|intros _].
  apply keeps_bind; [|intros _; apply keeps_ret].
  destruct (_ =? _); [by apply keeps_set_id_count|apply keeps_ret].
Qed.

Lemma run_id_op_keeps (fuel : nat) (op : id_op) :
  keeps (within (T:=T) fp_identity) (run_id_op fuel op).
Proof.
  destruct op; simpl.
  - apply keeps_bind; [apply bt_id_create_keeps|intros ?; apply keeps_ret].
  - apply keeps_bind; [apply bt_id_reset_keeps|intros ?; apply keeps_ret].
  - apply bt_id_delete_keeps.
  - apply bt_set_id_addr_keeps.
Qed.

(** *** Scanning *)

Lemma set_le_scan_enable_keeps (enable : Z) :
  keeps (within (T:=T) fp_scan) (set_le_scan_enable enable).
Proof. unfold set_le_scan_enable. keeps_steps. Qed.

Lemma start_le_scan_keeps (type itv win : Z) :
  keeps (within (T:=T) fp_scan) (start_le_scan type itv win).
Proof.
  unfold start_le_scan.
  apply keeps_bind; [keeps_steps|intros buf].
  destruct (negb buf); [apply keeps_ret|].
  apply keeps_bind; [keeps_steps|intros _].
  apply keeps_bind; [apply set_le_scan_enable_keeps|intros err].
  destruct (negb _); keeps_steps.
Qed.

Lemma bt_le_scan_start_keeps (param : bt_le_scan_param) (cb : option nat) :
  keeps (within (T:=T) fp_scan) (bt_le_scan_start param cb).
Proof.
  unfold bt_le_scan_start.
  apply keeps_bind; [apply keeps_testbit|intros ready].
  destruct (negb ready); [apply keeps_ret|].
  destruct (negb (valid_le_scan_param param)); [apply keeps_ret|].
  apply keeps_bind; [by apply keeps_testsetbit|intros explicit].
  destruct explicit; [apply keeps_ret|].
  apply keeps_bind; [apply keeps_testbit|intros scanning].
  apply keeps_bind;
    [destruct scanning; [apply set_le_scan_enable_keeps|apply keeps_ret]
    |intros err].
  destruct (negb (err =? 0)); [keeps_steps|].
  apply keeps_bind; [destruct (negb _); keeps_steps|intros _].
  apply keeps_bind; [apply start_le_scan_keeps|intros err'].
  destruct (negb (err' =? 0)); [keeps_steps|].
  apply keeps_bind; [by apply keeps_set_scan_cb|intros _]. apply keeps_ret.
Qed.

(** *** Enabling *)

Lemma bt_init_keeps : keeps (within (T:=T) fp_enabling) bt_init.
Proof. unfold bt_init, bt_conn_init, bt_finalize_init, bt_dev_show_info.
  keeps_steps. Qed.

Lemma init_work_keeps : keeps (within (T:=T) fp_enabling) init_work.
Proof.
  unfold init_work.
  apply keeps_bind; [apply bt_init_keeps|intros err].
  intros w r w' Hrun. destruct (ready_cb w) as [cb|].
  - by apply (keeps_ready_cb fp_enabling cb err eq_refl w r w').
  - by apply (keeps_ret fp_enabling () w r w').
Qed.

Lemma k_work_submit_keeps : keeps (within (T:=T) fp_enabling) k_work_submit.
Proof.
  unfold k_work_submit.
  intros w r w' Hrun. destruct (negb (g_hip_work w)).
  - revert Hrun. apply keeps_bind; [keeps_steps|intros err].
    by apply keeps_set_hip_work.
  - by apply (keeps_ret fp_enabling () w r w').
Qed.

Lemma set_name_within_enabling {A} (m : M T A) :
  keeps (within (T:=T) fp_set_name) m → keeps (within (T:=T) fp_enabling) m.
Proof.
  apply keeps_weaken; try done.
  - by intros [].
  - by intros [].
Qed.

Lemma bt_enable_keeps (cb : option nat) :
  keeps (within (T:=T) fp_enabling) (bt_enable cb).
Proof.
  unfold bt_enable.
  apply keeps_bind; [apply keeps_get_dev|intros d].
  destruct (negb _); [apply keeps_ret|].
  apply keeps_bind; [by apply keeps_testsetbit|intros already].
  destruct already; [apply keeps_ret|].
  apply keeps_bind;
    [apply set_name_within_enabling, bt_set_name_keeps|intros _].
  apply keeps_bind; [by apply keeps_set_ready_cb|intros _].
  apply keeps_bind; [keeps_steps|intros err].
  destruct (negb _); [apply keeps_ret|].
  destruct cb; [|apply bt_init_keeps].
  apply keeps_bind; [apply k_work_submit_keeps|intros _]. apply keeps_ret.
Qed.

Lemma within_any {A} (fp : footprint) (m : M T A) :
  keeps (within fp) m → keeps (within (T:=T) fp_any) m.
Proof. by apply keeps_weaken. Qed.

Lemma run_api_keeps (fuel : nat) (c : api_call) :
  keeps (within (T:=T) fp_any) (run_api fuel c).
Proof.
  destruct c; simpl.
  - eapply within_any, bt_set_name_keeps.
  - eapply within_any, bt_enable_keeps.
  - apply keeps_bind; [eapply within_any, init_work_keeps|intros _].
    apply keeps_ret.
  - eapply within_any, run_id_op_keeps.
  - eapply within_any, bt_le_scan_start_keeps.
Qed.

End Footprints.

Section FootprintTheorems.
Context {T : Type} `{!Collaborators T}.

(** X16: [bt_set_name] stays within its footprint.  It can rewrite the
    name buffer and, through the advertising restart, [adv_enable] and the
    [ADVERTISING] flag; it only creates, sends and releases HCI commands.
    Every other flag, the identity table and its count, and the callbacks
    are as before. *)
Theorem bt_set_name_footprint (new_name : list Z) (w w' : world T) (r : Z) :
  bt_set_name new_name w = Done r w' → within fp_set_name w w'.
Proof. apply bt_set_name_keeps. Qed.

(** X17: the identity operations stay within their footprint.  A
    sequence of [bt_id_create], [bt_id_reset], [bt_id_delete] and
    [bt_set_id_addr] calls can change the identity table, its count and the
    [USER_ID_ADDR] flag, and the only collaborator it calls is the random
    source: no HCI command is created or sent, and the name, the
    advertising state and every other flag are as before. *)
Theorem id_ops_footprint (fuel : nat) (ops : list id_op) (w w' : world T) :
  run_id_ops fuel ops w = Done () w' → within fp_identity w w'.
Proof.
  revert w. induction ops as [|op ops IH]; intros w Hrun.
  - injection Hrun as <-. apply within_refl.
  - simpl in Hrun. unfold bind at 1 in Hrun.
    destruct (run_id_op fuel op w) as [r w1| |] eqn:Hop; [|done|done].
    eapply within_trans; [by eapply run_id_op_keeps|by apply IH].
Qed.

(** X18: [bt_le_scan_start] stays within its footprint: the four scan
    flags ([EXPLICIT_SCAN], [SCANNING], [ACTIVE_SCAN], [SCAN_FILTER_DUP]),
    the scan callback, and HCI commands.  Whatever it returns, the name,
    the identities, the advertising state and the other flags are as
    before. *)
Theorem bt_le_scan_start_footprint (param : bt_le_scan_param)
    (cb : option nat) (w w' : world T) (r : Z) :
  bt_le_scan_start param cb w = Done r w' → within fp_scan w w'.
Proof. apply bt_le_scan_start_keeps. Qed.

(** X19: [bt_enable] and the initialisation work it queues stay within
    their footprint: the [ENABLE] and [READY] flags, what setting the
    default name touches, and the enable bookkeeping.  They never touch an
    identity or a scan flag and never ask for random bytes. *)
Theorem enabling_footprint (cb : option nat) (w w1 w2 : world T) (r : Z) :
  bt_enable cb w = Done r w1 →
  init_work w1 = Done () w2 →
  within fp_enabling w w1 ∧ within fp_enabling w w2.
Proof.
  intros Hen Hwork.
  assert (H1 : within fp_enabling w w1) by by eapply bt_enable_keeps.
  split; [done|].
  eapply within_trans; [done|by eapply init_work_keeps].
Qed.

(** X20: no sequence of calls of this file's entry points ever clears
    [READY] or [ENABLE], resizes the name buffer or the identity table,
    changes the advertising identity or the bound driver, or removes a
    call from the record. *)
Theorem api_calls_stable (fuel : nat) (cs : list api_call) (w w' : world T) :
  run_api_calls fuel cs w = Done () w' →
  (has_flag BT_DEV_READY w = true → has_flag BT_DEV_READY w' = true)
  ∧ (has_flag BT_DEV_ENABLE w = true → has_flag BT_DEV_ENABLE w' = true)
  ∧ length (name (g_btdev w')) = length (name (g_btdev w))
  ∧ length (id_addr (g_btdev w')) = length (id_addr (g_btdev w))
  ∧ adv_id (g_btdev w') = adv_id (g_btdev w)
  ∧ btdev (g_btdev w') = btdev (g_btdev w)
  ∧ ∃ calls, trace w' = calls ++ trace w.
Proof.
  intros Hrun.
  assert (H : within fp_any w w').
  { revert w Hrun. induction cs as [|c cs IH]; intros w Hrun.
    - injection Hrun as <-. apply within_refl.
    - simpl in Hrun. unfold bind at 1 in Hrun.
      destruct (run_api fuel c w) as [r w1| |] eqn:Hc; [|done|done].
      eapply within_trans; [by eapply run_api_keeps|by apply IH]. }
  destruct H as [_ Hr He _ Hn _ Hc _ Ha Hd _ _ (calls & Ht & _)].
  repeat split; try done. by exists calls.
Qed.

End FootprintTheorems.

(** X16, renaming the advertising device. *)
Lemma bt_set_name_footprint_witness :
  within fp_set_name (world_init dev_advertising ([] : list Z)) world_renamed.
Proof.
  refine (bt_set_name_footprint [67; 68; 0]
            (world_init dev_advertising ([] : list Z)) world_renamed 0 _).
  vm_compute. reflexivity.
Defined.

(** X17, the operations on three identities. *)
Lemma id_ops_footprint_witness :
  within fp_identity world_three_ids world_after_ops.
Proof.
  refine (id_ops_footprint 1 ops_on_three world_three_ids world_after_ops _).
  vm_compute. reflexivity.
Defined.

(** X18, starting a scan on the ready device. *)
Lemma bt_le_scan_start_footprint_witness :
  within fp_scan (world_init dev_ready ([] : list Z)) world_scanning.
Proof.
  refine (bt_le_scan_start_footprint scan_16 (Some 3%nat)
            (world_init dev_ready ([] : list Z)) world_scanning 0 _).
  vm_compute. reflexivity.
Defined.

(** X19, enabling with a callback and running the queued work. *)
Lemma enabling_footprint_witness :
  within fp_enabling (world_init dev_with_driver ([] : list Z)) world_enabling
  ∧ within fp_enabling (world_init dev_with_driver ([] : list Z)) world_enabled.
Proof.
  refine (enabling_footprint (Some 7%nat)
            (world_init dev_with_driver ([] : list Z))
            world_enabling world_enabled 0 _ _).
  - vm_compute. reflexivity.
  - vm_compute. reflexivity.
Defined.

(** X20, a run through every entry point. *)
Lemma api_calls_stable_witness :
  let w := world_init dev_with_driver ([] : list Z) in
  let w' := world_after_tour in
  (has_flag BT_DEV_READY w = true → has_flag BT_DEV_READY w' = true)
  ∧ (has_flag BT_DEV_ENABLE w = true → has_flag BT_DEV_ENABLE w' = true)
  ∧ length (name (g_btdev w')) = length (name (g_btdev w))
  ∧ length (id_addr (g_btdev w')) = length (id_addr (g_btdev w))
  ∧ adv_id (g_btdev w') = adv_id (g_btdev w)
  ∧ btdev (g_btdev w') = btdev (g_btdev w)
  ∧ ∃ calls, trace w' = calls ++ trace w.
Proof.
  refine (api_calls_stable 1 api_tour
            (world_init dev_with_driver ([] : list Z)) world_after_tour _).
  vm_compute. reflexivity.
Defined.

(** ** The enable pipeline *)

Section EnableMore.
Context {T : Type} `{!Collaborators T}.

(** A returning [bt_init] has set [READY] when its result is not
    negative, and has left the device state alone when it is. *)
Lemma bt_init_done (w w' : world T) (r : Z) :
  bt_init w = Done r w' →
  (0 ≤ r → g_btdev w' = g_btdev (set_flag BT_DEV_READY w))
  ∧ (r < 0 → g_btdev w' = g_btdev w)
  ∧ ready_cb w' = ready_cb w
  ∧ ∃ s1, trace w' = [HciInitialize s1] ++ trace w ∧ s1 < 0 ∧ r = s1
          ∨ trace w' = [L2capInit r; HciInitialize s1] ++ trace w ∧ 0 ≤ s1.
Proof.
  unfold bt_init, bt_conn_init, bt_finalize_init, bt_dev_show_info.
  unfold bind at 1, hci_initialize.
  destruct (hci_init (ext w)) as [s1 t1].
  destruct (Z.ltb_spec s1 0) as [Hs1|Hs1].
  { intros [= <- <-]. repeat split; try (done || lia). exists s1. by left. }
  unfold bind at 1, bind at 1, bt_l2cap_init. msimpl.
  destruct (l2cap_init t1) as [s2 t2].
  destruct (Z.ltb_spec s2 0) as [Hs2|Hs2]; msimpl.
  - rewrite (proj2 (Z.ltb_lt s2 0) Hs2). intros [= <- <-].
    repeat split; try (done || lia). exists s1. by right.
  - rewrite (proj2 (Z.ltb_ge s2 0) Hs2). msimpl. intros [= <- <-].
    repeat split; try (done || lia). exists s1. by right.
Qed.

(** X21: [bt_init] brings up the link layer only after the HCI
    initialisation has succeeded, returns the first negative status or
    else the status of the link layer, and sets [READY] exactly when that
    result is not negative; after a failure the device state is as it
    was. *)
Theorem bt_init_outcome (w w' : world T) (r : Z) :
  bt_init w = Done r w' →
  (0 ≤ r → has_flag BT_DEV_READY w' = true)
  ∧ (r < 0 → g_btdev w' = g_btdev w)
  ∧ ∃ s1, trace w' = [HciInitialize s1] ++ trace w ∧ s1 < 0 ∧ r = s1
          ∨ trace w' = [L2capInit r; HciInitialize s1] ++ trace w ∧ 0 ≤ s1.
Proof.
  intros (Hok & Hfail & _ & Htrace)%bt_init_done.
  split; [|by split].
  intros Hr. unfold has_flag. rewrite (Hok Hr).
  apply (has_flag_set_flag BT_DEV_READY BT_DEV_READY w).
Qed.

(** What a returning [bt_enable] has gone through. *)
Lemma bt_enable_done (cb : option nat) (w w' : world T) (r : Z) :
  bt_enable cb w = Done r w' →
  r = - ENODEV ∧ w' = w
  ∨ r = - EALREADY
  ∨ ∃ r0 wn err wo,
      bt_set_name CONFIG_BT_DEVICE_NAME (set_flag BT_DEV_ENABLE w) = Done r0 wn
      ∧ bt_drv_open (with_ready_cb cb wn) = Done err wo
      ∧ (err ≠ 0 ∧ r = err ∧ w' = wo
         ∨ err = 0
           ∧ match cb with
             | None => bt_init wo = Done r w'
             | Some _ => r = 0 ∧ k_work_submit wo = Done () w'
             end).
Proof.
  unfold bt_enable, bind at 1, get_dev at 1. cbn beta iota.
  destruct (btdev (g_btdev w)); [|intros [= <- <-]; by left]. cbn [negb].
  unfold bind at 1, bt_atomic_testsetbit, bind at 1, bt_atomic_testbit. msimpl.
  destruct (Z.testbit _ _); [intros [= <- _]; by right; left|].
  change (with_dev _ w) with (set_flag BT_DEV_ENABLE w).
  unfold bind at 1.
  destruct (bt_set_name _ _) as [r0 wn| |] eqn:Hname; [|done|done].
  unfold bind at 1. cbn beta iota. unfold bind at 1.
  destruct (bt_drv_open (with_ready_cb cb wn)) as [err wo| |] eqn:Hopen;
    [|done|done].
  intros Hrest. right. right. exists r0, wn, err, wo.
  split; [done|]. split; [done|].
  destruct (Z.eqb_spec err 0) as [->|Herr]; cbn [negb] in Hrest.
  - right. split; [done|]. destruct cb as [c|]; [|done].
    unfold bind in Hrest.
    destruct (k_work_submit wo) as [[] w2| |]; [|done|done].
    by injection Hrest as <- <-.
  - left. by injection Hrest as <- <-.
Qed.

(** Queueing the work changes neither the device state nor the
    callback. *)
Lemma k_work_submit_done (w w' : world T) :
  k_work_submit w = Done () w' →
  g_btdev w' = g_btdev w ∧ ready_cb w' = ready_cb w.
Proof.
  unfold k_work_submit. destruct (negb (g_hip_work w)); [|by intros [= <-]].
  unfold bind, work_queue. destruct (hp_work_queue _) as [st t].
  by intros [= <-].
Qed.

(** X22: a [bt_enable] without a callback that returns 0 has run the
    whole initialisation: [ENABLE] and [READY] are both set. *)
Theorem bt_enable_sync_ready (w w' : world T) :
  bt_enable None w = Done 0 w' →
  has_flag BT_DEV_ENABLE w' = true ∧ has_flag BT_DEV_READY w' = true.
Proof.
  intros Hrun.
  destruct (bt_enable_done _ _ _ _ Hrun)
    as [[? _]|[?|(r0 & wn & err & wo & Hname & Hopen & Hrest)]]; [done|done|].
  destruct Hrest as [(? & ? & _)|[-> Hinit]]; [congruence|].
  apply bt_set_name_keeps in Hname.
  assert (He : has_flag BT_DEV_ENABLE wn = true).
  { apply (within_enabled _ _ _ Hname).
    rewrite has_flag_set_flag. by destruct (decide _). }
  unfold bt_drv_open in Hopen. cbn [ext with_ready_cb] in Hopen.
  destruct (drv_open (ext wn)) as [st t]. injection Hopen as _ <-.
  apply bt_init_done in Hinit as (Hok & _).
  unfold has_flag. rewrite Hok by done.
  split.
  - change (has_flag BT_DEV_ENABLE (set_flag BT_DEV_READY wn) = true).
    rewrite has_flag_set_flag. by destruct (decide _).
  - change (has_flag BT_DEV_READY (set_flag BT_DEV_READY wn) = true).
    rewrite has_flag_set_flag. by destruct (decide _).
Qed.

(** X23: a [bt_enable] with a callback that returns 0 has not
    initialised anything yet: [READY] is as before and the callback is
    stored.  When the initialisation work then runs, it runs [bt_init]
    and its last act is to call that callback with the very value
    [bt_init] returned: the HCI status when that is negative, else the
    status of the link layer.  [READY] is set if that value is not
    negative, and the device state is as before if it is. *)
Theorem bt_enable_async_callback (c : nat) (w w1 w2 : world T) :
  bt_enable (Some c) w = Done 0 w1 →
  init_work w1 = Done () w2 →
  has_flag BT_DEV_READY w1 = has_flag BT_DEV_READY w
  ∧ ready_cb w1 = Some c
  ∧ ∃ err w3 rest,
      bt_init w1 = Done err w3
      ∧ w2 = with_ext (ext w3) (ReadyCb c err) w3
      ∧ trace w2 = ReadyCb c err :: rest ++ trace w1
      ∧ rest ≠ []
      ∧ (∃ s1, rest = [HciInitialize s1] ∧ s1 < 0 ∧ err = s1
               ∨ rest = [L2capInit err; HciInitialize s1] ∧ 0 ≤ s1)
      ∧ (0 ≤ err → has_flag BT_DEV_READY w2 = true)
      ∧ (err < 0 → g_btdev w2 = g_btdev w1).
Proof.
  intros Hrun Hwork.
  destruct (bt_enable_done _ _ _ _ Hrun)
    as [[? _]|[?|(r0 & wn & err & wo & Hname & Hopen & Hrest)]]; [done|done|].
  destruct Hrest as [(? & ? & _)|[-> [_ Hsub]]]; [congruence|].
  apply bt_set_name_keeps in Hname.
  apply k_work_submit_done in Hsub as [Hd1 Hcb1].
  unfold bt_drv_open in Hopen. cbn [ext with_ready_cb] in Hopen.
  destruct (drv_open (ext wn)) as [st t]. injection Hopen as _ <-.
  assert (Hcb : ready_cb w1 = Some c) by by rewrite Hcb1.
  split; [|split; [done|]].
  - unfold has_flag. rewrite Hd1.
    change (has_flag BT_DEV_READY wn = has_flag BT_DEV_READY w).
    rewrite (within_flags _ _ _ Hname) by done.
    rewrite has_flag_set_flag. by destruct (decide _).
  - unfold init_work, bind in Hwork.
    destruct (bt_init w1) as [e w3| |] eqn:Hinit; [|done|done].
    destruct (bt_init_done _ _ _ Hinit) as (Hok & Hfail & Hcb3 & s1 & Htr).
    rewrite Hcb3, Hcb in Hwork. injection Hwork as <-.
    exists e, w3. cbn [trace with_ext g_btdev].
    destruct Htr as [(Ht & ? & ?)|[Ht ?]]; rewrite Ht;
      [exists [HciInitialize s1]|exists [L2capInit e; HciInitialize s1]];
      (split; [done|]; split; [done|]; split; [done|]; split; [done|];
       split; [exists s1; by eauto|]; split; [|done]).
    all: intros He; unfold has_flag; cbn [g_btdev with_ext];
      rewrite Hok by done;
      apply (has_flag_set_flag BT_DEV_READY BT_DEV_READY w1).
Qed.

(** X24: without a driver [bt_enable] returns [-ENODEV] and nothing has
    changed, [ENABLE] included: the call can be repeated once a driver is
    bound. *)
Theorem bt_enable_no_driver (cb : option nat) (w : world T) :
  btdev (g_btdev w) = false →
  bt_enable cb w = Done (- ENODEV) w.
Proof.
  intros Hdrv. unfold bt_enable, bind, get_dev. by rewrite Hdrv.
Qed.

End EnableMore.

(** X21, with a link layer that fails after the HCI initialisation. *)
Lemma bt_init_outcome_witness :
  let w := world_init dev_with_driver [0; -3] in
  (0 ≤ -3 → has_flag BT_DEV_READY world_init_failed = true)
  ∧ (-3 < 0 → g_btdev world_init_failed = g_btdev w)
  ∧ ∃ s1, trace world_init_failed = [HciInitialize s1] ++ trace w
          ∧ s1 < 0 ∧ -3 = s1
          ∨ trace world_init_failed
            = [L2capInit (-3); HciInitialize s1] ++ trace w ∧ 0 ≤ s1.
Proof.
  refine (bt_init_outcome (world_init dev_with_driver [0; -3])
            world_init_failed (-3) _).
  vm_compute. reflexivity.
Defined.

(** X22, on a device with a driver and collaborators that succeed. *)
Lemma bt_enable_sync_ready_witness :
  has_flag BT_DEV_ENABLE world_enabled_sync = true
  ∧ has_flag BT_DEV_READY world_enabled_sync = true.
Proof.
  refine (bt_enable_sync_ready (world_init dev_with_driver ([] : list Z))
            world_enabled_sync _).
  vm_compute. reflexivity.
Defined.

(** X23, enabling with callback 7 and then running the queued work, with
    a link layer that answers 5: the callback is called with 5. *)
Lemma bt_enable_async_callback_witness :
  let w := world_init dev_with_driver [0; 0; 0; 5] in
  has_flag BT_DEV_READY world_queued = has_flag BT_DEV_READY w
  ∧ ready_cb world_queued = Some 7%nat
  ∧ ∃ err w3 rest,
      bt_init world_queued = Done err w3
      ∧ world_called_back = with_ext (ext w3) (ReadyCb 7 err) w3
      ∧ trace world_called_back = ReadyCb 7 err :: rest ++ trace world_queued
      ∧ rest ≠ []
      ∧ (∃ s1, rest = [HciInitialize s1] ∧ s1 < 0 ∧ err = s1
               ∨ rest = [L2capInit err; HciInitialize s1] ∧ 0 ≤ s1)
      ∧ (0 ≤ err → has_flag BT_DEV_READY world_called_back = true)
      ∧ (err < 0 → g_btdev world_called_back = g_btdev world_queued).
Proof.
  refine (bt_enable_async_callback 7 (world_init dev_with_driver [0; 0; 0; 5])
            world_queued world_called_back _ _).
  - vm_compute. reflexivity.
  - vm_compute. reflexivity.
Defined.

(** The run behind the witness of X23: the callback gets the 5. *)
Example bt_enable_async_callback_run :
  trace world_called_back
  = [ReadyCb 7 5; L2capInit 5; HciInitialize 0; WorkQueue 0; DrvOpen 0].
Proof. reflexivity. Qed.

(** X24, on the device at program start, where no driver is bound. *)
Lemma bt_enable_no_driver_witness :
  bt_enable None (world_init (dev_init 8 2) ([] : list Z))
  = Done (- ENODEV) (world_init (dev_init 8 2) []).
Proof.
  refine (bt_enable_no_driver None (world_init (dev_init 8 2) ([] : list Z)) _).
  reflexivity.
Defined.

(** ** The LE scan controller: a start that succeeds *)

Lemma has_flag_with_ext {T} (f : bt_dev_flag) (t : T) (c : call) (w : world T) :
  has_flag f (with_ext t c w) = has_flag f w.
Proof. done. Qed.

Lemma has_flag_with_scan_cb {T} (f : bt_dev_flag) (cb : option nat) (w : world T) :
  has_flag f (with_scan_cb cb w) = has_flag f w.
Proof. done. Qed.

Section ScanMore.
Context {T : Type} `{!Collaborators T}.

(** A scan-enable command that returned 0 was created and sent, carrying
    the duplicate filter only when enabling, and has updated [SCANNING]. *)
Lemma set_le_scan_enable_ok (enable : Z) (w w' : world T) :
  set_le_scan_enable enable w = Done 0 w' →
  ∃ t1 t2,
    w' = (if negb (enable =? 0) then set_flag BT_DEV_SCANNING
          else clr_flag BT_DEV_SCANNING)
           (with_ext t2
              (CmdSendSync BT_HCI_OP_LE_SET_SCAN_ENABLE
                 (CpScanEnable enable
                    (if enable =? BT_LE_SCAN_ENABLE
                     then b2z (has_flag BT_DEV_SCAN_FILTER_DUP w)
                     else BT_LE_SCAN_FILTER_DUP_DISABLE)) 0)
              (with_ext t1 (CmdCreate BT_HCI_OP_LE_SET_SCAN_ENABLE 2 true) w)).
Proof.
  unfold set_le_scan_enable, bind at 1, bt_hci_cmd_create.
  destruct (hci_cmd_create _ _ _) as [[|] t1]; cbn beta iota; cbn [negb];
    [|by intros [= ? _]].
  unfold bind at 1.
  set (w1 := with_ext t1 _ w).
  assert ((if enable =? BT_LE_SCAN_ENABLE
           then b <- bt_atomic_testbit BT_DEV_SCAN_FILTER_DUP ;; ret (b2z b)
           else ret BT_LE_SCAN_FILTER_DUP_DISABLE) w1
          = Done (if enable =? BT_LE_SCAN_ENABLE
                  then b2z (has_flag BT_DEV_SCAN_FILTER_DUP w)
                  else BT_LE_SCAN_FILTER_DUP_DISABLE) w1) as ->.
  { by destruct (_ =? _). }
  unfold bind at 1, bt_hci_cmd_send_sync. cbn [ext w1 with_ext].
  destruct (hci_cmd_send_sync _ _ _) as [st t2].
  destruct (Z.eqb_spec st 0) as [->|Hst]; cbn [negb]; [|by intros [= ? _]].
  intros Hrun. exists t1, t2.
  destruct (negb (enable =? 0)); by injection Hrun as <-.
Qed.

(** A [start_le_scan] that returned 0 has sent the parameters, enabled
    the scan, and recorded the scan type in [ACTIVE_SCAN]. *)
Lemma start_le_scan_ok (type itv win : Z) (w w' : world T) :
  start_le_scan type itv win w = Done 0 w' →
  ∃ t1 w3,
    set_le_scan_enable BT_LE_SCAN_ENABLE
      (scan_params_sent type itv win
         (with_ext t1 (CmdCreate BT_HCI_OP_LE_SET_SCAN_PARAMS 7 true) w))
    = Done 0 w3
    ∧ w' = (if type =? BT_LE_SCAN_ACTIVE then set_flag BT_DEV_ACTIVE_SCAN
            else clr_flag BT_DEV_ACTIVE_SCAN) w3.
Proof.
  unfold start_le_scan, bind at 1, bt_hci_cmd_create.
  destruct (hci_cmd_create _ _ _) as [[|] t1]; cbn beta iota; cbn [negb];
    [|by intros [= ? _]].
  unfold bind at 1, bt_hci_cmd_send at 1. cbn beta iota.
  unfold bind at 1.
  fold (scan_params_sent type itv win
          (with_ext t1 (CmdCreate BT_HCI_OP_LE_SET_SCAN_PARAMS 7 true) w)).
  destruct (set_le_scan_enable _ _) as [err w3| |] eqn:Hen; [|done|done].
  destruct (Z.eqb_spec err 0) as [->|Herr]; cbn [negb]; [|by intros [= ? _]].
  intros Hrun. exists t1, w3. split; [done|].
  destruct (type =? BT_LE_SCAN_ACTIVE); by injection Hrun as <-.
Qed.

(** X25: a [bt_le_scan_start] that returns 0 was called on a ready
    device with valid parameters and no explicit scan in progress.  It has
    stopped a scan that was running, sent the parameters (active or
    passive, interval, window) and enabled scanning with the duplicate
    filter as requested, all in that order; afterwards [EXPLICIT_SCAN] and
    [SCANNING] are set, [ACTIVE_SCAN] and [SCAN_FILTER_DUP] say what was
    requested, and the callback is stored. *)
Theorem bt_le_scan_start_success (param : bt_le_scan_param) (cb : option nat)
    (w w' : world T) :
  bt_le_scan_start param cb w = Done 0 w' →
  has_flag BT_DEV_READY w = true
  ∧ valid_le_scan_param param = true
  ∧ has_flag BT_DEV_EXPLICIT_SCAN w = false
  ∧ has_flag BT_DEV_EXPLICIT_SCAN w' = true
  ∧ has_flag BT_DEV_SCANNING w' = true
  ∧ has_flag BT_DEV_ACTIVE_SCAN w' = (scan_type param =? BT_LE_SCAN_ACTIVE)
  ∧ has_flag BT_DEV_SCAN_FILTER_DUP w' = negb (filter_dup param =? 0)
  ∧ scan_dev_found_cb w' = cb
  ∧ trace w'
    = [CmdSendSync BT_HCI_OP_LE_SET_SCAN_ENABLE
         (CpScanEnable BT_LE_SCAN_ENABLE (b2z (negb (filter_dup param =? 0)))) 0;
       CmdCreate BT_HCI_OP_LE_SET_SCAN_ENABLE 2 true;
       CmdSend BT_HCI_OP_LE_SET_SCAN_PARAMS
         (CpScanParams (scan_type param) (interval param) (window param) 0 0);
       CmdCreate BT_HCI_OP_LE_SET_SCAN_PARAMS 7 true]
      ++ (if has_flag BT_DEV_SCANNING w
          then [CmdSendSync BT_HCI_OP_LE_SET_SCAN_ENABLE
                  (CpScanEnable BT_LE_SCAN_DISABLE BT_LE_SCAN_FILTER_DUP_DISABLE) 0;
                CmdCreate BT_HCI_OP_LE_SET_SCAN_ENABLE 2 true]
          else [])
      ++ trace w.
Proof.
  intros Hrun. unfold bt_le_scan_start in Hrun.
  unfold bind at 1, bt_atomic_testbit at 1 in Hrun. cbn beta iota in Hrun.
  fold (has_flag BT_DEV_READY w) in Hrun.
  destruct (has_flag BT_DEV_READY w) eqn:Hready; cbn [negb] in Hrun;
    [|by injection Hrun].
  destruct (valid_le_scan_param param) eqn:Hvalid; cbn [negb] in Hrun;
    [|by injection Hrun].
  unfold bind at 1, bt_atomic_testsetbit, bind at 1, bt_atomic_testbit at 1
    in Hrun.
  cbn beta iota in Hrun. fold (has_flag BT_DEV_EXPLICIT_SCAN w) in Hrun.
  unfold bind at 1, bt_atomic_setbit at 1, modify_dev at 1 in Hrun.
  cbn beta iota in Hrun.
  change (with_dev _ w) with (set_flag BT_DEV_EXPLICIT_SCAN w) in Hrun.
  set (w1 := set_flag BT_DEV_EXPLICIT_SCAN w) in Hrun.
  destruct (has_flag BT_DEV_EXPLICIT_SCAN w) eqn:Hexp; [by injection Hrun|].
  unfold ret at 1 in Hrun. cbn beta iota in Hrun.
  unfold bind at 1, bt_atomic_testbit at 1 in Hrun. cbn beta iota in Hrun.
  fold (has_flag BT_DEV_SCANNING w1) in Hrun.
  assert (Hs1 : has_flag BT_DEV_SCANNING w1 = has_flag BT_DEV_SCANNING w).
  { unfold w1. rewrite has_flag_set_flag. by destruct (decide _). }
  rewrite Hs1 in Hrun.
  unfold bind at 1 in Hrun.
  destruct ((if has_flag BT_DEV_SCANNING w
             then set_le_scan_enable BT_LE_SCAN_DISABLE else ret 0) w1)
    as [err w2| |] eqn:Hdis; [|done|done].
  destruct (Z.eqb_spec err 0) as [->|Herr]; cbn [negb] in Hrun; cycle 1.
  { unfold bind in Hrun. by injection Hrun. }
  unfold bind at 1 in Hrun.
  set (w3 := (if negb (filter_dup param =? 0)
              then set_flag BT_DEV_SCAN_FILTER_DUP w2
              else clr_flag BT_DEV_SCAN_FILTER_DUP w2)).
  assert ((if negb (filter_dup param =? 0)
           then bt_atomic_setbit BT_DEV_SCAN_FILTER_DUP
           else bt_atomic_clrbit BT_DEV_SCAN_FILTER_DUP) w2 = Done () w3) as Hw3.
  { unfold w3. by destruct (negb _). }
  rewrite Hw3 in Hrun. unfold bind at 1 in Hrun.
  destruct (start_le_scan _ _ _ w3) as [err4 w4| |] eqn:Hstart; [|done|done].
  destruct (Z.eqb_spec err4 0) as [->|Herr4]; cbn [negb] in Hrun; cycle 1.
  { unfold bind in Hrun. by injection Hrun. }
  unfold bind in Hrun. injection Hrun as <-.
  apply start_le_scan_ok in Hstart as (t1 & w5 & Hen & ->).
  apply set_le_scan_enable_ok in Hen as (t2 & t3 & ->).
  assert (Hfd3 : has_flag BT_DEV_SCAN_FILTER_DUP w3 = negb (filter_dup param =? 0)).
  { unfold w3. destruct (negb _);
      rewrite ?has_flag_set_flag, ?has_flag_clr_flag; by destruct (decide _). }
  assert (Hw2 : trace w2
                = (if has_flag BT_DEV_SCANNING w
                   then [CmdSendSync BT_HCI_OP_LE_SET_SCAN_ENABLE
                           (CpScanEnable BT_LE_SCAN_DISABLE
                              BT_LE_SCAN_FILTER_DUP_DISABLE) 0;
                         CmdCreate BT_HCI_OP_LE_SET_SCAN_ENABLE 2 true]
                   else []) ++ trace w
                ∧ has_flag BT_DEV_EXPLICIT_SCAN w2 = true).
  { clear Hw3 Hfd3. destruct (has_flag BT_DEV_SCANNING w).
    - apply set_le_scan_enable_ok in Hdis as (u1 & u2 & Hw2eq).
      rewrite Hw2eq. change (negb (BT_LE_SCAN_DISABLE =? 0)) with false.
      cbn iota. split; [done|].
      rewrite has_flag_clr_flag. destruct (decide _); [done|].
      rewrite !has_flag_with_ext. unfold w1. rewrite has_flag_set_flag.
      by destruct (decide _).
    - injection Hdis as <-. split; [done|].
      unfold w1. rewrite has_flag_set_flag. by destruct (decide _). }
  destruct Hw2 as (Htr2 & Hexp2).
  assert (Htr3 : trace w3 = trace w2) by (unfold w3; by destruct (negb _)).
  assert (Hexp3 : has_flag BT_DEV_EXPLICIT_SCAN w3 = true).
  { unfold w3. destruct (negb _);
      rewrite ?has_flag_set_flag, ?has_flag_clr_flag; by destruct (decide _). }
  change (negb (BT_LE_SCAN_ENABLE =? 0)) with true. cbn iota.
  change (BT_LE_SCAN_ENABLE =? BT_LE_SCAN_ENABLE) with true. cbn iota.
  unfold scan_params_sent. rewrite !has_flag_with_ext, Hfd3.
  repeat split; try done.
  1-4: destruct (scan_type param =? BT_LE_SCAN_ACTIVE);
    repeat first [rewrite has_flag_with_scan_cb | rewrite has_flag_with_ext
                 | rewrite has_flag_set_flag | rewrite has_flag_clr_flag];
    repeat (destruct (decide _); try done).
  - destruct (scan_type param =? BT_LE_SCAN_ACTIVE);
      cbn [trace with_scan_cb set_flag clr_flag with_dev with_ext];
      by rewrite Htr3, Htr2.
Qed.

End ScanMore.

(** X25, starting a scan on the ready device. *)
Lemma bt_le_scan_start_success_witness :
  let w := world_init dev_ready ([] : list Z) in
  let w' := world_scanning in
  has_flag BT_DEV_READY w = true
  ∧ valid_le_scan_param scan_16 = true
  ∧ has_flag BT_DEV_EXPLICIT_SCAN w = false
  ∧ has_flag BT_DEV_EXPLICIT_SCAN w' = true
  ∧ has_flag BT_DEV_SCANNING w' = true
  ∧ has_flag BT_DEV_ACTIVE_SCAN w' = (scan_type scan_16 =? BT_LE_SCAN_ACTIVE)
  ∧ has_flag BT_DEV_SCAN_FILTER_DUP w' = negb (filter_dup scan_16 =? 0)
  ∧ scan_dev_found_cb w' = Some 3%nat
  ∧ trace w'
    = [CmdSendSync BT_HCI_OP_LE_SET_SCAN_ENABLE
         (CpScanEnable BT_LE_SCAN_ENABLE (b2z (negb (filter_dup scan_16 =? 0)))) 0;
       CmdCreate BT_HCI_OP_LE_SET_SCAN_ENABLE 2 true;
       CmdSend BT_HCI_OP_LE_SET_SCAN_PARAMS
         (CpScanParams (scan_type scan_16) (interval scan_16) (window scan_16) 0 0);
       CmdCreate BT_HCI_OP_LE_SET_SCAN_PARAMS 7 true]
      ++ (if has_flag BT_DEV_SCANNING w
          then [CmdSendSync BT_HCI_OP_LE_SET_SCAN_ENABLE
                  (CpScanEnable BT_LE_SCAN_DISABLE BT_LE_SCAN_FILTER_DUP_DISABLE) 0;
                CmdCreate BT_HCI_OP_LE_SET_SCAN_ENABLE 2 true]
          else [])
      ++ trace w.
Proof.
  refine (bt_le_scan_start_success scan_16 (Some 3%nat)
            (world_init dev_ready ([] : list Z)) world_scanning _).
  vm_compute. reflexivity.
Defined.

(** ** Printing helpers *)

(** X26: [ver_str] names the HCI versions 0 to 10, each with a name of
    its own, and answers "unknown" for exactly the version numbers from 11
    on. *)
Theorem ver_str_spec (v v' : Z) :
  0 ≤ v < 256 → 0 ≤ v' < 256 →
  (ver_str v = "unknown"%string ↔ 11 ≤ v)
  ∧ (v < 11 → v' < 11 → ver_str v = ver_str v' → v = v').
Proof.
  intros Hv Hv'.
  assert (Hhigh : ∀ x, 11 ≤ x → ver_str x = "unknown"%string).
  { intros x Hx. unfold ver_str. cbn [length]. by cmp_cases. }
  assert (Hlow : ∀ x, 0 ≤ x < 11 →
            x = 0 ∨ x = 1 ∨ x = 2 ∨ x = 3 ∨ x = 4 ∨ x = 5 ∨ x = 6 ∨ x = 7
            ∨ x = 8 ∨ x = 9 ∨ x = 10) by (intros; lia).
  split; [split|].
  - intros Hu. destruct (Z_lt_ge_dec v 11) as [Hlt|]; [|lia].
    destruct (Hlow v ltac:(lia)) as [->|[->|[->|[->|[->|[->|[->|[->|[->|[->| ->]]]]]]]]]];
      discriminate Hu.
  - apply Hhigh.
  - intros Hlt Hlt' Heq.
    destruct (Hlow v ltac:(lia)) as [->|[->|[->|[->|[->|[->|[->|[->|[->|[->| ->]]]]]]]]]];
      destruct (Hlow v' ltac:(lia)) as [->|[->|[->|[->|[->|[->|[->|[->|[->|[->| ->]]]]]]]]]];
      (reflexivity || discriminate Heq).
Qed.

Lemma ver_str_spec_witness :
  (ver_str 9 = "unknown"%string ↔ 11 ≤ 9)
  ∧ (9 < 11 → 6 < 11 → ver_str 9 = ver_str 6 → 9 = 6).
Proof.
  refine (ver_str_spec 9 6 _ _); lia.
Defined.

Section AddrStrProofs.
Variable to_str : bt_addr_le_t → list Z → list Z.

(** X27: [bt_addr_le_str] hands out its two buffers in turn.  Two
    consecutive calls return different buffers, and the first result is
    still intact after the second call; the third call returns the buffer
    of the first one again and overwrites it with the third address. *)
Theorem bt_addr_le_str_rotates (a1 a2 a3 : bt_addr_le_t) (s : addr_str_s) :
  length (bufs s) = 2%nat → 0 ≤ cur s < 2 →
  ∃ p1 p2 s1 s2 s3 b1,
    bt_addr_le_str to_str a1 s = Some (p1, s1)
    ∧ bt_addr_le_str to_str a2 s1 = Some (p2, s2)
    ∧ bt_addr_le_str to_str a3 s2 = Some (p1, s3)
    ∧ p1 ≠ p2
    ∧ bufs s1 !! p1 = Some b1
    ∧ bufs s2 !! p1 = Some b1
    ∧ bufs s3 !! p1 = Some (to_str a3 b1)
    ∧ cur s3 = cur s1.
Proof.
  intros Hlen Hcur. destruct s as [[|b0 [|b1 [|? ?]]] c]; try done.
  simpl in Hcur.
  assert (c = 0 ∨ c = 1) as [-> | ->] by lia.
  - exists 0%nat, 1%nat. do 3 eexists. exists (to_str a1 b0).
    repeat split; (reflexivity || done).
  - exists 1%nat, 0%nat. do 3 eexists. exists (to_str a1 b1).
    repeat split; (reflexivity || done).
Qed.

End AddrStrProofs.

Lemma bt_addr_le_str_rotates_witness :
  ∃ p1 p2 s1 s2 s3 b1,
    bt_addr_le_str to_str_bytes (static_addr 1) addr_str_init = Some (p1, s1)
    ∧ bt_addr_le_str to_str_bytes (static_addr 2) s1 = Some (p2, s2)
    ∧ bt_addr_le_str to_str_bytes (static_addr 3) s2 = Some (p1, s3)
    ∧ p1 ≠ p2
    ∧ bufs s1 !! p1 = Some b1
    ∧ bufs s2 !! p1 = Some b1
    ∧ bufs s3 !! p1 = Some (to_str_bytes (static_addr 3) b1)
    ∧ cur s3 = cur s1.
Proof.
  refine (bt_addr_le_str_rotates to_str_bytes (static_addr 1) (static_addr 2)
            (static_addr 3) addr_str_init _ _).
  - reflexivity.
  - simpl. lia.
Defined.

Section RandomFailure.
Context {T : Type} `{!Collaborators T}.


End RandomFailure.

